(** * mindnest: embedding pipeline, scoped retrieval, answer streaming

    A shallow embedding of the AI module of the server
    ([ai-embedding.service.ts], [ai-search.service.ts],
    [ai-search.controller.ts]) and of the client-side licence check
    ([current-user-atom.ts] and the [useLicense] hook), with the properties
    the specification states about them.

    Conventions.
    - A JavaScript string is its sequence of UTF-16 code units, so that
      [.length], [.slice] and [.trim] mean what they mean in the source.
    - [async] code is sequential here: every [await] is a call of an
      external collaborator (database, embedding backend, language model)
      whose answer is read from an oracle, and which may throw.
    - The services run in a state-and-exception monad.  The state holds the
      [page_embeddings] table, the log of external calls issued so far and
      the chunks written to the HTTP response. *)

From Stdlib Require Import QArith.
From stdpp Require Import base numbers list strings gmap sorting pretty.
From Equations Require Import Equations.

Set Default Proof Using "Type".
Local Open Scope nat_scope.

(** ** JavaScript values *)

Module JS.

(** A string is a list of UTF-16 code units. *)
Definition jsstring := list N.

(** ASCII literals of the source. *)
Definition js (s : string) : jsstring :=
  Ascii.N_of_ascii <$> String.list_ascii_of_string s.
Global Arguments js : simpl never.

(** ECMAScript [WhiteSpace] and [LineTerminator] code points, the ones
    [String.prototype.trim] strips. *)
Definition isWhiteSpace (c : N) : bool :=
  bool_decide (c ∈ [9; 10; 11; 12; 13; 32; 160; 5760; 8232; 8233; 8239;
                     8287; 12288; 65279]%N)
  || (8192 <=? c)%N && (c <=? 8202)%N.

Fixpoint trimStart (s : jsstring) : jsstring :=
  match s with
  | [] => []
  | c :: s' => if isWhiteSpace c then trimStart s' else s
  end.

Definition trimEnd (s : jsstring) : jsstring :=
  reverse (trimStart (reverse s)).

Definition trim (s : jsstring) : jsstring := trimEnd (trimStart s).

(** Truthiness of a [string | undefined] / [string | null] value: absent and
    empty strings are falsy. *)
Definition truthy (s : option jsstring) : bool :=
  match s with
  | Some (_ :: _) => true
  | _ => false
  end.

(** [a.join(sep)] on an array of strings. *)
Fixpoint join (sep : jsstring) (l : list jsstring) : jsstring :=
  match l with
  | [] => []
  | [x] => x
  | x :: l' => x ++ sep ++ join sep l'
  end.

(** [a.slice(i, j)] for [0 <= i <= j]. *)
Definition slice {A} (l : list A) (i j : nat) : list A :=
  take (j - i) (drop i l).

(** What a [throw] carries: an [Error] object with its message, or any other
    value, kept as [String(err)]. *)
Inductive Thrown :=
  | ErrorObj (message : jsstring)
  | NonError (stringified : jsstring).

(** Property values of a plain object. *)
Inductive value :=
  | VUndefined
  | VNull
  | VBool (b : bool)
  | VNum (z : Z)
  | VStr (s : jsstring).

(** The names every plain object inherits from [Object.prototype]: a property
    read with one of them finds the inherited member, a function, or the
    prototype itself for [__proto__]. *)
Definition objectPrototype : list jsstring :=
  [ js "constructor"; js "hasOwnProperty"; js "isPrototypeOf";
    js "propertyIsEnumerable"; js "toLocaleString"; js "toString";
    js "valueOf"; js "__proto__"; js "__defineGetter__";
    js "__defineSetter__"; js "__lookupGetter__"; js "__lookupSetter__" ].

(** What a property read on an object literal of numbers evaluates to, when
    it is not undefined: a number, or the member inherited under that
    name. *)
Inductive member :=
  | Number (n : Z)
  | Inherited (name : jsstring).

End JS.
Export JS.

(** ** Client: the licence atoms *)

Module License.

(** [IWorkspace] and [IUser] are declared outside the files at hand; they are
    plain objects, modelled as finite maps from property names to values. *)
Record ICurrentUser := {
  user : option (gmap string value);
  workspace : option (gmap string value);
}.

(** The hook's result object. *)
Record LicenseInfo := { hasLicenseKey : bool }.

(** [useLicense]: reads [currentUserAtom] and ignores it. *)
Definition useLicense (currentUser : option ICurrentUser) : LicenseInfo :=
  {| hasLicenseKey := true |}.

(** Getter of [userAtom]: [currentUser?.user ?? null]. *)
Definition userAtom_get (currentUser : option ICurrentUser)
  : option (gmap string value) :=
  cu ← currentUser; user cu.

(** Getter of [workspaceAtom]. *)
Definition workspaceAtom_get (currentUser : option ICurrentUser)
  : option (gmap string value) :=
  match cu ← currentUser; workspace cu with
  | Some workspace => Some (<["hasLicenseKey" := VBool true]> workspace)
  | None => None
  end.

End License.

(** ** Server: database tables *)

Module Db.

(** An embedding, [number[]] in the source and [vector] in the table. *)
Definition Vector := list Q.

(** The [metadata] column: [JSON.stringify({ text: chunk })] cast to
    [jsonb]. *)
Record Metadata := { text : jsstring }.

(** Table [page_embeddings], with the columns of the [INSERT].  A missing
    [embeddings[j]] is bound as SQL [NULL].  A row holds the values bound by
    the statement; whether the database takes a dimension that is not a
    number is left to the failures of the world. *)
Record page_embeddings := {
  page_id : jsstring;
  space_id : jsstring;
  workspace_id : jsstring;
  model_name : jsstring;
  model_dimensions : member;
  embedding : option Vector;
  chunk_index : nat;
  chunk_start : Z;
  chunk_length : nat;
  metadata : Metadata;
}.

(** Table [pages], the columns the AI module reads. *)
Record pages := {
  pages_id : jsstring;
  pages_title : option jsstring;
  pages_slugId : jsstring;
  pages_spaceId : jsstring;
  pages_workspaceId : jsstring;
  pages_textContent : option jsstring;
  pages_deletedAt : option Z;
}.

(** Table [spaces]. *)
Record spaces := {
  spaces_id : jsstring;
  spaces_slug : jsstring;
}.

End Db.
Export Db.

(** ** Server: interfaces of the two services *)

Module PageForEmbedding.
Record t := {
  id : jsstring;
  spaceId : jsstring;
  workspaceId : jsstring;
  textContent : option jsstring;
}.
End PageForEmbedding.

(** The objects built by [batchChunks.map] before they are inserted. *)
Module Row.
Record t := {
  pageId : jsstring;
  spaceId : jsstring;
  workspaceId : jsstring;
  modelName : jsstring;
  modelDimensions : member;
  chunkIndex : nat;
  chunkStart : Z;
  chunkLength : nat;
  metadata : Metadata;
}.
End Row.

Module SearchChunkResult.
Record t := {
  pageId : jsstring;
  spaceId : jsstring;
  chunkIndex : nat;
  chunkText : option jsstring;
  distance : option Q;
}.
End SearchChunkResult.

Module SourceResult.
Record t := {
  pageId : jsstring;
  title : jsstring;
  slugId : jsstring;
  spaceSlug : jsstring;
  similarity : Q;
  distance : option Q;
  chunkIndex : nat;
  excerpt : jsstring;
}.
End SourceResult.

(** The row type of the [pages]-[spaces] join of [buildSources]. *)
Module PageInfo.
Record t := {
  id : jsstring;
  title : option jsstring;
  slugId : jsstring;
  spaceSlug : jsstring;
}.
End PageInfo.

(** ** Server: the world the services run in *)

Module Runtime.

Inductive EmbeddingModel :=
  | OpenAIEmbedding (modelName : jsstring)
  | GoogleEmbedding (modelName : jsstring)
  | OllamaEmbedding (baseURL modelName : jsstring).

Inductive LanguageModel :=
  | OpenAILanguage (modelName : jsstring)
  | GoogleLanguage (modelName : jsstring)
  | OllamaLanguage (baseURL modelName : jsstring).

(** Lines written through the Nest [Logger], by template. *)
Inductive LogLine :=
  | LogStarting (workspaceId : jsstring)
  | LogFound (n : nat)
  | LogPageFailed (pageId reason : jsstring)
  | LogComplete (processed skipped failed : Z)
  | LogGenerated (n : nat) (pageId : jsstring)
  | LogDeletedWorkspace (workspaceId : jsstring)
  | LogSearchFailed (message : jsstring).

Inductive LogLevel := LevelLog | LevelDebug | LevelError.

(** Every call that leaves the service: SQL statements, AI SDK calls and log
    lines, in the order they are issued. *)
Inductive Call :=
  | SelectWorkspacePages (workspaceId : jsstring)
  | DeleteWherePage (pageId : jsstring)
  | DeleteWhereWorkspace (workspaceId : jsstring)
  | InsertEmbedding (row : page_embeddings)
  | SelectUserSpaceIds (userId : jsstring)
  | SelectNearest (vectorStr : Vector) (workspaceId pgArrayLiteral : jsstring)
      (limit : nat)
  | SelectPagesIn (pageIds : list jsstring)
  | EmbedMany (model : EmbeddingModel) (values : list jsstring)
  | Embed (model : EmbeddingModel) (value : jsstring)
  | StreamText (model : LanguageModel) (system prompt : jsstring)
  | Logger (level : LogLevel) (line : LogLine).

(** The payloads of the event stream.  On the wire a payload [p] is the chunk
    [data: JSON.stringify(p)] and the sentinel is [data: [DONE]], each followed
    by an empty line. *)
Inductive Payload :=
  | Content (content : jsstring)
  | Sources (sources : list SourceResult.t)
  | Error (error : jsstring).

Inductive SseChunk :=
  | Data (payload : Payload)
  | DONE.

(** Configuration, the read-only tables and the external collaborators.  An
    oracle receives the calls issued before it, so that the same request may
    be answered differently from one call to the next. *)
Record Env := {
  (* EnvironmentService *)
  getAiDriver : jsstring;
  getAiEmbeddingModel : jsstring;
  getAiCompletionModel : jsstring;
  getAiEmbeddingDimension : option Z;
  getOpenAiApiKey : jsstring;
  getGeminiApiKey : jsstring;
  getOllamaApiUrl : jsstring;
  (* RecursiveCharacterTextSplitter, chunkSize 1000, chunkOverlap 200 *)
  splitText : jsstring → list jsstring;
  (* AI SDK *)
  embedMany : list Call → EmbeddingModel → list jsstring →
              Thrown + list Vector;
  embed : list Call → EmbeddingModel → jsstring → Thrown + Vector;
  textStream : list Call → LanguageModel → jsstring → jsstring →
               list jsstring * option Thrown;
  (* the database: failures, read-only tables, the [<=>] operator, and the
     cast of a text to [uuid[]], which gives the UUIDs the text lists, each
     in the text form of the [uuid] columns, or fails *)
  dbFailure : list Call → Call → option Thrown;
  uuidArray : jsstring → Thrown + list jsstring;
  pagesTable : list pages;
  spacesTable : list spaces;
  getUserSpaceIds : jsstring → list jsstring;
  cosineDistance : Vector → Vector → Q;
}.

Record State := {
  table : list page_embeddings;
  calls : list Call;
  head : option Z;
  written : list SseChunk;
  ended : bool;
}.

Definition initial (rows : list page_embeddings) : State :=
  {| table := rows; calls := []; head := None; written := [];
     ended := false |}.

Definition with_table (f : list page_embeddings → list page_embeddings)
  (s : State) : State :=
  {| table := f (table s); calls := calls s; head := head s;
     written := written s; ended := ended s |}.

Definition with_call (c : Call) (s : State) : State :=
  {| table := table s; calls := calls s ++ [c]; head := head s;
     written := written s; ended := ended s |}.

Definition with_written (c : SseChunk) (s : State) : State :=
  {| table := table s; calls := calls s; head := head s;
     written := written s ++ [c]; ended := ended s |}.

Definition with_head (statusCode : Z) (s : State) : State :=
  {| table := table s; calls := calls s; head := Some statusCode;
     written := written s; ended := ended s |}.

Definition with_ended (s : State) : State :=
  {| table := table s; calls := calls s; head := head s;
     written := written s; ended := true |}.

(** *** The monad *)

Inductive Result (A : Type) :=
  | Ok (a : A)
  | Throw (e : Thrown).
Arguments Ok {A} a.
Arguments Throw {A} e.

Definition M (A : Type) : Type := State → Result A * State.

Definition ret {A} (a : A) : M A := λ s, (Ok a, s).

Definition throw {A} (e : Thrown) : M A := λ s, (Throw e, s).

Definition bind {A B} (m : M A) (k : A → M B) : M B :=
  λ s, match m s with
       | (Ok a, s') => k a s'
       | (Throw e, s') => (Throw e, s')
       end.

(** [try { m } catch (err) { h err }] *)
Definition try_catch {A} (m : M A) (h : Thrown → M A) : M A :=
  λ s, match m s with
       | (Ok a, s') => (Ok a, s')
       | (Throw e, s') => h e s'
       end.

Definition lift {A} (r : Result A) : M A := λ s, (r, s).

#[global] Instance M_ret : MRet M := @ret.
#[global] Instance M_bind : MBind M := λ A B k m, bind m k.

(** A log line: never fails. *)
Definition logger (level : LogLevel) (line : LogLine) : M unit :=
  λ s, (Ok (), with_call (Logger level line) s).

(** An AI SDK call: the oracle sees the calls issued so far. *)
Definition sdk {A} (c : Call) (answer : list Call → Thrown + A) : M A :=
  λ s, (match answer (calls s) with
        | inl e => Throw e
        | inr a => Ok a
        end, with_call c s).

(** A SQL statement: it is issued, then it fails or takes effect. *)
Definition execute {A} (env : Env) (c : Call) (run : State → A * State)
  : M A :=
  λ s, match dbFailure env (calls s) c with
       | Some e => (Throw e, with_call c s)
       | None => let '(a, s') := run (with_call c s) in (Ok a, s')
       end.

(** [yield chunk], consumed by the controller's [res.raw.write(chunk)]. *)
Definition yield (c : SseChunk) : M unit :=
  λ s, (Ok (), with_written c s).

(** [res.raw.writeHead(statusCode, ...)] and [res.raw.end()] *)
Definition writeHead (statusCode : Z) : M unit :=
  λ s, (Ok (), with_head statusCode s).

Definition end_ : M unit := λ s, (Ok (), with_ended s).

End Runtime.
Export Runtime.

(** ** Server: [EmbeddingService] *)

Module EmbeddingService.

Definition CHUNK_SIZE : nat := 1000.
Definition CHUNK_OVERLAP : nat := 200.
Definition EMBEDDING_BATCH_SIZE : nat := 100.

(** [getEmbeddingModel]: a closed switch over the driver name. *)
Definition getEmbeddingModel (env : Env) : Result EmbeddingModel :=
  let driver := getAiDriver env in
  let modelName := getAiEmbeddingModel env in
  if decide (driver = js "openai") then Ok (OpenAIEmbedding modelName)
  else if decide (driver = js "gemini") then Ok (GoogleEmbedding modelName)
  else if decide (driver = js "ollama") then
    Ok (OllamaEmbedding (getOllamaApiUrl env ++ js "/v1") modelName)
  else Throw (ErrorObj (js "Unsupported AI driver: " ++ driver)).

(** The own properties of the object literal [presetDimensions]. *)
Definition presetDimensions : gmap jsstring Z :=
  list_to_map [
    (js "text-embedding-3-small", 1536%Z);
    (js "text-embedding-3-large", 3072%Z);
    (js "text-embedding-ada-002", 1536%Z);
    (js "text-embedding-004", 768%Z)
  ].

(** [presetDimensions[modelName]]: an own property, else the member
    inherited from [Object.prototype], else undefined ([None]). *)
Definition presetDimension (modelName : jsstring) : option member :=
  match presetDimensions !! modelName with
  | Some dimension => Some (Number dimension)
  | None =>
      if decide (modelName ∈ objectPrototype) then Some (Inherited modelName)
      else None
  end.

(** [getEmbeddingDimension].  The configured dimension is [None] when it is
    undefined or [NaN]; zero is falsy.  [??] replaces undefined only. *)
Definition getEmbeddingDimension (env : Env) : member :=
  match getAiEmbeddingDimension env with
  | Some envDimension =>
      if decide (envDimension ≠ 0%Z) then Number envDimension
      else default (Number 1536) (presetDimension (getAiEmbeddingModel env))
  | None => default (Number 1536) (presetDimension (getAiEmbeddingModel env))
  end.

(** [!textContent || textContent.trim().length === 0] *)
Definition hasNoText (textContent : option jsstring) : bool :=
  match textContent with
  | Some t => negb (truthy (Some t)) || (length (trim t) =? 0)
  | None => true
  end.

(** [deleteEmbeddingsForPage] *)
Definition deleteEmbeddingsForPage (env : Env) (pageId : jsstring) : M unit :=
  execute env (DeleteWherePage pageId)
    (λ s, ((), with_table (filter (λ r, page_id r ≠ pageId)) s)).

(** [deleteEmbeddingsForWorkspace] *)
Definition deleteEmbeddingsForWorkspace (env : Env) (workspaceId : jsstring)
  : M unit :=
  execute env (DeleteWhereWorkspace workspaceId)
    (λ s, ((), with_table (filter (λ r, workspace_id r ≠ workspaceId)) s));;
  logger LevelLog (LogDeletedWorkspace workspaceId).

(** The object built for one chunk of a batch starting at index [i]. *)
Definition mkRow (page : PageForEmbedding.t) (modelName : jsstring)
  (modelDimensions : member) (i batchIndex : nat) (chunk : jsstring) : Row.t :=
  let chunkIndex := i + batchIndex in
  {| Row.pageId := PageForEmbedding.id page;
     Row.spaceId := PageForEmbedding.spaceId page;
     Row.workspaceId := PageForEmbedding.workspaceId page;
     Row.modelName := modelName;
     Row.modelDimensions := modelDimensions;
     Row.chunkIndex := chunkIndex;
     Row.chunkStart := 0;
     Row.chunkLength := length chunk;
     Row.metadata := {| text := chunk |} |}.

(** The values bound by the [INSERT INTO page_embeddings] for one row and
    its [toSql(embeddings[j])]. *)
Definition dbRow (row : Row.t) (vectorStr : option Vector) : page_embeddings :=
  {| page_id := Row.pageId row;
     space_id := Row.spaceId row;
     workspace_id := Row.workspaceId row;
     model_name := Row.modelName row;
     model_dimensions := Row.modelDimensions row;
     embedding := vectorStr;
     chunk_index := Row.chunkIndex row;
     chunk_start := Row.chunkStart row;
     chunk_length := Row.chunkLength row;
     metadata := Row.metadata row |}.

Definition insertRow (env : Env) (row : Row.t) (vectorStr : option Vector)
  : M unit :=
  execute env (InsertEmbedding (dbRow row vectorStr))
    (λ s, ((), with_table (λ t, t ++ [dbRow row vectorStr]) s)).

(** [for (let j = 0; j < rows.length; j++)], on the rows from [j] on. *)
Fixpoint insertRows (env : Env) (embeddings : list Vector) (j : nat)
  (rows : list Row.t) : M unit :=
  match rows with
  | [] => ret ()
  | row :: rows' =>
      insertRow env row (embeddings !! j);;
      insertRows env embeddings (S j) rows'
  end.

(** One turn of the batch loop at index [i]: embed, build the rows, insert
    them. *)
Definition processBatch (env : Env) (page : PageForEmbedding.t)
  (model : EmbeddingModel) (modelName : jsstring) (modelDimensions : member)
  (chunks : list jsstring) (i : nat) : M unit :=
  let batchChunks := slice chunks i (i + EMBEDDING_BATCH_SIZE) in
  embeddings ← sdk (EmbedMany model batchChunks)
                  (λ h, embedMany env h model batchChunks);
  let rows := imap (mkRow page modelName modelDimensions i) batchChunks in
  insertRows env embeddings 0 rows.

(** [for (let i = 0; i < chunks.length; i += EMBEDDING_BATCH_SIZE)] *)
Equations? batchLoop (env : Env) (page : PageForEmbedding.t)
  (model : EmbeddingModel) (modelName : jsstring) (modelDimensions : member)
  (chunks : list jsstring) (i : nat) (s : State) : Result unit * State
  by wf (length chunks - i) lt :=
batchLoop env page model modelName modelDimensions chunks i s
  with decide (i < length chunks) := {
  | left _ =>
      match processBatch env page model modelName modelDimensions chunks i s
      with
      | (Ok _, s') =>
          batchLoop env page model modelName modelDimensions chunks
            (i + EMBEDDING_BATCH_SIZE) s'
      | (Throw e, s') => (Throw e, s')
      end
  | right _ => (Ok (), s) }.
Proof. unfold EMBEDDING_BATCH_SIZE. lia. Qed.

(** [generateEmbeddingsForPage] *)
Definition generateEmbeddingsForPage (env : Env) (page : PageForEmbedding.t)
  : M unit :=
  if hasNoText (PageForEmbedding.textContent page) then ret ()
  else
    deleteEmbeddingsForPage env (PageForEmbedding.id page);;
    let chunks :=
      splitText env (default [] (PageForEmbedding.textContent page)) in
    if length chunks =? 0 then ret ()
    else
      model ← lift (getEmbeddingModel env);
      let modelName := getAiEmbeddingModel env in
      let modelDimensions := getEmbeddingDimension env in
      batchLoop env page model modelName modelDimensions chunks 0;;
      logger LevelDebug
        (LogGenerated (length chunks) (PageForEmbedding.id page)).

(** The rows of the [select] on [pages]. *)
Definition selectPage (p : pages) : PageForEmbedding.t :=
  {| PageForEmbedding.id := pages_id p;
     PageForEmbedding.spaceId := pages_spaceId p;
     PageForEmbedding.workspaceId := pages_workspaceId p;
     PageForEmbedding.textContent := pages_textContent p |}.

Definition selectWorkspacePages (env : Env) (workspaceId : jsstring)
  : M (list PageForEmbedding.t) :=
  execute env (SelectWorkspacePages workspaceId)
    (λ s, (selectPage <$>
             filter (λ p, pages_workspaceId p = workspaceId
                          ∧ pages_deletedAt p = None) (pagesTable env), s)).

(** [err instanceof Error ? err.message : String(err)] *)
Definition reason (err : Thrown) : jsstring :=
  match err with
  | ErrorObj message => message
  | NonError stringified => stringified
  end.

(** [for (const page of pages)] with the two counters; returns them. *)
Fixpoint pagesLoop (env : Env) (pages : list PageForEmbedding.t)
  (processedCount skippedCount : Z) : M (Z * Z) :=
  match pages with
  | [] => ret (processedCount, skippedCount)
  | page :: pages' =>
      if hasNoText (PageForEmbedding.textContent page) then
        pagesLoop env pages' processedCount (skippedCount + 1)%Z
      else
        processedCount' ←
          try_catch
            (generateEmbeddingsForPage env page;;
             ret (processedCount + 1)%Z)
            (λ err,
               logger LevelError
                 (LogPageFailed (PageForEmbedding.id page) (reason err));;
               ret processedCount);
        pagesLoop env pages' processedCount' skippedCount
  end.

(** [generateEmbeddingsForWorkspace] *)
Definition generateEmbeddingsForWorkspace (env : Env) (workspaceId : jsstring)
  : M unit :=
  logger LevelLog (LogStarting workspaceId);;
  pages ← selectWorkspacePages env workspaceId;
  logger LevelLog (LogFound (length pages));;
  '(processedCount, skippedCount) ← pagesLoop env pages 0%Z 0%Z;
  logger LevelLog
    (LogComplete processedCount skippedCount
       (Z.of_nat (length pages) - processedCount - skippedCount)%Z).

End EmbeddingService.

(** ** Server: [AiSearchService] *)

Module AiSearchService.

(** Maximum number of similar chunks to retrieve for context. *)
Definition TOP_K : nat := 10.

(** [getLanguageModel] *)
Definition getLanguageModel (env : Env) : Result LanguageModel :=
  let driver := getAiDriver env in
  let modelName := getAiCompletionModel env in
  if decide (driver = js "openai") then Ok (OpenAILanguage modelName)
  else if decide (driver = js "gemini") then Ok (GoogleLanguage modelName)
  else if decide (driver = js "ollama") then
    Ok (OllamaLanguage (getOllamaApiUrl env ++ js "/v1") modelName)
  else Throw (ErrorObj (js "Unsupported AI driver: " ++ driver)).

(** [pe.embedding <=> vectorStr]; [NULL] on a [NULL] embedding. *)
Definition distanceTo (env : Env) (vectorStr : Vector) (pe : page_embeddings)
  : option Q :=
  (λ e, cosineDistance env e vectorStr) <$> embedding pe.

(** [ORDER BY ... ASC]: smaller first and [NULL] last. *)
Definition ascendingb (a b : option Q) : bool :=
  match a, b with
  | Some x, Some y => Qle_bool x y
  | _, None => true
  | None, Some _ => false
  end.

Definition ascending (a b : option Q) : Prop := ascendingb a b = true.

#[global] Instance ascending_dec : RelDecision ascending :=
  λ a b, decide (ascendingb a b = true).

(** The order of the result rows for a query vector. *)
Definition byDistance (env : Env) (vectorStr : Vector)
  : relation page_embeddings :=
  λ a b, ascending (distanceTo env vectorStr a) (distanceTo env vectorStr b).

#[global] Instance byDistance_dec env vectorStr
  : RelDecision (byDistance env vectorStr) :=
  λ a b, decide (ascending (distanceTo env vectorStr a)
                   (distanceTo env vectorStr b)).

(** The rows of a workspace in the spaces [spaceIds], nearest first, at most
    [limit].  PostgreSQL fixes no order among rows at the same distance; here
    they come in the order the merge sort leaves them. *)
Definition nearestRows (env : Env) (vectorStr : Vector)
  (workspaceId : jsstring) (spaceIds : list jsstring) (limit : nat)
  (t : list page_embeddings) : list page_embeddings :=
  take limit
    (merge_sort (byDistance env vectorStr)
       (filter (λ pe, workspace_id pe = workspaceId ∧ space_id pe ∈ spaceIds)
          t)).

(** The [SELECT] of [findSimilarChunks] on a table.  The statement receives
    the space ids as one text, [pgArrayLiteral], and casts it to [uuid[]]:
    its [= ANY] ranges over the UUIDs the database reads from that text,
    which need not be the strings that were joined, and the statement fails
    when the text is not an array of UUIDs. *)
Definition selectNearestRows (env : Env) (vectorStr : Vector)
  (workspaceId pgArrayLiteral : jsstring) (limit : nat)
  (t : list page_embeddings) : Thrown + list page_embeddings :=
  match uuidArray env pgArrayLiteral with
  | inl e => inl e
  | inr spaceIds => inr (nearestRows env vectorStr workspaceId spaceIds limit t)
  end.

Definition selectColumns (env : Env) (vectorStr : Vector)
  (pe : page_embeddings) : SearchChunkResult.t :=
  {| SearchChunkResult.pageId := page_id pe;
     SearchChunkResult.spaceId := space_id pe;
     SearchChunkResult.chunkIndex := chunk_index pe;
     SearchChunkResult.chunkText := Some (text (metadata pe));
     SearchChunkResult.distance := distanceTo env vectorStr pe |}.

(** [findSimilarChunks] *)
Definition findSimilarChunks (env : Env) (queryVector : Vector)
  (workspaceId userId : jsstring) (spaceId : option jsstring)
  : M (list SearchChunkResult.t) :=
  let vectorStr := queryVector in
  accessibleSpaceIds ←
    (if truthy spaceId then ret [default [] spaceId]
     else execute env (SelectUserSpaceIds userId)
            (λ s, (getUserSpaceIds env userId, s)));
  if length accessibleSpaceIds =? 0 then ret []
  else
    let pgArrayLiteral := js "{" ++ join (js ",") accessibleSpaceIds ++ js "}" in
    results ←
      execute env (SelectNearest vectorStr workspaceId pgArrayLiteral TOP_K)
        (λ s, (selectNearestRows env vectorStr workspaceId pgArrayLiteral
                 TOP_K (table s), s));
    match results with
    | inl e => throw e
    | inr rows => ret (selectColumns env vectorStr <$> rows)
    end.

(** [[...new Set(l)]]: first occurrences, in order. *)
Fixpoint uniq (seen l : list jsstring) : list jsstring :=
  match l with
  | [] => []
  | x :: l' =>
      if decide (x ∈ seen) then uniq seen l' else x :: uniq (x :: seen) l'
  end.

(** The [pages]-[spaces] inner join restricted to [pageIds]. *)
Definition selectPagesIn (env : Env) (pageIds : list jsstring)
  : list PageInfo.t :=
  p ← pagesTable env;
  sp ← spacesTable env;
  if decide (spaces_id sp = pages_spaceId p ∧ pages_id p ∈ pageIds) then
    [ {| PageInfo.id := pages_id p;
         PageInfo.title := pages_title p;
         PageInfo.slugId := pages_slugId p;
         PageInfo.spaceSlug := spaces_slug sp |} ]
  else [].

(** One element of [chunks.map(...)]: [None] is the [null] filtered out. *)
Definition toSource (pageMap : gmap jsstring PageInfo.t)
  (chunk : SearchChunkResult.t) : option SourceResult.t :=
  page ← pageMap !! SearchChunkResult.pageId chunk;
  Some
    {| SourceResult.pageId := SearchChunkResult.pageId chunk;
       SourceResult.title :=
         if truthy (PageInfo.title page) then default [] (PageInfo.title page)
         else js "Untitled";
       SourceResult.slugId := PageInfo.slugId page;
       SourceResult.spaceSlug := PageInfo.spaceSlug page;
       SourceResult.similarity :=
         (1 - default 0 (SearchChunkResult.distance chunk))%Q;
       SourceResult.distance := SearchChunkResult.distance chunk;
       SourceResult.chunkIndex := SearchChunkResult.chunkIndex chunk;
       SourceResult.excerpt :=
         slice (default [] (SearchChunkResult.chunkText chunk)) 0 200 |}.

(** [buildSources] *)
Definition buildSources (env : Env) (chunks : list SearchChunkResult.t)
  : M (list SourceResult.t) :=
  if length chunks =? 0 then ret []
  else
    let pageIds := uniq [] (SearchChunkResult.pageId <$> chunks) in
    pages ← execute env (SelectPagesIn pageIds)
              (λ s, (selectPagesIn env pageIds, s));
    (* [new Map(entries)]: a later entry replaces an earlier one *)
    let pageMap : gmap jsstring PageInfo.t :=
      list_to_map (reverse ((λ p, (PageInfo.id p, p)) <$> pages)) in
    ret (omap (toSource pageMap) chunks).

(** [buildSystemPrompt] *)
Definition buildSystemPrompt (chunks : list SearchChunkResult.t) : jsstring :=
  let contextBlock :=
    join (js (String (Ascii.ascii_of_nat 10)
               (String (Ascii.ascii_of_nat 10) EmptyString)))
      (imap (λ i c, js "[" ++ js (pretty (i + 1)) ++ js "] "
                      ++ default (js "null") (SearchChunkResult.chunkText c))
         chunks) in
  join (js (String (Ascii.ascii_of_nat 10) EmptyString)) [
    js "You are a helpful AI assistant that answers questions based on the user's workspace documents.";
    js "Use ONLY the following context to answer. If the context does not contain enough information, say so clearly.";
    js "Keep your answer concise and well-structured. Use markdown formatting where appropriate.";
    js "";
    js "--- Context ---";
    contextBlock;
    js "--- End Context ---"
  ].

(** [streamText(...)]: the call returns at once; its [textStream] delivers the
    text parts and then ends, or throws after the parts delivered so far. *)
Definition streamText (env : Env) (model : LanguageModel)
  (system prompt : jsstring) : M (list jsstring * option Thrown) :=
  λ s, (Ok (textStream env (calls s) model system prompt),
        with_call (StreamText model system prompt) s).

(** [for await (const textPart of result.textStream) body] *)
Fixpoint forAwait (parts : list jsstring) (failure : option Thrown)
  (body : jsstring → M unit) : M unit :=
  match parts with
  | [] => match failure with
          | Some e => throw e
          | None => ret ()
          end
  | textPart :: parts' => body textPart;; forAwait parts' failure body
  end.

(** [askQuestion], an async generator: what it yields is appended to the
    response by the consumer. *)
Definition askQuestion (env : Env) (query workspaceId userId : jsstring)
  (spaceId : option jsstring) : M unit :=
  embeddingModel ← lift (EmbeddingService.getEmbeddingModel env);
  queryVector ← sdk (Embed embeddingModel query)
                   (λ h, embed env h embeddingModel query);
  chunks ← findSimilarChunks env queryVector workspaceId userId spaceId;
  if length chunks =? 0 then
    yield (Data (Content
      (js "No relevant content found in your workspace for this query.")));;
    yield (Data (Sources []));;
    yield DONE
  else
    let systemPrompt := buildSystemPrompt chunks in
    languageModel ← lift (getLanguageModel env);
    result ← streamText env languageModel systemPrompt query;
    forAwait result.1 result.2 (λ textPart, yield (Data (Content textPart)));;
    sources ← buildSources env chunks;
    yield (Data (Sources sources));;
    yield DONE.

End AiSearchService.

(** ** Server: [AiSearchController] *)

Module AiSearchController.

Record AiSearchDTO := {
  query : jsstring;
  spaceId : option jsstring;
}.

(** [ask], for the authenticated user and workspace ids. *)
Definition ask (env : Env) (dto : AiSearchDTO) (userId workspaceId : jsstring)
  : M unit :=
  writeHead 200;;
  try_catch
    (AiSearchService.askQuestion env (query dto) workspaceId userId
       (spaceId dto))
    (λ err,
       let message :=
         match err with
         | ErrorObj message => message
         | NonError _ => js "An unexpected error occurred"
         end in
       logger LevelError (LogSearchFailed message);;
       yield (Data (Error message)));;
  end_.

End AiSearchController.

(** ** What is observed of a run *)

Module Observe.

(** A text with nothing but white space (the empty text included). *)
Definition whitespaceOnly (t : jsstring) : Prop :=
  Forall (λ c, isWhiteSpace c = true) t.

(** A text content that is null, empty or whitespace-only. *)
Definition blank (textContent : option jsstring) : Prop :=
  match textContent with
  | None => True
  | Some t => whitespaceOnly t
  end.

(** The value lists of the [embedMany] calls of a log, in order. *)
Definition embedCalls (cs : list Call) : list (list jsstring) :=
  omap (λ c, match c with EmbedMany _ values => Some values | _ => None end)
    cs.

(** The page ids of the [DELETE ... WHERE page_id] statements of a log. *)
Definition deleteCalls (cs : list Call) : list jsstring :=
  omap (λ c, match c with DeleteWherePage pageId => Some pageId | _ => None end)
    cs.

(** The nearest-neighbour statements of a log. *)
Definition nearestCalls (cs : list Call) : list Call :=
  omap (λ c, match c with SelectNearest _ _ _ _ => Some c | _ => None end) cs.

(** The pages reported as failed in a log. *)
Definition failureLines (cs : list Call) : list jsstring :=
  omap (λ c, match c with
             | Logger LevelError (LogPageFailed pageId _) => Some pageId
             | _ => None
             end) cs.

(** The pages reported as failed in a log, each with the reason given. *)
Definition failureReports (cs : list Call) : list (jsstring * jsstring) :=
  omap (λ c, match c with
             | Logger LevelError (LogPageFailed pageId reason) =>
                 Some (pageId, reason)
             | _ => None
             end) cs.

(** The attempts of a workspace run on a list of pages, from the state the
    run has reached to the state it ends in: every page is regenerated, in
    order, from the state left by the pages before it.  A page that returns
    is counted; a page that throws leaves one error line, with its id and
    the reason of the error, and the next page starts after that line.  The
    relation gives the number of pages processed and the reports of the
    pages that failed. *)
Inductive attempts (env : Env)
  : list PageForEmbedding.t → State → nat → list (jsstring * jsstring)
    → State → Prop :=
  | attempts_done s : attempts env [] s 0 [] s
  | attempts_processed page pages s s1 processed failed s' :
      EmbeddingService.generateEmbeddingsForPage env page s = (Ok (), s1) →
      attempts env pages s1 processed failed s' →
      attempts env (page :: pages) s (S processed) failed s'
  | attempts_failed page pages s s1 err processed failed s' :
      EmbeddingService.generateEmbeddingsForPage env page s
      = (Throw err, s1) →
      attempts env pages
        (with_call
           (Logger LevelError
              (LogPageFailed (PageForEmbedding.id page)
                 (EmbeddingService.reason err))) s1)
        processed failed s' →
      attempts env (page :: pages) s processed
        ((PageForEmbedding.id page, EmbeddingService.reason err) :: failed)
        s'.

(** The rows of one page in the table. *)
Definition rowsOfPage (pageId : jsstring) (t : list page_embeddings)
  : list page_embeddings :=
  filter (λ r, page_id r = pageId) t.

(** What every row written for [page] in one run has in common. *)
Definition rowOf (env : Env) (page : PageForEmbedding.t) (r : page_embeddings)
  : Prop :=
  page_id r = PageForEmbedding.id page
  ∧ space_id r = PageForEmbedding.spaceId page
  ∧ workspace_id r = PageForEmbedding.workspaceId page
  ∧ model_name r = getAiEmbeddingModel env
  ∧ model_dimensions r = EmbeddingService.getEmbeddingDimension env
  ∧ chunk_start r = 0%Z
  ∧ chunk_length r = length (text (metadata r)).

(** The contract of [embedMany]: one embedding per value, in order. *)
Definition embedManyContract (env : Env) : Prop :=
  ∀ h model values embeddings,
    embedMany env h model values = inr embeddings →
    length embeddings = length values.

(** A world in which the driver is one of the three supported ones and no
    statement and no embedding call fails. *)
Definition faultless (env : Env) : Prop :=
  getAiDriver env ∈ [js "openai"; js "gemini"; js "ollama"]
  ∧ (∀ h c, dbFailure env h c = None)
  ∧ (∀ h model values, ∃ embeddings,
       embedMany env h model values = inr embeddings).

(** The pages the workspace loop does not skip. *)
Definition withText (pages : list PageForEmbedding.t)
  : list PageForEmbedding.t :=
  filter (λ p, EmbeddingService.hasNoText (PageForEmbedding.textContent p)
               = false) pages.

(** The space ids a query is scoped to: the explicit target space when one is
    given, the user's spaces otherwise. *)
Definition scope (env : Env) (userId : jsstring) (spaceId : option jsstring)
  : list jsstring :=
  if truthy spaceId then [default [] spaceId] else getUserSpaceIds env userId.

(** The content events of a list of text increments. *)
Definition contentEvents (parts : list jsstring) : list SseChunk :=
  (λ p, Data (Content p)) <$> parts.

End Observe.
Export Observe.

(** ** Concrete worlds *)

Module Examples.

(** Identifiers are UUIDs, as in the tables. *)
Definition workspaceW : jsstring := js "0198a6e2-7c10-7d5e-9a41-5f0c2b7e1001".
Definition userU : jsstring := js "0198a6e2-7c10-7d5e-9a41-5f0c2b7e2001".
Definition spaceA : jsstring := js "0198a6e2-7c10-7d5e-9a41-5f0c2b7e300a".
Definition spaceB : jsstring := js "0198a6e2-7c10-7d5e-9a41-5f0c2b7e300b".
Definition spaceC : jsstring := js "0198a6e2-7c10-7d5e-9a41-5f0c2b7e300c".
Definition page1 : jsstring := js "0198a6e2-7c10-7d5e-9a41-5f0c2b7e4001".
Definition page2 : jsstring := js "0198a6e2-7c10-7d5e-9a41-5f0c2b7e4002".
Definition page3 : jsstring := js "0198a6e2-7c10-7d5e-9a41-5f0c2b7e4003".
Definition page4 : jsstring := js "0198a6e2-7c10-7d5e-9a41-5f0c2b7e4004".
Definition page9 : jsstring := js "0198a6e2-7c10-7d5e-9a41-5f0c2b7e4009".

Definition newline : jsstring := [10%N].

(** The database of these worlds reads an array of UUIDs in its plain form:
    braces around the elements, commas between them, each element 32
    hexadecimal digits in groups of 8, 4, 4, 4 and 12.  Letters of either
    case are taken and come out in lower case, as the text of a [uuid]
    does.  Any other text is refused. *)
Definition isHexDigit (c : N) : bool :=
  ((48 <=? c) && (c <=? 57) || (65 <=? c) && (c <=? 70)
   || (97 <=? c) && (c <=? 102))%N.

Definition toLowerCase (c : N) : N :=
  if ((65 <=? c) && (c <=? 90))%N then (c + 32)%N else c.

Definition uuidText (s : jsstring) : option jsstring :=
  if bool_decide (length s = 36)
     && forallb (λ x, x)
          (imap (λ i c, if bool_decide (i ∈ [8; 13; 18; 23]) then (c =? 45)%N
                        else isHexDigit c) s)
  then Some (toLowerCase <$> s) else None.

(** [s.split(sep)] for a separator of one code unit. *)
Fixpoint splitOn (sep : N) (s : jsstring) : list jsstring :=
  match s with
  | [] => [[]]
  | c :: s' =>
      if (c =? sep)%N then [] :: splitOn sep s'
      else match splitOn sep s' with
           | x :: l => (c :: x) :: l
           | [] => [[c]]
           end
  end.

Definition readUuidArray (literal : jsstring) : Thrown + list jsstring :=
  match literal, reverse literal with
  | 123%N :: inner, 125%N :: _ =>
      let body := take (length inner - 1) inner in
      if bool_decide (body = []) then inr []
      else match mapM uuidText (splitOn 44 body) with
           | Some ids => inr ids
           | None => inl (ErrorObj (js "invalid input syntax for type uuid"))
           end
  | _, _ => inl (ErrorObj (js "malformed array literal"))
  end.

(** A world with one page [p1] in space [A]; the distance of a stored vector
    to any query is its first component. *)
Definition mkEnv (driver : jsstring) (split : jsstring → list jsstring)
  (stream : list jsstring * option Thrown) (spaces : list jsstring) : Env :=
  {| getAiDriver := driver;
     getAiEmbeddingModel := js "text-embedding-3-small";
     getAiCompletionModel := js "gpt-4o-mini";
     getAiEmbeddingDimension := None;
     getOpenAiApiKey := js "sk";
     getGeminiApiKey := [];
     getOllamaApiUrl := js "http://localhost:11434";
     splitText := split;
     embedMany := λ _ _ values, inr ((λ _, [0%Q]) <$> values);
     embed := λ _ _ _, inr [0%Q];
     textStream := λ _ _ _ _, stream;
     dbFailure := λ _ _, None;
     uuidArray := readUuidArray;
     pagesTable :=
       [ {| pages_id := page1; pages_title := Some (js "Notes");
            pages_slugId := js "s1"; pages_spaceId := spaceA;
            pages_workspaceId := workspaceW;
            pages_textContent := Some (js "hello world");
            pages_deletedAt := None |} ];
     spacesTable := [ {| spaces_id := spaceA; spaces_slug := js "a" |} ];
     getUserSpaceIds := λ _, spaces;
     cosineDistance := λ e _, hd 0%Q e |}.

(** A stored chunk of page [pageId] in space [spaceId] of workspace [w], at
    distance [d] of every query. *)
Definition chunkAt (pageId spaceId : jsstring) (d : Q) (t : jsstring)
  : page_embeddings :=
  {| page_id := pageId; space_id := spaceId; workspace_id := workspaceW;
     model_name := js "text-embedding-3-small";
     model_dimensions := Number 1536;
     embedding := Some [d]; chunk_index := 0; chunk_start := 0;
     chunk_length := length t; metadata := {| text := t |} |}.

Definition page (textContent : option jsstring) : PageForEmbedding.t :=
  {| PageForEmbedding.id := page1;
     PageForEmbedding.spaceId := spaceA;
     PageForEmbedding.workspaceId := workspaceW;
     PageForEmbedding.textContent := textContent |}.

(** The splitter seen as cutting every text into 250 chunks. *)
Definition env250 : Env :=
  mkEnv (js "openai") (λ t, replicate 250 (take 1 t)) ([], None) [spaceA].

(** One chunk per text, a two-part answer. *)
Definition envOk : Env :=
  mkEnv (js "openai") (λ t, [t]) ([js "Hel"; js "lo"], None)
    [spaceA; spaceB].

(** The model fails after its first text part. *)
Definition envBroken : Env :=
  mkEnv (js "openai") (λ t, [t])
    ([js "Hel"], Some (ErrorObj (js "rate limit"))) [spaceA].

(** A user who is a member of no space. *)
Definition envNoSpace : Env :=
  mkEnv (js "openai") (λ t, [t]) ([], None) [].

(** The seed of the access-scoping test: a chunk in [A] at distance 0.1 and a
    chunk in [C] at distance 0.01. *)
Definition seeded : State :=
  initial [ chunkAt page1 spaceA (1 # 10) (js "in A");
            chunkAt page9 spaceC (1 # 100) (js "in C") ].

(** Four pages of workspace [w]: the embedding backend rejects the text of
    the second one and the third one is blank. *)
Definition textPage (pageId : jsstring) (textContent : option jsstring)
  : pages :=
  {| pages_id := pageId; pages_title := None; pages_slugId := pageId;
     pages_spaceId := spaceA; pages_workspaceId := workspaceW;
     pages_textContent := textContent; pages_deletedAt := None |}.

Definition envFlaky : Env :=
  let env := mkEnv (js "openai") (λ t, [t]) ([], None) [spaceA] in
  {| getAiDriver := getAiDriver env;
     getAiEmbeddingModel := getAiEmbeddingModel env;
     getAiCompletionModel := getAiCompletionModel env;
     getAiEmbeddingDimension := getAiEmbeddingDimension env;
     getOpenAiApiKey := getOpenAiApiKey env;
     getGeminiApiKey := getGeminiApiKey env;
     getOllamaApiUrl := getOllamaApiUrl env;
     splitText := splitText env;
     embedMany := λ _ _ values,
       if decide (js "bad" ∈ values) then inl (ErrorObj (js "rejected"))
       else inr ((λ _, [0%Q]) <$> values);
     embed := embed env;
     textStream := textStream env;
     dbFailure := dbFailure env;
     uuidArray := uuidArray env;
     pagesTable :=
       [ textPage page1 (Some (js "first"));
         textPage page2 (Some (js "bad"));
         textPage page3 (Some (js "  "));
         textPage page4 (Some (js "last")) ];
     spacesTable := spacesTable env;
     getUserSpaceIds := getUserSpaceIds env;
     cosineDistance := cosineDistance env |}.

(** A question without a target space. *)
Definition question : jsstring := js "What is in the notes?".

Definition request : AiSearchController.AiSearchDTO :=
  {| AiSearchController.query := question;
     AiSearchController.spaceId := None |}.

Definition licensed (v : value) : License.ICurrentUser :=
  {| License.user := None;
     License.workspace := Some {[ "hasLicenseKey" := v ]} |}.

End Examples.

(** ** Client: the setters of the atoms *)

Module CurrentUserAtoms.

(** Setter of [userAtom]: the new value of [currentUserAtom].  Without a
    current user nothing is set. *)
Definition userAtom_set (currentUser : option License.ICurrentUser)
  (newUser : gmap string value) : option License.ICurrentUser :=
  match currentUser with
  | Some cu =>
      Some {| License.user := Some newUser;
              License.workspace := License.workspace cu |}
  | None => None
  end.

(** Setter of [workspaceAtom]. *)
Definition workspaceAtom_set (currentUser : option License.ICurrentUser)
  (newWorkspace : gmap string value) : option License.ICurrentUser :=
  match currentUser with
  | Some cu =>
      Some {| License.user := License.user cu;
              License.workspace := Some newWorkspace |}
  | None => None
  end.

End CurrentUserAtoms.

(** ** Server: [EmbeddingProcessor] *)

Module EmbeddingProcessor.

(** [QueueJob] is declared in [integrations/queue/constants], outside the
    files at hand: the four job names are parameters. *)
Record QueueJob := {
  WORKSPACE_CREATE_EMBEDDINGS : jsstring;
  WORKSPACE_DELETE_EMBEDDINGS : jsstring;
  GENERATE_PAGE_EMBEDDINGS : jsstring;
  DELETE_PAGE_EMBEDDINGS : jsstring;
}.

(** [IWorkspaceEmbeddingsJob | IPageEmbeddingsJob]: [pageId] is [Some]
    exactly when ['pageId' in job.data]. *)
Record JobData := {
  workspaceId : jsstring;
  pageId : option jsstring;
}.

Record Job := {
  name : jsstring;
  data : JobData;
}.

(** What the worker does itself, besides calling the service: its [select]
    on [pages] and the lines of its own logger. *)
Inductive WorkerLine :=
  | SelectPage (pageId : jsstring)
  | WarnPageNotFound (pageId : jsstring)
  | WarnUnknownJob (name : jsstring).

(** The job names and the failures of the worker's [select]. *)
Record Worker := {
  jobs : QueueJob;
  selectPageFailure : list Call → list WorkerLine → jsstring → option Thrown;
}.

Record WorkerState := {
  service : State;
  lines : list WorkerLine;
}.

Definition W (A : Type) : Type := WorkerState → Result A * WorkerState.

(** A call of the service from the worker. *)
Definition call {A} (m : M A) : W A :=
  λ w, let '(r, s') := m (service w) in
       (r, {| service := s'; lines := lines w |}).

Definition line (l : WorkerLine) (w : WorkerState) : WorkerState :=
  {| service := service w; lines := lines w ++ [l] |}.

(** [handleWorkspaceCreateEmbeddings] *)
Definition handleWorkspaceCreateEmbeddings (env : Env)
  (workspaceId : jsstring) : W unit :=
  call (EmbeddingService.generateEmbeddingsForWorkspace env workspaceId).

(** [handleWorkspaceDeleteEmbeddings] *)
Definition handleWorkspaceDeleteEmbeddings (env : Env)
  (workspaceId : jsstring) : W unit :=
  call (EmbeddingService.deleteEmbeddingsForWorkspace env workspaceId).

(** The [select ... executeTakeFirst()] of [handleGeneratePageEmbeddings]. *)
Definition takeFirstPage (env : Env) (pageId : jsstring)
  : option PageForEmbedding.t :=
  EmbeddingService.selectPage
    <$> filter (λ p, pages_id p = pageId ∧ pages_deletedAt p = None)
          (pagesTable env) !! 0.

(** [handleGeneratePageEmbeddings] *)
Definition handleGeneratePageEmbeddings (wk : Worker) (env : Env)
  (pageId : jsstring) : W unit :=
  λ w,
    match selectPageFailure wk (calls (service w)) (lines w) pageId with
    | Some e => (Throw e, line (SelectPage pageId) w)
    | None =>
        match takeFirstPage env pageId with
        | None =>
            (Ok (), line (WarnPageNotFound pageId) (line (SelectPage pageId) w))
        | Some page =>
            call (EmbeddingService.generateEmbeddingsForPage env page)
              (line (SelectPage pageId) w)
        end
    end.

(** [handleDeletePageEmbeddings] *)
Definition handleDeletePageEmbeddings (env : Env) (pageId : jsstring)
  : W unit :=
  call (EmbeddingService.deleteEmbeddingsForPage env pageId).

(** [process]: the [switch] on [job.name], first matching case. *)
Definition process (wk : Worker) (env : Env) (job : Job) : W unit :=
  if decide (name job = WORKSPACE_CREATE_EMBEDDINGS (jobs wk)) then
    handleWorkspaceCreateEmbeddings env (workspaceId (data job))
  else if decide (name job = WORKSPACE_DELETE_EMBEDDINGS (jobs wk)) then
    handleWorkspaceDeleteEmbeddings env (workspaceId (data job))
  else if decide (name job = GENERATE_PAGE_EMBEDDINGS (jobs wk)) then
    match pageId (data job) with
    | Some pageId => handleGeneratePageEmbeddings wk env pageId
    | None => λ w, (Ok (), w)
    end
  else if decide (name job = DELETE_PAGE_EMBEDDINGS (jobs wk)) then
    match pageId (data job) with
    | Some pageId => handleDeletePageEmbeddings env pageId
    | None => λ w, (Ok (), w)
    end
  else λ w, (Ok (), line (WarnUnknownJob (name job)) w).

End EmbeddingProcessor.

(** ** Further observations *)

Module Views.

(** The drivers the two factories know. *)
Definition supportedDriver (env : Env) : Prop :=
  getAiDriver env ∈ [js "openai"; js "gemini"; js "ollama"].

(** What a stored row says of its chunk: its index and its text. *)
Definition indexText (r : page_embeddings) : nat * jsstring :=
  (chunk_index r, text (metadata r)).

(** The array literal [findSimilarChunks] builds from a list of space ids. *)
Definition arrayLiteral (spaceIds : list jsstring) : jsstring :=
  js "{" ++ join (js ",") spaceIds ++ js "}".

(** The spaces a query ranges over: none for an empty scope, and else the
    UUIDs the database reads from the array literal of the scope; [None] when
    it reads none and the statement fails. *)
Definition searched (env : Env) (userId : jsstring)
  (spaceId : option jsstring) : option (list jsstring) :=
  match scope env userId spaceId with
  | [] => Some []
  | spaceIds =>
      match uuidArray env (arrayLiteral spaceIds) with
      | inl _ => None
      | inr ids => Some ids
      end
  end.

(** The rows a nearest-neighbour query ranges over. *)
Definition matchingRows (workspaceId : jsstring) (spaceIds : list jsstring)
  (t : list page_embeddings) : list page_embeddings :=
  filter (λ pe, workspace_id pe = workspaceId ∧ space_id pe ∈ spaceIds) t.

(** The language-model calls of a log. *)
Definition streamCalls (cs : list Call) : list Call :=
  omap (λ c, match c with StreamText _ _ _ => Some c | _ => None end) cs.

(** The chunks whose page is among the rows of the page lookup. *)
Definition citable (pages : list PageInfo.t)
  (chunks : list SearchChunkResult.t) : list SearchChunkResult.t :=
  filter (λ c, SearchChunkResult.pageId c ∈ (PageInfo.id <$> pages)) chunks.

(** The four job names differ from one another. *)
Definition distinctJobs (q : EmbeddingProcessor.QueueJob) : Prop :=
  NoDup [ EmbeddingProcessor.WORKSPACE_CREATE_EMBEDDINGS q;
          EmbeddingProcessor.WORKSPACE_DELETE_EMBEDDINGS q;
          EmbeddingProcessor.GENERATE_PAGE_EMBEDDINGS q;
          EmbeddingProcessor.DELETE_PAGE_EMBEDDINGS q ].

End Views.
Export Views.

(** ** Further concrete worlds *)

Module Worlds.

(** A driver name no factory knows. *)
Definition envUnsupported : Env :=
  Examples.mkEnv (js "claude") (λ t, [t]) ([], None) [Examples.spaceA].

Definition queueJob : EmbeddingProcessor.QueueJob :=
  {| EmbeddingProcessor.WORKSPACE_CREATE_EMBEDDINGS :=
       js "workspace-create-embeddings";
     EmbeddingProcessor.WORKSPACE_DELETE_EMBEDDINGS :=
       js "workspace-delete-embeddings";
     EmbeddingProcessor.GENERATE_PAGE_EMBEDDINGS :=
       js "generate-page-embeddings";
     EmbeddingProcessor.DELETE_PAGE_EMBEDDINGS :=
       js "delete-page-embeddings" |}.

Definition worker : EmbeddingProcessor.Worker :=
  {| EmbeddingProcessor.jobs := queueJob;
     EmbeddingProcessor.selectPageFailure := λ _ _ _, None |}.

Definition pageJob (name pageId : jsstring) : EmbeddingProcessor.Job :=
  {| EmbeddingProcessor.name := name;
     EmbeddingProcessor.data :=
       {| EmbeddingProcessor.workspaceId := Examples.workspaceW;
          EmbeddingProcessor.pageId := Some pageId |} |}.

(** Two retrieved chunks: one of page 1, which has a row in [pages], and one
    of page 9, which has none. *)
Definition retrieved : list SearchChunkResult.t :=
  [ {| SearchChunkResult.pageId := Examples.page9;
       SearchChunkResult.spaceId := Examples.spaceC;
       SearchChunkResult.chunkIndex := 0;
       SearchChunkResult.chunkText := Some (js "in C");
       SearchChunkResult.distance := Some (1 # 100) |};
    {| SearchChunkResult.pageId := Examples.page1;
       SearchChunkResult.spaceId := Examples.spaceA;
       SearchChunkResult.chunkIndex := 0;
       SearchChunkResult.chunkText := Some (js "in A");
       SearchChunkResult.distance := Some (1 # 10) |} ].

(** A target space as a caller may write it: the id of [A], a comma, and the
    id of [C] in upper case. *)
Definition targetAC : jsstring :=
  Examples.spaceA ++ js "," ++ js "0198A6E2-7C10-7D5E-9A41-5F0C2B7E300C".

Definition idle : EmbeddingProcessor.WorkerState :=
  {| EmbeddingProcessor.service := Examples.seeded;
     EmbeddingProcessor.lines := [] |}.

End Worlds.

(** * Properties *)

(** ** Tactics for the monad *)

Ltac munfold :=
  unfold mbind, M_bind, mret, M_ret, bind, ret, throw, lift, try_catch,
    logger, sdk, execute, yield, writeHead, end_ in *.

(** A run that returned a known pair. *)
Ltac intros_run :=
  let H := fresh in intros H; injection H; clear H; intros; subst.

(** ** Strings *)

Lemma trimStart_nil (s : jsstring) :
  trimStart s = [] ↔ whitespaceOnly s.
Proof.
  unfold whitespaceOnly. induction s as [|c s IH]; simpl.
  - split; [constructor | done].
  - destruct (isWhiteSpace c) eqn:Hc.
    + rewrite IH. split; [by constructor | by inversion 1].
    + split; [done |]. inversion 1; congruence.
Qed.

Lemma trimStart_head (s : jsstring) c s' :
  trimStart s = c :: s' → isWhiteSpace c = false.
Proof.
  induction s as [|d s IH]; simpl; [done |].
  destruct (isWhiteSpace d) eqn:Hd; [done |]. by intros [= <- _].
Qed.

Lemma trim_nil (s : jsstring) : trim s = [] ↔ whitespaceOnly s.
Proof.
  unfold trim, trimEnd. split.
  - intros H. apply trimStart_nil.
    destruct (trimStart s) as [|c s'] eqn:Hs; [done | exfalso].
    apply (f_equal reverse) in H. rewrite reverse_involutive in H.
    change (reverse []) with (@nil N) in H.
    apply trimStart_nil in H. unfold whitespaceOnly in H.
    rewrite Forall_reverse in H. apply Forall_cons_1 in H as [Hc _].
    apply trimStart_head in Hs. congruence.
  - intros H. apply trimStart_nil in H. by rewrite H.
Qed.

Lemma hasNoText_blank (textContent : option jsstring) :
  EmbeddingService.hasNoText textContent = true ↔ blank textContent.
Proof.
  unfold EmbeddingService.hasNoText, blank.
  destruct textContent as [t|]; [| done].
  rewrite orb_true_iff, Nat.eqb_eq, length_zero_iff_nil, trim_nil.
  split; [| by right].
  intros [H | H]; [| done]. destruct t; [constructor | done].
Qed.

(** ** Regeneration of a page without text *)

Lemma generateEmbeddingsForPage_skip env (page : PageForEmbedding.t) s :
  EmbeddingService.hasNoText (PageForEmbedding.textContent page) = true →
  EmbeddingService.generateEmbeddingsForPage env page s = (Ok (), s).
Proof.
  intros H. unfold EmbeddingService.generateEmbeddingsForPage. by rewrite H.
Qed.

(** C7. If the text of a document is null, empty or whitespace-only,
    [generateEmbeddingsForPage] returns at once and the state is the one
    before the call: no statement is issued, so no chunk of the document is
    deleted and no row is inserted. *)
Theorem blank_text_no_effect env (page : PageForEmbedding.t) (s : State) :
  blank (PageForEmbedding.textContent page) →
  EmbeddingService.generateEmbeddingsForPage env page s = (Ok (), s).
Proof.
  intros H%hasNoText_blank. by apply generateEmbeddingsForPage_skip.
Qed.

Lemma blank_text_no_effect_witness :
  blank (Some (js "  " ++ Examples.newline))
  ∧ EmbeddingService.generateEmbeddingsForPage Examples.envOk
      (Examples.page (Some (js "  " ++ Examples.newline))) Examples.seeded
    = (Ok (), Examples.seeded).
Proof.
  assert (Hb : blank (Some (js "  " ++ Examples.newline)))
    by (repeat constructor).
  split; [exact Hb |].
  exact (blank_text_no_effect Examples.envOk
           (Examples.page (Some (js "  " ++ Examples.newline)))
           Examples.seeded Hb).
Defined.

(** ** The licence atoms *)

(** C10. The client-side licence check is constant: [useLicense] answers
    [hasLicenseKey = true] whatever [currentUserAtom] holds, and the getter of
    [workspaceAtom] returns, whenever a workspace is present, that workspace
    with [hasLicenseKey] set to [true] and its other properties as stored;
    the stored value of [hasLicenseKey] does not matter.  Without a workspace
    the getter returns null. *)
Theorem license_check_constant :
  (∀ currentUser,
     License.hasLicenseKey (License.useLicense currentUser) = true)
  ∧ (∀ u ws,
       ∃ ws', License.workspaceAtom_get
                (Some {| License.user := u; License.workspace := Some ws |})
              = Some ws'
            ∧ ws' !! "hasLicenseKey" = Some (VBool true)
            ∧ delete "hasLicenseKey" ws' = delete "hasLicenseKey" ws)
  ∧ (∀ u ws v,
       License.workspaceAtom_get
         (Some {| License.user := u;
                  License.workspace := Some (<["hasLicenseKey" := v]> ws) |})
       = License.workspaceAtom_get
           (Some {| License.user := u; License.workspace := Some ws |}))
  ∧ License.workspaceAtom_get None = None
  ∧ (∀ u, License.workspaceAtom_get
            (Some {| License.user := u; License.workspace := None |}) = None).
Proof.
  repeat split; try done.
  - intros u ws. eexists. split; [done |]. split.
    + apply lookup_insert_eq.
    + apply delete_insert_eq.
  - intros u ws v. unfold License.workspaceAtom_get; simpl.
    by rewrite insert_insert_eq.
Qed.

(** ** Retrieval: the empty scope *)

(** C4. When no target space is given and the user is a member of no space,
    [findSimilarChunks] returns the empty list after the membership query
    alone: no nearest-neighbour statement is issued and the table is as
    before. *)
Theorem empty_access_short_circuit env (queryVector : Vector)
  (workspaceId userId : jsstring) (spaceId : option jsstring) (s : State) :
  truthy spaceId = false →
  getUserSpaceIds env userId = [] →
  dbFailure env (calls s) (SelectUserSpaceIds userId) = None →
  ∃ s', AiSearchService.findSimilarChunks env queryVector workspaceId userId
          spaceId s = (Ok [], s')
      ∧ calls s' = calls s ++ [SelectUserSpaceIds userId]
      ∧ nearestCalls (calls s') = nearestCalls (calls s)
      ∧ table s' = table s.
Proof.
  intros Hsp Hnone Hdb.
  exists (with_call (SelectUserSpaceIds userId) s).
  unfold AiSearchService.findSimilarChunks. rewrite Hsp. munfold.
  rewrite Hdb, Hnone. simpl. repeat split.
  unfold nearestCalls. rewrite omap_app. simpl. by rewrite app_nil_r.
Qed.

Lemma empty_access_short_circuit_witness :
  ∃ s', AiSearchService.findSimilarChunks Examples.envNoSpace [0%Q]
          Examples.workspaceW Examples.userU None Examples.seeded
        = (Ok [], s')
      ∧ calls s'
        = calls Examples.seeded ++ [SelectUserSpaceIds Examples.userU]
      ∧ nearestCalls (calls s') = nearestCalls (calls Examples.seeded)
      ∧ table s' = table Examples.seeded.
Proof.
  apply (empty_access_short_circuit Examples.envNoSpace [0%Q]
           Examples.workspaceW Examples.userU None Examples.seeded);
    reflexivity.
Defined.

(** ** The insert loop and the batch loop *)

Lemma embedCalls_snoc cs c :
  embedCalls (cs ++ [c])
  = embedCalls cs ++ match c with EmbedMany _ v => [v] | _ => [] end.
Proof. unfold embedCalls. rewrite omap_app. by destruct c. Qed.

Lemma deleteCalls_snoc cs c :
  deleteCalls (cs ++ [c])
  = deleteCalls cs ++ match c with DeleteWherePage p => [p] | _ => [] end.
Proof. unfold deleteCalls. rewrite omap_app. by destruct c. Qed.

Lemma failureLines_snoc cs c :
  failureLines (cs ++ [c])
  = failureLines cs ++ match c with
                       | Logger LevelError (LogPageFailed p _) => [p]
                       | _ => []
                       end.
Proof.
  unfold failureLines. rewrite omap_app.
  destruct c as [| | | | | | | | | |[] []]; done.
Qed.

(** The insert loop adds a prefix of its rows to the table, all of them when
    it returns, and issues [INSERT] statements only. *)
Lemma insertRows_spec env embeddings rows : ∀ j s r s',
  EmbeddingService.insertRows env embeddings j rows s = (r, s') →
  embedCalls (calls s') = embedCalls (calls s)
  ∧ deleteCalls (calls s') = deleteCalls (calls s)
  ∧ failureLines (calls s') = failureLines (calls s)
  ∧ ∃ n, table s' = table s
           ++ take n (imap (λ k row, EmbeddingService.dbRow row
                                       (embeddings !! (j + k))) rows)
       ∧ (r = Ok () → n = length rows).
Proof.
  induction rows as [|row rows IH]; intros j s r s' H; simpl in H.
  - munfold. injection H as <- <-. repeat split.
    exists 0. by rewrite app_nil_r.
  - unfold EmbeddingService.insertRow in H. munfold.
    destruct (dbFailure env (calls s) _) as [e|] eqn:Hf.
    + injection H as <- <-. simpl.
      rewrite embedCalls_snoc, deleteCalls_snoc, failureLines_snoc, !app_nil_r.
      repeat split. exists 0. by rewrite app_nil_r.
    + simpl in H. apply IH in H as (He & Hd & Hl & n & Ht & Hn). simpl in *.
      rewrite embedCalls_snoc, deleteCalls_snoc, failureLines_snoc,
        !app_nil_r in *.
      repeat split; try done.
      exists (S n). split; [| by intros ->%Hn].
      rewrite Ht, <- app_assoc. simpl. rewrite Nat.add_0_r.
      do 3 f_equal. apply imap_ext. intros k x _. simpl.
      by rewrite Nat.add_succ_r.
Qed.

Lemma rowOf_dbRow env page i b chunk v :
  rowOf env page
    (EmbeddingService.dbRow
       (EmbeddingService.mkRow page (getAiEmbeddingModel env)
          (EmbeddingService.getEmbeddingDimension env) i b chunk) v).
Proof. by repeat split. Qed.

(** One batch: one [embedMany] call on the slice at [i], then the rows of that
    slice, indexed from [i]. *)
Lemma processBatch_spec env page model chunks i s r s' :
  EmbeddingService.processBatch env page model (getAiEmbeddingModel env)
    (EmbeddingService.getEmbeddingDimension env) chunks i s = (r, s') →
  embedCalls (calls s') = embedCalls (calls s) ++ [slice chunks i (i + 100)]
  ∧ deleteCalls (calls s') = deleteCalls (calls s)
  ∧ failureLines (calls s') = failureLines (calls s)
  ∧ ∃ new, table s' = table s ++ new
       ∧ Forall (rowOf env page) new
       ∧ (r = Ok () →
            (λ r, (chunk_index r, text (metadata r))) <$> new
            = imap (λ k c, (i + k, c)) (slice chunks i (i + 100))
            ∧ (embedManyContract env →
                 Forall (λ r, is_Some (embedding r)) new)).
Proof.
  unfold EmbeddingService.processBatch, EmbeddingService.EMBEDDING_BATCH_SIZE.
  set (batch := slice chunks i (i + 100)). munfold.
  destruct (embedMany env (calls s) model batch) as [e|embs] eqn:Hemb.
  - intros [= <- <-]. simpl.
    rewrite embedCalls_snoc, deleteCalls_snoc, failureLines_snoc, !app_nil_r.
    repeat split. exists []. rewrite app_nil_r. by repeat split.
  - intros (He & Hd & Hl & n & Ht & Hn)%insertRows_spec. simpl in *.
    rewrite embedCalls_snoc, deleteCalls_snoc, failureLines_snoc,
      !app_nil_r in *.
    repeat split; try done. eexists. split; [exact Ht |]. split.
    + apply Forall_take, Forall_forall. intros x Hx.
      apply elem_of_lookup_imap_1 in Hx as (k & row & -> & Hrow).
      apply list_lookup_imap_Some in Hrow as (chunk & _ & ->).
      apply rowOf_dbRow.
    + intros ->%Hn. rewrite length_imap, take_ge by (by rewrite !length_imap).
      split.
      * apply list_eq. intros k.
        rewrite list_lookup_fmap, !list_lookup_imap.
        by destruct (batch !! k).
      * intros Hc. apply Forall_lookup. intros k x.
        rewrite !list_lookup_imap. intros Hx.
        destruct (batch !! k) as [chunk|] eqn:Hk; [| done].
        injection Hx as <-. simpl.
        apply lookup_lt_is_Some_2. rewrite (Hc _ _ _ _ Hemb).
        by apply lookup_lt_Some in Hk.
Qed.

Lemma batchLoop_unfold env page model modelName modelDimensions chunks i s :
  EmbeddingService.batchLoop env page model modelName modelDimensions chunks
    i s
  = if decide (i < length chunks) then
      match EmbeddingService.processBatch env page model modelName
              modelDimensions chunks i s with
      | (Ok _, s') =>
          EmbeddingService.batchLoop env page model modelName modelDimensions
            chunks (i + EmbeddingService.EMBEDDING_BATCH_SIZE) s'
      | (Throw e, s') => (Throw e, s')
      end
    else (Ok (), s).
Proof.
  simp batchLoop. by destruct (decide (i < length chunks)).
Qed.

Lemma ceil_div_step (n : nat) : 0 < n → (n + 99) / 100 = S ((n - 100 + 99) / 100).
Proof.
  intros Hn. destruct (decide (n < 100)) as [Hlt|Hge].
  - replace (n - 100) with 0 by lia.
    rewrite (Nat.div_small 99) by lia.
    symmetry. apply Nat.div_unique with (r := n - 1); lia.
  - replace (n + 99) with ((n - 100 + 99) + 1 * 100) by lia.
    rewrite Nat.div_add by lia. lia.
Qed.

(** The loop from index [i]: the batches are the slices of [chunks] at [i],
    [i + 100], ..., and the rows carry the indices [i], [i + 1], ... with the
    chunk texts in order. *)
Lemma batchLoop_spec env page model chunks : ∀ n i s r s',
  length chunks - i ≤ n →
  EmbeddingService.batchLoop env page model (getAiEmbeddingModel env)
    (EmbeddingService.getEmbeddingDimension env) chunks i s = (r, s') →
  deleteCalls (calls s') = deleteCalls (calls s)
  ∧ failureLines (calls s') = failureLines (calls s)
  ∧ ∃ new, table s' = table s ++ new
       ∧ Forall (rowOf env page) new
       ∧ (r = Ok () →
            embedCalls (calls s')
            = embedCalls (calls s)
                ++ ((λ b, slice chunks (i + b * 100) (i + b * 100 + 100))
                      <$> seq 0 ((length chunks - i + 99) / 100))
            ∧ (λ r, (chunk_index r, text (metadata r))) <$> new
              = imap (λ k c, (i + k, c)) (drop i chunks)
            ∧ (embedManyContract env →
                 Forall (λ r, is_Some (embedding r)) new)).
Proof.
  induction n as [|n IH]; intros i s r s' Hn; rewrite batchLoop_unfold;
    destruct (decide (i < length chunks)) as [Hi|Hi]; try lia.
  - intros [= <- <-]. split; [done |]. split; [done |].
    exists []. rewrite app_nil_r. split; [done |]. split; [done |].
    intros _. replace (length chunks - i) with 0 by lia.
    rewrite drop_ge by lia. simpl. by rewrite app_nil_r.
  - destruct (EmbeddingService.processBatch _ _ _ _ _ _ _ _) as [[[]|e] s1]
      eqn:Hb; apply processBatch_spec in Hb
        as (He1 & Hd1 & Hl1 & new1 & Ht1 & Hr1 & Hok1).
    + unfold EmbeddingService.EMBEDDING_BATCH_SIZE.
      intros (Hd2 & Hl2 & new2 & Ht2 & Hr2 & Hok2)%IH; [| lia].
      split; [congruence |]. split; [congruence |].
      exists (new1 ++ new2). split; [by rewrite Ht2, Ht1, app_assoc |].
      split; [by apply Forall_app |].
      intros ->. destruct (Hok1 eq_refl) as (Hix1 & Hv1).
      destruct (Hok2 eq_refl) as (He2 & Hix2 & Hv2).
      split; [| split].
      * rewrite He2, He1, <- app_assoc. f_equal.
        rewrite (ceil_div_step (length chunks - i)) by lia. simpl.
        rewrite Nat.add_0_r. f_equal.
        replace (length chunks - (i + 100)) with (length chunks - i - 100)
          by lia.
        rewrite <- fmap_S_seq, <- list_fmap_compose.
        apply list_fmap_ext. intros _ b _. simpl.
        f_equal; lia.
      * rewrite fmap_app, Hix1, Hix2. unfold slice.
        replace (i + 100 - i) with 100 by lia.
        rewrite <- (take_drop 100 (drop i chunks)) at 2.
        rewrite imap_app, drop_drop. f_equal.
        apply imap_ext. intros k c Hk. simpl.
        apply lookup_lt_Some in Hk. rewrite length_drop in Hk.
        rewrite length_take, length_drop. f_equal. lia.
      * intros Hc. apply Forall_app. auto.
    + intros [= <- <-]. split; [done |]. split; [done |].
      exists new1. split; [done |]. split; [done |]. done.
  - intros [= <- <-]. split; [done |]. split; [done |].
    exists []. rewrite app_nil_r. split; [done |]. split; [done |].
    intros _. replace (length chunks - i) with 0 by lia.
    rewrite drop_ge by lia. simpl. by rewrite app_nil_r.
Qed.

(** ** Regeneration of one page *)

(** A page with text: the [DELETE] is issued first, whatever happens next;
    the rows added are rows of this page; when the run returns, the table
    holds the rows of the other pages followed by one row per chunk. *)
Lemma generateEmbeddingsForPage_spec env page content s r s' :
  PageForEmbedding.textContent page = Some content →
  EmbeddingService.hasNoText (Some content) = false →
  EmbeddingService.generateEmbeddingsForPage env page s = (r, s') →
  deleteCalls (calls s') = deleteCalls (calls s) ++ [PageForEmbedding.id page]
  ∧ failureLines (calls s') = failureLines (calls s)
  ∧ ∃ new,
      Forall (rowOf env page) new
      ∧ (table s' = table s ∧ new = []
         ∨ table s'
           = filter (λ r, page_id r ≠ PageForEmbedding.id page) (table s)
               ++ new)
      ∧ (r = Ok () →
           table s'
           = filter (λ r, page_id r ≠ PageForEmbedding.id page) (table s)
               ++ new
           ∧ embedCalls (calls s')
             = embedCalls (calls s)
                 ++ ((λ b, slice (splitText env content) (b * 100) (b * 100 + 100))
                       <$> seq 0 ((length (splitText env content) + 99) / 100))
           ∧ (λ r, (chunk_index r, text (metadata r))) <$> new
             = imap (λ k c, (k, c)) (splitText env content)
           ∧ (embedManyContract env →
                Forall (λ r, is_Some (embedding r)) new)).
Proof.
  intros Htext Hno. unfold EmbeddingService.generateEmbeddingsForPage.
  rewrite Htext, Hno. simpl default.
  unfold EmbeddingService.deleteEmbeddingsForPage. munfold.
  destruct (dbFailure env (calls s) _) as [e|] eqn:Hf.
  { intros [= <- <-]. simpl.
    rewrite deleteCalls_snoc, failureLines_snoc, app_nil_r.
    split; [done |]. split; [done |]. exists []. split; [done |].
    split; [by left | done]. }
  simpl. set (s0 := with_table _ _).
  assert (Hd0 : deleteCalls (calls s0)
                = deleteCalls (calls s) ++ [PageForEmbedding.id page])
    by (simpl; by rewrite deleteCalls_snoc).
  assert (Hl0 : failureLines (calls s0) = failureLines (calls s))
    by (simpl; by rewrite failureLines_snoc, app_nil_r).
  assert (He0 : embedCalls (calls s0) = embedCalls (calls s))
    by (simpl; by rewrite embedCalls_snoc, app_nil_r).
  assert (Ht0 : table s0
                = filter (λ r, page_id r ≠ PageForEmbedding.id page) (table s))
    by done.
  clearbody s0. destruct (length (splitText env content) =? 0) eqn:Hlen.
  { intros [= <- <-]. apply Nat.eqb_eq, length_zero_iff_nil in Hlen.
    split; [done |]. split; [done |]. exists []. rewrite app_nil_r.
    split; [done |]. split; [by right |]. intros _. rewrite Hlen. simpl.
    by rewrite app_nil_r. }
  destruct (EmbeddingService.getEmbeddingModel env) as [model|e].
  2:{ intros [= <- <-]. split; [done |]. split; [done |]. exists [].
      rewrite app_nil_r. split; [done |]. split; [by right | done]. }
  destruct (EmbeddingService.batchLoop _ _ _ _ _ _ _ _) as [[[]|e] s1]
    eqn:Hloop;
    apply (batchLoop_spec _ _ _ _ (length (splitText env content))) in Hloop
      as (Hd1 & Hl1 & new & Ht1 & Hr1 & Hok1); try lia.
  - intros [= <- <-]. simpl.
    rewrite deleteCalls_snoc, failureLines_snoc, embedCalls_snoc, !app_nil_r.
    split; [congruence |]. split; [congruence |]. exists new.
    split; [done |]. split; [right; congruence |]. intros _.
    destruct (Hok1 eq_refl) as (He1 & Hix & Hv).
    split; [congruence |]. rewrite Nat.sub_0_r in He1.
    split; [by rewrite He1, He0 |]. done.
  - intros [= <- <-]. split; [congruence |]. split; [congruence |].
    exists new. split; [done |]. split; [right; congruence | done].
Qed.

(** ** The batches of a list *)

Section batches.
Context {A : Type} (l : list A).

Let batch (b : nat) : list A := slice l (b * 100) (b * 100 + 100).

Lemma batch_take_drop b : batch b = take 100 (drop (b * 100) l).
Proof. unfold batch, slice. f_equal. lia. Qed.

Lemma batch_length b : length (batch b) = 100 `min` (length l - b * 100).
Proof. by rewrite batch_take_drop, length_take, length_drop. Qed.

Lemma batches_concat m : concat (batch <$> seq 0 m) = take (m * 100) l.
Proof.
  induction m as [|m IH]; [done |].
  rewrite seq_S, fmap_app, concat_app, IH. simpl.
  rewrite app_nil_r, batch_take_drop, take_take_drop. f_equal. lia.
Qed.

Lemma batches_cover :
  concat (batch <$> seq 0 ((length l + 99) / 100)) = l.
Proof.
  rewrite batches_concat. apply take_ge.
  pose proof (Nat.div_mod_eq (length l + 99) 100).
  pose proof (Nat.mod_upper_bound (length l + 99) 100). lia.
Qed.

Lemma fmap_seq_const {B} (g : nat → B) (x : B) q : ∀ j,
  (∀ b, j ≤ b < j + q → g b = x) → g <$> seq j q = replicate q x.
Proof.
  induction q as [|q IH]; intros j Hg; [done |]. simpl. f_equal.
  - apply Hg. lia.
  - apply IH. intros b Hb. apply Hg. lia.
Qed.

Lemma batches_sizes :
  length <$> (batch <$> seq 0 ((length l + 99) / 100))
  = replicate (length l / 100) 100
      ++ (if length l mod 100 =? 0 then [] else [length l mod 100]).
Proof.
  set (N := length l).
  pose proof (Nat.div_mod_eq N 100) as HN.
  pose proof (Nat.mod_upper_bound N 100) as Hr.
  rewrite <- list_fmap_compose.
  destruct (N mod 100 =? 0) eqn:Hrem.
  - apply Nat.eqb_eq in Hrem.
    replace ((N + 99) / 100) with (N / 100)
      by (apply Nat.div_unique with (r := 99); lia).
    rewrite app_nil_r. apply fmap_seq_const. intros b Hb. simpl.
    rewrite batch_length. fold N. lia.
  - apply Nat.eqb_neq in Hrem.
    replace ((N + 99) / 100) with (S (N / 100))
      by (apply Nat.div_unique with (r := N mod 100 - 1); lia).
    rewrite seq_S, fmap_app. f_equal.
    + apply fmap_seq_const. intros b Hb. simpl.
      rewrite batch_length. fold N. lia.
    + change (length ∘ batch <$> [0 + N / 100])
        with [length (batch (0 + N / 100))].
      rewrite batch_length. fold N. f_equal. lia.
Qed.

Lemma batches_bounded m : Forall (λ b, length b ≤ 100) (batch <$> seq 0 m).
Proof.
  apply Forall_fmap, Forall_forall. intros b _. simpl.
  rewrite batch_length. lia.
Qed.

End batches.

(** ** Filters that keep everything or nothing *)

Lemma filter_all {A} (P : A → Prop) `{∀ x, Decision (P x)} (l : list A) :
  Forall P l → filter P l = l.
Proof.
  induction 1 as [|x l Hx _ IH]; [done |].
  by rewrite filter_cons_True, IH.
Qed.

Lemma filter_none {A} (P : A → Prop) `{∀ x, Decision (P x)} (l : list A) :
  Forall (λ x, ¬ P x) l → filter P l = [].
Proof.
  induction 1 as [|x l Hx _ IH]; [done |].
  by rewrite filter_cons_False.
Qed.

(** ** Batches, indices and offsets of a regeneration *)

(** C5. For a document whose text splits into [N] chunks, a regeneration
    that returns has issued [ceil(N / 100)] embedding calls, each on at most
    100 chunks, full batches of 100 followed by the remainder, which together
    cover the chunks in order; with one embedding returned per value, it has
    added to the table exactly [N] rows, one per chunk and each with its
    vector, after the rows of the other documents. *)
Theorem regeneration_batches env (page : PageForEmbedding.t)
  (content : jsstring) (s s' : State) :
  PageForEmbedding.textContent page = Some content →
  ¬ blank (Some content) →
  embedManyContract env →
  EmbeddingService.generateEmbeddingsForPage env page s = (Ok (), s') →
  ∃ (batches : list (list jsstring)) (rows : list page_embeddings),
    embedCalls (calls s') = embedCalls (calls s) ++ batches
    ∧ length batches = (length (splitText env content) + 99) / 100
    ∧ Forall (λ b, length b ≤ 100) batches
    ∧ length <$> batches
      = replicate (length (splitText env content) / 100) 100
          ++ (if length (splitText env content) mod 100 =? 0 then []
              else [length (splitText env content) mod 100])
    ∧ concat batches = splitText env content
    ∧ table s'
      = filter (λ r, page_id r ≠ PageForEmbedding.id page) (table s) ++ rows
    ∧ length rows = length (splitText env content)
    ∧ (λ r, text (metadata r)) <$> rows = splitText env content
    ∧ Forall (λ r, is_Some (embedding r)) rows.
Proof.
  intros Htext Hnb Hc Hrun.
  assert (Hno : EmbeddingService.hasNoText (Some content) = false).
  { destruct (EmbeddingService.hasNoText _) eqn:E; [| done].
    by apply hasNoText_blank in E. }
  destruct (generateEmbeddingsForPage_spec _ _ _ _ _ _ Htext Hno Hrun)
    as (_ & _ & rows & _ & _ & Hok).
  destruct (Hok eq_refl) as (Ht & He & Hix & Hv).
  assert (Htexts : (λ r, text (metadata r)) <$> rows = splitText env content).
  { apply (f_equal (fmap snd)) in Hix.
    rewrite <- list_fmap_compose, fmap_imap in Hix.
    rewrite (imap_ext _ (λ _ c, c)) in Hix by done.
    rewrite (imap_const id), list_fmap_id in Hix. exact Hix. }
  eexists _, rows. split; [exact He |].
  split; [by rewrite length_fmap, length_seq |].
  split; [apply batches_bounded |].
  split; [apply batches_sizes |].
  split; [apply batches_cover |].
  split; [exact Ht |].
  split; [by rewrite <- Htexts, length_fmap |].
  split; [exact Htexts | by apply Hv].
Qed.

Lemma regeneration_batches_witness :
  ∃ (batches : list (list jsstring)) (rows : list page_embeddings),
    length <$> batches = [100; 100; 50]
    ∧ length rows = 250
    ∧ embedCalls
        (calls (EmbeddingService.generateEmbeddingsForPage Examples.env250
                  (Examples.page (Some (js "hello world")))
                  Examples.seeded).2)
      = batches
    ∧ table (EmbeddingService.generateEmbeddingsForPage Examples.env250
               (Examples.page (Some (js "hello world"))) Examples.seeded).2
      = filter (λ r, page_id r ≠ Examples.page1) (table Examples.seeded) ++ rows.
Proof.
  destruct (regeneration_batches Examples.env250
              (Examples.page (Some (js "hello world"))) (js "hello world")
              Examples.seeded
              (EmbeddingService.generateEmbeddingsForPage Examples.env250
                 (Examples.page (Some (js "hello world")))
                 Examples.seeded).2)
    as (batches & rows & He & _ & _ & Hsz & _ & Ht & Hlen & _).
  - reflexivity.
  - intros H. inversion H as [|? ? Hc _]. vm_compute in Hc. discriminate Hc.
  - intros h model values embeddings [= <-]. apply length_fmap.
  - vm_compute. reflexivity.
  - exists batches, rows. repeat split; assumption.
Defined.

(** C6. After a regeneration of a document with text that returns, the chunk
    indices stored for the document, in table order, are [0, 1, ..., N - 1]
    for the [N] chunks of its text: none is missing and none occurs twice,
    whatever the batches were. *)
Theorem stored_indices_contiguous env (page : PageForEmbedding.t)
  (content : jsstring) (s s' : State) :
  PageForEmbedding.textContent page = Some content →
  ¬ blank (Some content) →
  EmbeddingService.generateEmbeddingsForPage env page s = (Ok (), s') →
  chunk_index <$> rowsOfPage (PageForEmbedding.id page) (table s')
  = seq 0 (length (splitText env content)).
Proof.
  intros Htext Hnb Hrun.
  assert (Hno : EmbeddingService.hasNoText (Some content) = false).
  { destruct (EmbeddingService.hasNoText _) eqn:E; [| done].
    by apply hasNoText_blank in E. }
  destruct (generateEmbeddingsForPage_spec _ _ _ _ _ _ Htext Hno Hrun)
    as (_ & _ & rows & Hrows & _ & Hok).
  destruct (Hok eq_refl) as (Ht & _ & Hix & _).
  unfold rowsOfPage. rewrite Ht, filter_app.
  rewrite filter_none.
  2:{ apply Forall_forall. by intros r [? _]%list_elem_of_filter. }
  rewrite filter_all.
  2:{ eapply Forall_impl; [exact Hrows |]. by intros r [? _]. }
  simpl. apply (f_equal (fmap fst)) in Hix.
  rewrite <- list_fmap_compose, fmap_imap in Hix.
  rewrite (imap_ext _ (λ k _, id k)) in Hix by done.
  rewrite imap_seq_0, list_fmap_id in Hix. exact Hix.
Qed.

Lemma stored_indices_contiguous_witness :
  chunk_index
    <$> rowsOfPage Examples.page1
          (table (EmbeddingService.generateEmbeddingsForPage Examples.env250
                    (Examples.page (Some (js "hello world")))
                    Examples.seeded).2)
  = seq 0 250.
Proof.
  apply (stored_indices_contiguous Examples.env250
           (Examples.page (Some (js "hello world"))) (js "hello world")
           Examples.seeded).
  - reflexivity.
  - intros H. inversion H as [|? ? Hc _]. vm_compute in Hc. discriminate Hc.
  - vm_compute. reflexivity.
Defined.

(** C9. Every row a regeneration adds to the table has start offset 0 and a
    length equal to the length of the text kept in its metadata; the rows
    already there are kept or deleted, never rewritten.  When the run returns
    and the page has text, the rows hold, chunk after chunk, offset 0, the
    length of the chunk and the chunk itself: the offset is the same for
    every chunk, whatever its place in the document, and the text of a chunk
    is the one in the metadata. *)
Theorem stored_offsets env (page : PageForEmbedding.t) (s : State) :
  ∃ kept new,
    table (EmbeddingService.generateEmbeddingsForPage env page s).2
    = kept ++ new
    ∧ (kept = table s
       ∨ kept = filter (λ r, page_id r ≠ PageForEmbedding.id page) (table s))
    ∧ Forall (λ r, chunk_start r = 0%Z
                   ∧ chunk_length r = length (text (metadata r))) new
    ∧ match (EmbeddingService.generateEmbeddingsForPage env page s).1 with
      | Ok _ =>
          new = []
          ∨ (λ r, (chunk_start r, chunk_length r, text (metadata r))) <$> new
            = (λ c : jsstring, (0%Z, length c, c))
                <$> splitText env
                      (default [] (PageForEmbedding.textContent page))
      | Throw _ => True
      end.
Proof.
  destruct (EmbeddingService.hasNoText (PageForEmbedding.textContent page))
    eqn:Hno.
  { rewrite (generateEmbeddingsForPage_skip env page s Hno). simpl.
    exists (table s), []. rewrite app_nil_r.
    split; [done |]. split; [by left |]. split; [done | by left]. }
  destruct (PageForEmbedding.textContent page) as [content|] eqn:Htext;
    [| done].
  destruct (EmbeddingService.generateEmbeddingsForPage env page s) as [r s']
    eqn:Hrun.
  destruct (generateEmbeddingsForPage_spec _ _ _ _ _ _ Htext Hno Hrun)
    as (_ & _ & new & Hrows & Ht & Hok). simpl.
  assert (Hoff : Forall (λ r, chunk_start r = 0%Z
                   ∧ chunk_length r = length (text (metadata r))) new).
  { eapply Forall_impl; [exact Hrows |].
    by intros x (_ & _ & _ & _ & _ & ? & ?). }
  assert (Hlast : match r with
                  | Ok _ =>
                      new = []
                      ∨ (λ r, (chunk_start r, chunk_length r,
                               text (metadata r))) <$> new
                        = (λ c : jsstring, (0%Z, length c, c))
                            <$> splitText env content
                  | Throw _ => True
                  end).
  { destruct r as [[]|e]; [| done]. right.
    destruct (Hok eq_refl) as (_ & _ & Hix & _).
    apply (f_equal (fmap (λ p : nat * jsstring, (0%Z, length p.2, p.2))))
      in Hix.
    rewrite <- list_fmap_compose, fmap_imap in Hix.
    rewrite (imap_ext _ (λ _ (c : jsstring), (0%Z, length c, c))) in Hix
      by done.
    rewrite (imap_const (λ c : jsstring, (0%Z, length c, c))) in Hix.
    rewrite <- Hix. apply Forall_fmap_ext_1.
    eapply Forall_impl; [exact Hoff |]. intros x [H1 H2]. simpl in *.
    by rewrite H1, H2. }
  destruct Ht as [[Ht ->]|Ht].
  - exists (table s), []. rewrite Ht, app_nil_r.
    split; [done |]. split; [by left | done].
  - eexists _, new. split; [exact Ht |]. split; [by right | done].
Qed.

(** ** What a regeneration leaves out of the log *)

(** An observation of the log that sees no [INSERT], no embedding call, no
    [DELETE] by page and no debug line sees nothing of a regeneration. *)
Section quiet.

Context {B : Type} (f : Call → option B).
Hypothesis f_insert : ∀ row, f (InsertEmbedding row) = None.
Hypothesis f_embed : ∀ model values, f (EmbedMany model values) = None.
Hypothesis f_delete : ∀ pageId, f (DeleteWherePage pageId) = None.
Hypothesis f_debug : ∀ line, f (Logger LevelDebug line) = None.

Lemma insertRows_quiet env embeddings rows : ∀ j s r s',
  EmbeddingService.insertRows env embeddings j rows s = (r, s') →
  omap f (calls s') = omap f (calls s).
Proof using f_insert.
  induction rows as [|row rows IH]; intros j s r s' H; simpl in H.
  - munfold. by injection H as <- <-.
  - unfold EmbeddingService.insertRow in H. munfold.
    destruct (dbFailure env (calls s) _) as [e|].
    + injection H as <- <-. simpl. rewrite omap_app. simpl.
      by rewrite f_insert, app_nil_r.
    + simpl in H. apply IH in H. simpl in H. rewrite H, omap_app. simpl.
      by rewrite f_insert, app_nil_r.
Qed.

Lemma processBatch_quiet env page model modelName modelDimensions chunks i
  s r s' :
  EmbeddingService.processBatch env page model modelName modelDimensions
    chunks i s = (r, s') →
  omap f (calls s') = omap f (calls s).
Proof using f_insert f_embed.
  unfold EmbeddingService.processBatch. munfold.
  destruct (embedMany env (calls s) model _) as [e|embs].
  - intros [= <- <-]. simpl. rewrite omap_app. simpl.
    by rewrite f_embed, app_nil_r.
  - intros H%insertRows_quiet. simpl in H. rewrite H, omap_app. simpl.
    by rewrite f_embed, app_nil_r.
Qed.

Lemma batchLoop_quiet env page model modelName modelDimensions chunks :
  ∀ n i s r s',
  length chunks - i ≤ n →
  EmbeddingService.batchLoop env page model modelName modelDimensions chunks
    i s = (r, s') →
  omap f (calls s') = omap f (calls s).
Proof using f_insert f_embed.
  induction n as [|n IH]; intros i s r s' Hn; rewrite batchLoop_unfold;
    destruct (decide (i < length chunks)) as [Hi|Hi]; try lia;
    try (by intros [= <- <-]).
  destruct (EmbeddingService.processBatch _ _ _ _ _ _ _ _) as [[[]|e] s1]
    eqn:Hb; apply processBatch_quiet in Hb.
  - unfold EmbeddingService.EMBEDDING_BATCH_SIZE.
    intros H%IH; [congruence | lia].
  - by intros [= <- <-].
Qed.

Lemma generateEmbeddingsForPage_quiet env page s r s' :
  EmbeddingService.generateEmbeddingsForPage env page s = (r, s') →
  omap f (calls s') = omap f (calls s).
Proof using f_insert f_embed f_delete f_debug.
  unfold EmbeddingService.generateEmbeddingsForPage,
    EmbeddingService.deleteEmbeddingsForPage.
  destruct (EmbeddingService.hasNoText _); munfold; [by intros [= <- <-] |].
  destruct (dbFailure env (calls s) _) as [e|].
  { intros [= <- <-]. simpl. rewrite omap_app. simpl.
    by rewrite f_delete, app_nil_r. }
  simpl. set (s0 := with_table _ _).
  assert (H0 : omap f (calls s0) = omap f (calls s)).
  { simpl. rewrite omap_app. simpl. by rewrite f_delete, app_nil_r. }
  clearbody s0. destruct (length _ =? 0); [by intros [= <- <-] |].
  destruct (EmbeddingService.getEmbeddingModel env) as [model|e];
    [| by intros [= <- <-]].
  destruct (EmbeddingService.batchLoop _ _ _ _ _ _ _ _) as [[[]|e] s1]
    eqn:Hloop; eapply batchLoop_quiet in Hloop; try reflexivity.
  - intros [= <- <-]. simpl. rewrite omap_app. simpl.
    rewrite f_debug, app_nil_r. congruence.
  - intros [= <- <-]. congruence.
Qed.

End quiet.

(** ** The workspace-wide run *)

Lemma failureReports_snoc cs c :
  failureReports (cs ++ [c])
  = failureReports cs ++ match c with
                         | Logger LevelError (LogPageFailed p r) => [(p, r)]
                         | _ => []
                         end.
Proof.
  unfold failureReports. rewrite omap_app.
  destruct c as [| | | | | | | | | |[] []]; done.
Qed.

(** The failure lines of a log are the pages of its failure reports. *)
Lemma failureLines_reports cs : failureLines cs = (failureReports cs).*1.
Proof.
  induction cs as [|c cs IH]; [done |].
  unfold failureLines, failureReports in *. simpl.
  destruct c as [| | | | | | | | | |[] []]; simpl;
    first [exact IH | f_equal; exact IH].
Qed.

(** A regeneration reports no failure: the reports are written by the run
    around it. *)
Lemma generateEmbeddingsForPage_reports env page s r s' :
  EmbeddingService.generateEmbeddingsForPage env page s = (r, s') →
  failureReports (calls s') = failureReports (calls s).
Proof. by apply generateEmbeddingsForPage_quiet. Qed.

(** What the attempts of a run leave in the log: the [DELETE] that opens each
    attempt, in the order of the pages, and one report for each page that
    threw, in that order too, with the reason of its error; the pages are all
    either processed or reported. *)
Lemma attempts_log env pages s processed failed s' :
  attempts env pages s processed failed s' →
  Forall (λ p, EmbeddingService.hasNoText (PageForEmbedding.textContent p)
               = false) pages →
  deleteCalls (calls s')
  = deleteCalls (calls s) ++ (PageForEmbedding.id <$> pages)
  ∧ failureReports (calls s') = failureReports (calls s) ++ failed
  ∧ failed.*1 `sublist_of` (PageForEmbedding.id <$> pages)
  ∧ processed + length failed = length pages.
Proof.
  induction 1 as [s|page pages s s1 processed failed s' Hrun _ IH
                   |page pages s s1 err processed failed s' Hrun _ IH];
    intros Htext.
  - rewrite !app_nil_r. repeat split. constructor.
  - apply Forall_cons in Htext as [Hno Htext].
    destruct (IH Htext) as (Hd & Hl & Hsub & Hn).
    destruct (PageForEmbedding.textContent page) as [content|] eqn:Hc;
      [| done].
    destruct (generateEmbeddingsForPage_spec _ _ _ _ _ _ Hc Hno Hrun)
      as (Hd1 & _).
    apply generateEmbeddingsForPage_reports in Hrun.
    split; [by rewrite Hd, Hd1, <- app_assoc |].
    split; [congruence |]. split; [by apply sublist_cons |].
    simpl. lia.
  - apply Forall_cons in Htext as [Hno Htext].
    destruct (IH Htext) as (Hd & Hl & Hsub & Hn).
    destruct (PageForEmbedding.textContent page) as [content|] eqn:Hc;
      [| done].
    destruct (generateEmbeddingsForPage_spec _ _ _ _ _ _ Hc Hno Hrun)
      as (Hd1 & _).
    apply generateEmbeddingsForPage_reports in Hrun.
    simpl in Hd, Hl.
    rewrite deleteCalls_snoc, app_nil_r in Hd.
    rewrite failureReports_snoc in Hl.
    split; [by rewrite Hd, Hd1, <- app_assoc |].
    split; [by rewrite Hl, Hrun, <- app_assoc |].
    split; [by apply sublist_skip |].
    simpl. lia.
Qed.

(** The page loop returns whatever the pages do, and what it does is the
    attempts on the pages with text, in order: the pages without text leave
    no trace but the counter of the pages skipped. *)
Lemma pagesLoop_spec env pages : ∀ processedCount skippedCount s,
  ∃ processed failed s',
    EmbeddingService.pagesLoop env pages processedCount skippedCount s
    = (Ok ((processedCount + Z.of_nat processed)%Z,
           (skippedCount
            + Z.of_nat (length pages - length (withText pages)))%Z), s')
    ∧ attempts env (withText pages) s processed failed s'.
Proof.
  induction pages as [|page pages IH]; intros pc sc s; simpl.
  - exists 0, [], s. split; [| constructor].
    munfold. do 3 f_equal; lia.
  - pose proof (length_filter
      (λ p, EmbeddingService.hasNoText (PageForEmbedding.textContent p)
            = false) pages) as Hle.
    fold (withText pages) in Hle.
    unfold withText. rewrite filter_cons. fold (withText pages).
    destruct (EmbeddingService.hasNoText (PageForEmbedding.textContent page))
      eqn:Hno.
    + rewrite decide_False by done.
      destruct (IH pc (sc + 1)%Z s) as (n & failed & s' & -> & Hrun).
      exists n, failed, s'. split; [| done]. do 3 f_equal. lia.
    + rewrite decide_True by done. munfold.
      destruct (EmbeddingService.generateEmbeddingsForPage env page s)
        as [[[]|e] s1] eqn:Hpage.
      * destruct (IH (pc + 1)%Z sc s1) as (n & failed & s' & -> & Hrun).
        exists (S n), failed, s'. split; [do 3 f_equal; simpl; lia |].
        by eapply attempts_processed.
      * simpl.
        destruct (IH pc sc
                    (with_call
                       (Logger LevelError
                          (LogPageFailed (PageForEmbedding.id page)
                             (EmbeddingService.reason e))) s1))
          as (n & failed & s' & -> & Hrun).
        exists n, ((PageForEmbedding.id page, EmbeddingService.reason e)
                     :: failed), s'.
        split; [do 3 f_equal; simpl; lia |].
        by eapply attempts_failed.
Qed.

(** C8. In a workspace-wide run, once the pages are read, the run returns
    whatever happens to the individual pages.  What it does in between is the
    attempts on the pages of the workspace that have text: each is
    regenerated, in order, from the state the pages before it have left, so
    that a failure on one page never prevents the attempt on a later one; an
    error thrown by a page is caught and reported through the logger, with
    the id of the page and the reason of the error, before the next page
    starts.  The log therefore holds the [DELETE] of every page with text and
    one report for each page that threw and for no other; the closing log
    line counts the pages processed, skipped and failed.  The run throws
    only when the query that reads the pages does, and then no page has been
    touched. *)
Theorem workspace_run_continues env (workspaceId : jsstring) (s : State) :
  match dbFailure env (calls s ++ [Logger LevelLog (LogStarting workspaceId)])
          (SelectWorkspacePages workspaceId) with
  | Some e =>
      (EmbeddingService.generateEmbeddingsForWorkspace env workspaceId s).1
      = Throw e
      ∧ deleteCalls
          (calls (EmbeddingService.generateEmbeddingsForWorkspace env
                    workspaceId s).2)
        = deleteCalls (calls s)
  | None =>
      ∃ pages reports processed skipped s1,
        pages = EmbeddingService.selectPage
                  <$> filter (λ p, pages_workspaceId p = workspaceId
                                   ∧ pages_deletedAt p = None)
                        (pagesTable env)
        ∧ (EmbeddingService.generateEmbeddingsForWorkspace env workspaceId
             s).1 = Ok ()
        ∧ attempts env (withText pages)
            (with_call (Logger LevelLog (LogFound (length pages)))
               (with_call (SelectWorkspacePages workspaceId)
                  (with_call (Logger LevelLog (LogStarting workspaceId)) s)))
            (Z.to_nat processed) reports s1
        ∧ (EmbeddingService.generateEmbeddingsForWorkspace env workspaceId
             s).2
          = with_call
              (Logger LevelLog
                 (LogComplete processed skipped
                    (Z.of_nat (length reports)))) s1
        ∧ deleteCalls
            (calls (EmbeddingService.generateEmbeddingsForWorkspace env
                      workspaceId s).2)
          = deleteCalls (calls s) ++ (PageForEmbedding.id <$> withText pages)
        ∧ failureReports
            (calls (EmbeddingService.generateEmbeddingsForWorkspace env
                      workspaceId s).2)
          = failureReports (calls s) ++ reports
        ∧ failureLines
            (calls (EmbeddingService.generateEmbeddingsForWorkspace env
                      workspaceId s).2)
          = failureLines (calls s) ++ reports.*1
        ∧ reports.*1 `sublist_of` (PageForEmbedding.id <$> withText pages)
        ∧ last (calls (EmbeddingService.generateEmbeddingsForWorkspace env
                         workspaceId s).2)
          = Some (Logger LevelLog
                    (LogComplete processed skipped
                       (Z.of_nat (length reports))))
        ∧ (0 ≤ processed)%Z
        ∧ (processed + Z.of_nat (length reports)
           = Z.of_nat (length (withText pages)))%Z
        ∧ (skipped + Z.of_nat (length (withText pages))
           = Z.of_nat (length pages))%Z
  end.
Proof.
  unfold EmbeddingService.generateEmbeddingsForWorkspace,
    EmbeddingService.selectWorkspacePages. munfold. simpl.
  destruct (dbFailure env _ _) as [e|] eqn:Hf; simpl.
  - split; [done |]. by rewrite !deleteCalls_snoc, !app_nil_r.
  - set (pages := EmbeddingService.selectPage <$> _).
    set (s0 := with_call _ (with_call _ (with_call _ s))).
    destruct (pagesLoop_spec env pages 0%Z 0%Z s0)
      as (n & reports & s1 & -> & Hrun).
    assert (Htext : Forall
              (λ p, EmbeddingService.hasNoText (PageForEmbedding.textContent p)
                    = false) (withText pages)).
    { apply Forall_forall. by intros p [? _]%list_elem_of_filter. }
    destruct (attempts_log _ _ _ _ _ _ Hrun Htext) as (Hd & Hl & Hsub & Hn).
    pose proof (length_filter
      (λ p, EmbeddingService.hasNoText (PageForEmbedding.textContent p)
            = false) pages) as Hle.
    fold (withText pages) in Hle.
    exists pages, reports, (Z.of_nat n),
      (Z.of_nat (length pages - length (withText pages))), s1.
    simpl. subst s0. simpl in Hd, Hl.
    rewrite !deleteCalls_snoc, !failureReports_snoc, !app_nil_r in *.
    rewrite failureLines_reports, failureLines_reports, failureReports_snoc.
    rewrite app_nil_r, Hl, fmap_app, Nat2Z.id, last_snoc.
    assert (Hcount : (Z.of_nat (length pages) - Z.of_nat n
                      - Z.of_nat (length pages - length (withText pages))
                      = Z.of_nat (length reports))%Z) by lia.
    rewrite !Z.add_0_l, Hcount.
    repeat split; try done; lia.
Qed.

(** ** Retrieval: scope, order and size of the result *)

Lemma ascending_total : Total AiSearchService.ascending.
Proof.
  intros [x|] [y|]; unfold AiSearchService.ascending; simpl; auto.
  rewrite !Qle_bool_iff.
  destruct (Qlt_le_dec x y); [left; by apply Qlt_le_weak | by right].
Qed.

Lemma ascending_trans : Transitive AiSearchService.ascending.
Proof.
  intros [x|] [y|] [z|]; unfold AiSearchService.ascending; simpl; try done.
  rewrite !Qle_bool_iff. apply Qle_trans.
Qed.

Lemma byDistance_total env v : Total (AiSearchService.byDistance env v).
Proof. intros a b. apply ascending_total. Qed.

Lemma byDistance_trans env v : Transitive (AiSearchService.byDistance env v).
Proof. intros a b c. apply ascending_trans. Qed.

(** The rows selected are rows of the table, of the workspace and of the
    given spaces, by ascending distance, and at most [limit]. *)
Lemma nearestRows_spec env v workspaceId spaceIds limit t :
  Forall (λ pe, pe ∈ t ∧ workspace_id pe = workspaceId
                ∧ space_id pe ∈ spaceIds)
    (AiSearchService.nearestRows env v workspaceId spaceIds limit t)
  ∧ StronglySorted (AiSearchService.byDistance env v)
      (AiSearchService.nearestRows env v workspaceId spaceIds limit t)
  ∧ length (AiSearchService.nearestRows env v workspaceId spaceIds limit t)
    ≤ limit.
Proof.
  unfold AiSearchService.nearestRows. split; [| split].
  - apply Forall_take. rewrite merge_sort_Permutation.
    apply Forall_forall. intros pe [? ?]%list_elem_of_filter. tauto.
  - pose proof (byDistance_total env v). pose proof (byDistance_trans env v).
    eapply StronglySorted_app_1_l. rewrite take_drop.
    by apply StronglySorted_merge_sort.
  - rewrite length_take. lia.
Qed.

(** The two ways [findSimilarChunks] returns: without a statement on the
    table when the scope is empty, and else with the rows the statement
    selects for the UUIDs read from the array literal of the scope. *)
Lemma findSimilarChunks_returns env queryVector workspaceId userId spaceId
  s chunks s' :
  AiSearchService.findSimilarChunks env queryVector workspaceId userId spaceId
    s = (Ok chunks, s') →
  scope env userId spaceId = [] ∧ chunks = []
  ∨ ∃ spaceIds,
      scope env userId spaceId ≠ []
      ∧ uuidArray env (arrayLiteral (scope env userId spaceId)) = inr spaceIds
      ∧ chunks
        = AiSearchService.selectColumns env queryVector
            <$> AiSearchService.nearestRows env queryVector workspaceId
                  spaceIds AiSearchService.TOP_K (table s).
Proof.
  unfold AiSearchService.findSimilarChunks,
    AiSearchService.selectNearestRows.
  munfold.
  destruct (truthy spaceId) eqn:Hsp; simpl.
  - destruct (dbFailure env _ (SelectNearest _ _ _ _)); [done |]. simpl.
    destruct (uuidArray env _) as [e|spaceIds] eqn:Hcast; [done |].
    intros_run. right. exists spaceIds. unfold scope. rewrite Hsp.
    split; [done |]. split; [exact Hcast | done].
  - destruct (dbFailure env (calls s) _); [done |]. simpl.
    destruct (length (getUserSpaceIds env userId) =? 0) eqn:Hlen.
    + intros_run. apply Nat.eqb_eq, length_zero_iff_nil in Hlen.
      left. unfold scope. by rewrite Hsp.
    + destruct (dbFailure env _ (SelectNearest _ _ _ _)); [done |]. simpl.
      destruct (uuidArray env _) as [e|spaceIds] eqn:Hcast; [done |].
      intros_run. right. exists spaceIds. unfold scope. rewrite Hsp.
      split; [| split; [exact Hcast | done]].
      intros Hnil. by rewrite Hnil in Hlen.
Qed.

(** What [findSimilarChunks] returns when it returns: chunks of the table,
    of the queried workspace and of the spaces searched, by ascending
    distance, at most [TOP_K]. *)
Lemma findSimilarChunks_scoped env queryVector workspaceId userId spaceId
  s chunks s' :
  AiSearchService.findSimilarChunks env queryVector workspaceId userId spaceId
    s = (Ok chunks, s') →
  length chunks ≤ 10
  ∧ StronglySorted
      (λ a b, AiSearchService.ascending (SearchChunkResult.distance a)
                (SearchChunkResult.distance b)) chunks
  ∧ ∃ spaceIds rows,
      searched env userId spaceId = Some spaceIds
      ∧ chunks = AiSearchService.selectColumns env queryVector <$> rows
      ∧ Forall (λ pe, pe ∈ table s ∧ workspace_id pe = workspaceId
                      ∧ space_id pe ∈ spaceIds) rows.
Proof.
  intros [[Hscope ->]|(spaceIds & Hscope & Hcast & ->)]%findSimilarChunks_returns.
  - split; [simpl; lia |]. split; [constructor |].
    exists [], []. unfold searched. by rewrite Hscope.
  - destruct (nearestRows_spec env queryVector workspaceId spaceIds
                AiSearchService.TOP_K (table s)) as (Hin & Hsorted & Hlen).
    split; [by rewrite length_fmap |]. split.
    + eapply StronglySorted_fmap; [| exact Hsorted]. done.
    + eexists spaceIds, _. split; [| done]. unfold searched.
      destruct (scope env userId spaceId); [done |]. by rewrite Hcast.
Qed.

(** ** The answer stream *)

Lemma findSimilarChunks_written env queryVector workspaceId userId spaceId
  s r s' :
  AiSearchService.findSimilarChunks env queryVector workspaceId userId spaceId
    s = (r, s') →
  written s' = written s.
Proof.
  unfold AiSearchService.findSimilarChunks,
    AiSearchService.selectNearestRows.
  munfold.
  destruct (truthy spaceId); simpl.
  - destruct (dbFailure env _ (SelectNearest _ _ _ _)); [by intros_run |].
    simpl. destruct (uuidArray env _); by intros_run.
  - destruct (dbFailure env _ (SelectUserSpaceIds _)); [by intros_run |].
    simpl. destruct (length (getUserSpaceIds env userId) =? 0);
      [by intros_run |].
    destruct (dbFailure env _ (SelectNearest _ _ _ _)); [by intros_run |].
    simpl. destruct (uuidArray env _); by intros_run.
Qed.

Lemma buildSources_written env chunks s r s' :
  AiSearchService.buildSources env chunks s = (r, s') →
  written s' = written s.
Proof.
  unfold AiSearchService.buildSources. munfold.
  destruct (length chunks =? 0); [by intros_run |].
  destruct (dbFailure env _ _); by intros_run.
Qed.

(** The text parts are yielded in the order of the stream; a failure of the
    stream comes after the parts delivered before it. *)
Lemma forAwait_spec parts failure : ∀ s,
  AiSearchService.forAwait parts failure
    (λ textPart, yield (Data (Content textPart))) s
  = (match failure with Some e => Throw e | None => Ok () end,
     {| table := table s; calls := calls s; head := head s;
        written := written s ++ contentEvents parts; ended := ended s |}).
Proof.
  induction parts as [|p parts IH]; intros s; simpl.
  - rewrite app_nil_r. destruct s. by destruct failure.
  - munfold. rewrite IH. simpl. by rewrite <- app_assoc.
Qed.

(** The events of [askQuestion].  When it returns: content events, then one
    sources event, then the sentinel.  When it throws: the content events
    yielded so far and nothing else. *)
Lemma askQuestion_spec env query workspaceId userId spaceId s r s' :
  AiSearchService.askQuestion env query workspaceId userId spaceId s = (r, s') →
  match r with
  | Ok _ =>
      ∃ parts sources,
        written s' = written s ++ contentEvents parts
                       ++ [Data (Sources sources); DONE]
        ∧ (parts = [js "No relevant content found in your workspace for this query."]
           ∧ sources = []
           ∨ ∃ h model system,
               textStream env h model system query = (parts, None))
  | Throw _ => ∃ parts, written s' = written s ++ contentEvents parts
  end.
Proof.
  unfold AiSearchService.askQuestion. munfold.
  destruct (EmbeddingService.getEmbeddingModel env) as [embeddingModel|e].
  2:{ intros_run. exists []. by rewrite app_nil_r. }
  destruct (embed env (calls s) embeddingModel query) as [e|queryVector].
  { intros_run. exists []. by rewrite app_nil_r. }
  set (s0 := with_call _ s).
  destruct (AiSearchService.findSimilarChunks _ _ _ _ _ s0) as [[chunks|e] s1]
    eqn:Hfind; apply findSimilarChunks_written in Hfind; simpl in Hfind.
  2:{ intros_run. exists []. by rewrite app_nil_r, Hfind. }
  destruct (length chunks =? 0).
  { unfold AiSearchService.streamText. intros_run. simpl. rewrite Hfind.
    eexists [_], []. rewrite <- !app_assoc. split; [done | by left]. }
  destruct (AiSearchService.getLanguageModel env) as [languageModel|e].
  2:{ intros_run. exists []. by rewrite app_nil_r, Hfind. }
  unfold AiSearchService.streamText.
  destruct (textStream env (calls s1) languageModel
              (AiSearchService.buildSystemPrompt chunks) query)
    as [parts failure] eqn:Hstream.
  simpl. rewrite forAwait_spec. simpl.
  destruct failure as [e|].
  { intros_run. exists parts. by rewrite Hfind. }
  match goal with
  | |- context [AiSearchService.buildSources env chunks ?s2] =>
      destruct (AiSearchService.buildSources env chunks s2) as [[sources|e] s3]
        eqn:Hsrc; apply buildSources_written in Hsrc; simpl in Hsrc
  end.
  - intros_run. simpl. exists parts, sources.
    rewrite Hsrc, Hfind, <- !app_assoc. split; [done |].
    right. eauto.
  - intros_run. exists parts. by rewrite Hsrc, Hfind.
Qed.

(** C3. For every answer synthesis that returns, the events of [askQuestion]
    are: content events, then exactly one sources event, then the sentinel,
    and nothing else.  The run has embedded the question and retrieved the
    chunks.  When none was retrieved, the one content event is the "no
    relevant content" text, the sources are empty and the model is not
    called.  Otherwise the model is called once, after the retrieval, with
    the prompt built from the chunks retrieved; the content events are the
    text parts its stream delivered to that call, in the order of the stream;
    they are all written before the query of the sources is issued, and the
    sources event carries the sources built from the chunks retrieved. *)
Theorem answer_stream_order env (query workspaceId userId : jsstring)
  (spaceId : option jsstring) (s s' : State) :
  AiSearchService.askQuestion env query workspaceId userId spaceId s
  = (Ok (), s') →
  ∃ parts sources embeddingModel queryVector chunks s1,
    written s' = written s ++ contentEvents parts
                   ++ [Data (Sources sources); DONE]
    ∧ EmbeddingService.getEmbeddingModel env = Ok embeddingModel
    ∧ embed env (calls s) embeddingModel query = inr queryVector
    ∧ AiSearchService.findSimilarChunks env queryVector workspaceId userId
        spaceId (with_call (Embed embeddingModel query) s) = (Ok chunks, s1)
    ∧ match chunks with
      | [] =>
          parts
          = [js "No relevant content found in your workspace for this query."]
          ∧ sources = []
          ∧ calls s' = calls s1
      | _ :: _ =>
          ∃ languageModel s2 s3,
            AiSearchService.getLanguageModel env = Ok languageModel
            ∧ textStream env (calls s1) languageModel
                (AiSearchService.buildSystemPrompt chunks) query
              = (parts, None)
            ∧ calls s2
              = calls s1
                  ++ [StreamText languageModel
                        (AiSearchService.buildSystemPrompt chunks) query]
            ∧ written s2 = written s ++ contentEvents parts
            ∧ AiSearchService.buildSources env chunks s2 = (Ok sources, s3)
            ∧ calls s' = calls s3
      end.
Proof.
  unfold AiSearchService.askQuestion. munfold.
  destruct (EmbeddingService.getEmbeddingModel env) as [embeddingModel|e];
    [| done].
  destruct (embed env (calls s) embeddingModel query) as [e|queryVector]
    eqn:Hembed; [done |].
  destruct (AiSearchService.findSimilarChunks _ _ _ _ _ (with_call _ s))
    as [[chunks|e] s1] eqn:Hfind; [| done].
  pose proof (findSimilarChunks_written _ _ _ _ _ _ _ _ Hfind) as Hw.
  simpl in Hw.
  destruct chunks as [|chunk chunks]; simpl.
  { intros_run. simpl.
    exists [js "No relevant content found in your workspace for this query."],
      [], embeddingModel, queryVector, [], s1.
    rewrite Hw, <- !app_assoc. by repeat split. }
  destruct (AiSearchService.getLanguageModel env) as [languageModel|e];
    [| done].
  unfold AiSearchService.streamText.
  destruct (textStream env (calls s1) languageModel
              (AiSearchService.buildSystemPrompt (chunk :: chunks)) query)
    as [parts failure] eqn:Hstream.
  simpl. rewrite forAwait_spec. simpl.
  destruct failure as [e|]; [done |].
  match goal with
  | |- context [AiSearchService.buildSources env (chunk :: chunks) ?s2] =>
      set (after := s2);
      destruct (AiSearchService.buildSources env (chunk :: chunks) after)
        as [[sources|e] s3] eqn:Hsrc; [| done]
  end.
  pose proof (buildSources_written _ _ _ _ _ Hsrc) as Hw3. simpl in Hw3.
  intros_run. simpl.
  exists parts, sources, embeddingModel, queryVector, (chunk :: chunks), s1.
  rewrite Hw3, Hw, <- !app_assoc.
  split; [done |]. split; [done |]. split; [done |]. split; [done |].
  exists languageModel, after, s3. subst after. simpl.
  split; [done |]. split; [done |]. split; [done |].
  split; [by rewrite Hw |]. by split.
Qed.

Lemma answer_stream_order_witness :
  ∃ parts sources embeddingModel queryVector chunks s1,
    written (AiSearchService.askQuestion Examples.envOk Examples.question
               Examples.workspaceW Examples.userU None Examples.seeded).2
    = written Examples.seeded ++ contentEvents parts
        ++ [Data (Sources sources); DONE]
    ∧ EmbeddingService.getEmbeddingModel Examples.envOk = Ok embeddingModel
    ∧ embed Examples.envOk (calls Examples.seeded) embeddingModel
        Examples.question = inr queryVector
    ∧ AiSearchService.findSimilarChunks Examples.envOk queryVector
        Examples.workspaceW Examples.userU None
        (with_call (Embed embeddingModel Examples.question) Examples.seeded)
      = (Ok chunks, s1)
    ∧ match chunks with
      | [] =>
          parts
          = [js "No relevant content found in your workspace for this query."]
          ∧ sources = []
          ∧ calls (AiSearchService.askQuestion Examples.envOk
                     Examples.question Examples.workspaceW Examples.userU
                     None Examples.seeded).2
            = calls s1
      | _ :: _ =>
          ∃ languageModel s2 s3,
            AiSearchService.getLanguageModel Examples.envOk = Ok languageModel
            ∧ textStream Examples.envOk (calls s1) languageModel
                (AiSearchService.buildSystemPrompt chunks) Examples.question
              = (parts, None)
            ∧ calls s2
              = calls s1
                  ++ [StreamText languageModel
                        (AiSearchService.buildSystemPrompt chunks)
                        Examples.question]
            ∧ written s2 = written Examples.seeded ++ contentEvents parts
            ∧ AiSearchService.buildSources Examples.envOk chunks s2
              = (Ok sources, s3)
            ∧ calls (AiSearchService.askQuestion Examples.envOk
                       Examples.question Examples.workspaceW Examples.userU
                       None Examples.seeded).2
              = calls s3
      end.
Proof.
  apply (answer_stream_order Examples.envOk Examples.question
           Examples.workspaceW Examples.userU None Examples.seeded).
  vm_compute. reflexivity.
Defined.

(** The events of that run: the two text parts, the source, the sentinel. *)
Example answer_stream_example :
  written (AiSearchService.askQuestion Examples.envOk Examples.question
             Examples.workspaceW Examples.userU None Examples.seeded).2
  = [ Data (Content (js "Hel")); Data (Content (js "lo"));
      Data (Sources
        [ {| SourceResult.pageId := Examples.page1;
             SourceResult.title := js "Notes";
             SourceResult.slugId := js "s1";
             SourceResult.spaceSlug := js "a";
             SourceResult.similarity := (1 - (1 # 10))%Q;
             SourceResult.distance := Some (1 # 10);
             SourceResult.chunkIndex := 0;
             SourceResult.excerpt := js "in A" |} ]);
      DONE ].
Proof. reflexivity. Qed.

(** ** The endpoint on a failure *)

(** C2, as stated, fails.  The model fails after its first text part: the
    endpoint writes that part and the error event and ends the response; the
    error event is the last chunk written, and no sentinel follows it. *)
Lemma error_then_sentinel_counterexample :
  (AiSearchService.askQuestion Examples.envBroken Examples.question
     Examples.workspaceW Examples.userU None
     (with_head 200 Examples.seeded)).1
  = Throw (ErrorObj (js "rate limit"))
  ∧ written (AiSearchController.ask Examples.envBroken Examples.request
               Examples.userU Examples.workspaceW Examples.seeded).2
    = [Data (Content (js "Hel")); Data (Error (js "rate limit"))]
  ∧ ¬ ∃ before message,
        written (AiSearchController.ask Examples.envBroken Examples.request
                   Examples.userU Examples.workspaceW Examples.seeded).2
        = before ++ [Data (Error message); DONE].
Proof.
  assert (Hw : written (AiSearchController.ask Examples.envBroken
                          Examples.request Examples.userU Examples.workspaceW
                          Examples.seeded).2
               = [Data (Content (js "Hel")); Data (Error (js "rate limit"))])
    by (vm_compute; reflexivity).
  split; [vm_compute; reflexivity |]. split; [exact Hw |].
  intros (before & message & H). rewrite Hw in H.
  apply (f_equal last) in H.
  change (before ++ [Data (Error message); DONE])
    with (before ++ [Data (Error message)] ++ [DONE]) in H.
  rewrite app_assoc, last_snoc in H. discriminate H.
Qed.

(** C2, amended.  When [askQuestion] throws, the endpoint still returns: it
    has written the content events yielded before the failure, then exactly
    one error event, which is the last chunk written, and it has ended the
    response.  The message is the one of the [Error] thrown, or the fixed
    text for any other thrown value. *)
Theorem error_event_is_last env (dto : AiSearchController.AiSearchDTO)
  (userId workspaceId : jsstring) (s s1 : State) (err : Thrown) :
  AiSearchService.askQuestion env (AiSearchController.query dto) workspaceId
    userId (AiSearchController.spaceId dto) (with_head 200 s)
  = (Throw err, s1) →
  ∃ parts s',
    AiSearchController.ask env dto userId workspaceId s = (Ok (), s')
    ∧ written s'
      = written s ++ contentEvents parts
          ++ [Data (Error match err with
                          | ErrorObj message => message
                          | NonError _ => js "An unexpected error occurred"
                          end)]
    ∧ ended s' = true.
Proof.
  intros Hrun.
  pose proof (askQuestion_spec _ _ _ _ _ _ _ _ Hrun) as [parts Hw].
  simpl in Hw. exists parts.
  unfold AiSearchController.ask. munfold. rewrite Hrun. simpl.
  eexists. split; [done |]. simpl. by rewrite Hw, <- app_assoc.
Qed.

Lemma error_event_is_last_witness :
  ∃ parts s',
    AiSearchController.ask Examples.envBroken Examples.request Examples.userU
      Examples.workspaceW Examples.seeded = (Ok (), s')
    ∧ written s'
      = written Examples.seeded ++ contentEvents parts
          ++ [Data (Error (js "rate limit"))]
    ∧ ended s' = true.
Proof.
  apply (error_event_is_last Examples.envBroken Examples.request
           Examples.userU Examples.workspaceW Examples.seeded
           (AiSearchService.askQuestion Examples.envBroken Examples.question
              Examples.workspaceW Examples.userU None
              (with_head 200 Examples.seeded)).2
           (ErrorObj (js "rate limit"))).
  vm_compute. reflexivity.
Defined.

(** ** Retrieval with an explicit target space *)

(** C1, at the failing input.  The user is a member of the spaces [A] and [B]
    only.  Without a target space the query returns the chunk of [A]; with
    the target space [C] it returns the chunk of [C], a space the user is not
    a member of: the explicit space is taken as the scope without a look at
    the memberships. *)
Theorem explicit_space_not_checked :
  getUserSpaceIds Examples.envOk Examples.userU
  = [Examples.spaceA; Examples.spaceB]
  ∧ (Examples.spaceC ∉ [Examples.spaceA; Examples.spaceB])
  ∧ (AiSearchService.findSimilarChunks Examples.envOk [0%Q]
       Examples.workspaceW Examples.userU None Examples.seeded).1
    = Ok [ {| SearchChunkResult.pageId := Examples.page1;
              SearchChunkResult.spaceId := Examples.spaceA;
              SearchChunkResult.chunkIndex := 0;
              SearchChunkResult.chunkText := Some (js "in A");
              SearchChunkResult.distance := Some (1 # 10) |} ]
  ∧ (AiSearchService.findSimilarChunks Examples.envOk [0%Q]
       Examples.workspaceW Examples.userU (Some Examples.spaceC)
       Examples.seeded).1
    = Ok [ {| SearchChunkResult.pageId := Examples.page9;
              SearchChunkResult.spaceId := Examples.spaceC;
              SearchChunkResult.chunkIndex := 0;
              SearchChunkResult.chunkText := Some (js "in C");
              SearchChunkResult.distance := Some (1 # 100) |} ].
Proof.
  split; [reflexivity |]. split; [| split; vm_compute; reflexivity].
  intros H. apply list_elem_of_In in H. vm_compute in H.
  repeat (destruct H as [H|H]; [discriminate H |]). exact H.
Qed.

(** ** Runs in concrete worlds *)

(** A workspace run in which the second page fails: the fourth page is still
    attempted and stored, the failure is logged with its reason, and the
    closing line counts two pages processed, one skipped and one failed. *)
Example workspace_run_example :
  (EmbeddingService.generateEmbeddingsForWorkspace Examples.envFlaky
     Examples.workspaceW (initial [])).1 = Ok ()
  ∧ deleteCalls
      (calls (EmbeddingService.generateEmbeddingsForWorkspace
                Examples.envFlaky Examples.workspaceW (initial [])).2)
    = [Examples.page1; Examples.page2; Examples.page4]
  ∧ failureLines
      (calls (EmbeddingService.generateEmbeddingsForWorkspace
                Examples.envFlaky Examples.workspaceW (initial [])).2)
    = [Examples.page2]
  ∧ failureReports
      (calls (EmbeddingService.generateEmbeddingsForWorkspace
                Examples.envFlaky Examples.workspaceW (initial [])).2)
    = [(Examples.page2, js "rejected")]
  ∧ page_id
      <$> table (EmbeddingService.generateEmbeddingsForWorkspace
                   Examples.envFlaky Examples.workspaceW (initial [])).2
    = [Examples.page1; Examples.page4]
  ∧ last (calls (EmbeddingService.generateEmbeddingsForWorkspace
                   Examples.envFlaky Examples.workspaceW (initial [])).2)
    = Some (Logger LevelLog (LogComplete 2 1 1)).
Proof. repeat split; vm_compute; reflexivity. Qed.

(** 250 chunks: three embedding calls, of 100, 100 and 50 chunks, and 250
    rows after the row of the other document. *)
Example regeneration_250 :
  length
    <$> embedCalls
          (calls (EmbeddingService.generateEmbeddingsForPage Examples.env250
                    (Examples.page (Some (js "hello world")))
                    Examples.seeded).2)
  = [100; 100; 50]
  ∧ length (table (EmbeddingService.generateEmbeddingsForPage Examples.env250
                     (Examples.page (Some (js "hello world")))
                     Examples.seeded).2)
    = 251.
Proof. split; vm_compute; reflexivity. Qed.

(** ** Regeneration returns in a world without failures *)

Lemma insertRows_returns env embeddings rows :
  (∀ h c, dbFailure env h c = None) →
  ∀ j s, ∃ s', EmbeddingService.insertRows env embeddings j rows s
               = (Ok (), s').
Proof.
  intros Hdb. induction rows as [|row rows IH]; intros j s; simpl.
  - by exists s.
  - unfold EmbeddingService.insertRow. munfold. rewrite Hdb. simpl.
    apply IH.
Qed.

Lemma batchLoop_returns env page model modelName modelDimensions chunks :
  faultless env →
  ∀ n i s, length chunks - i ≤ n →
    ∃ s', EmbeddingService.batchLoop env page model modelName modelDimensions
            chunks i s = (Ok (), s').
Proof.
  intros (_ & Hdb & Hemb). induction n as [|n IH]; intros i s Hn;
    rewrite batchLoop_unfold;
    destruct (decide (i < length chunks)) as [Hi|Hi]; try lia;
    try by exists s.
  unfold EmbeddingService.processBatch. munfold.
  destruct (Hemb (calls s) model
              (slice chunks i (i + EmbeddingService.EMBEDDING_BATCH_SIZE)))
    as [embeddings ->].
  match goal with
  | |- context [EmbeddingService.insertRows env embeddings 0 ?rows ?s0] =>
      destruct (insertRows_returns env embeddings rows Hdb 0 s0) as [s1 ->]
  end.
  apply IH. unfold EmbeddingService.EMBEDDING_BATCH_SIZE. lia.
Qed.

(** With a supported driver and collaborators that do not fail, the
    regeneration of a page returns. *)
Lemma generateEmbeddingsForPage_returns env page s :
  faultless env →
  ∃ s', EmbeddingService.generateEmbeddingsForPage env page s = (Ok (), s').
Proof.
  intros Hf. pose proof Hf as (Hdriver & Hdb & _).
  unfold EmbeddingService.generateEmbeddingsForPage.
  destruct (EmbeddingService.hasNoText _); [by exists s |].
  unfold EmbeddingService.deleteEmbeddingsForPage. munfold. rewrite Hdb.
  simpl. destruct (length _ =? 0); [by eexists |].
  assert (∃ model, EmbeddingService.getEmbeddingModel env = Ok model)
    as [model ->].
  { unfold EmbeddingService.getEmbeddingModel.
    rewrite !elem_of_cons, elem_of_nil in Hdriver.
    repeat case_decide; eauto. tauto. }
  match goal with
  | |- context [EmbeddingService.batchLoop env page model ?mn ?md ?chunks 0 ?s0] =>
      destruct (batchLoop_returns env page model mn md chunks Hf
                  (length chunks) 0 s0) as [s1 ->]; [lia |]
  end.
  by eexists.
Qed.

(** A stored workspace without a licence key is served with one. *)
Example workspaceAtom_example :
  (License.workspaceAtom_get (Some (Examples.licensed (VBool false)))
     ≫= (.!! "hasLicenseKey")) = Some (VBool true)
  ∧ License.hasLicenseKey
      (License.useLicense (Some (Examples.licensed (VBool false)))) = true.
Proof. split; reflexivity. Qed.

(** * Further properties *)

(** ** Deleting embeddings *)

Lemma filter_filter_none {A} (P Q : A → Prop) `{∀ x, Decision (P x)}
  `{∀ x, Decision (Q x)} (l : list A) :
  (∀ x, P x → ¬ Q x) → filter P (filter Q l) = [].
Proof.
  intros HPQ. apply filter_none, Forall_forall.
  intros x [HQ _]%list_elem_of_filter HP. by apply (HPQ x).
Qed.

Lemma filter_filter_same {A} (P Q : A → Prop) `{∀ x, Decision (P x)}
  `{∀ x, Decision (Q x)} (l : list A) :
  (∀ x, P x → Q x) → filter P (filter Q l) = filter P l.
Proof.
  intros HPQ. rewrite list_filter_filter. apply list_filter_iff.
  intros x. split; [tauto | auto].
Qed.

Lemma filter_length_split {A} (P : A → Prop) `{∀ x, Decision (P x)}
  (l : list A) :
  length (filter (λ x, ¬ P x) l) + length (filter P l) = length l.
Proof.
  rewrite <- (filter_app_complement P l) at 3. rewrite length_app. lia.
Qed.

(** [deleteEmbeddingsForPage]: when it returns, no row of the page is left,
    the rows of every other page are the ones before, in the same order, and
    the table has shrunk by the rows of the page; when it throws, the table
    is as before. *)
Lemma deleteEmbeddingsForPage_rows env (pageId : jsstring) (s : State) :
  match (EmbeddingService.deleteEmbeddingsForPage env pageId s).1 with
  | Ok _ =>
      rowsOfPage pageId
        (table (EmbeddingService.deleteEmbeddingsForPage env pageId s).2) = []
      ∧ (∀ other, other ≠ pageId →
           rowsOfPage other
             (table (EmbeddingService.deleteEmbeddingsForPage env pageId s).2)
           = rowsOfPage other (table s))
      ∧ length (table (EmbeddingService.deleteEmbeddingsForPage env pageId
                         s).2)
        + length (rowsOfPage pageId (table s)) = length (table s)
  | Throw _ =>
      table (EmbeddingService.deleteEmbeddingsForPage env pageId s).2
      = table s
  end.
Proof.
  unfold EmbeddingService.deleteEmbeddingsForPage, rowsOfPage. munfold.
  destruct (dbFailure env (calls s) _); simpl; [done |].
  split; [| split].
  - apply filter_filter_none. intros x ->. by intros ?.
  - intros other Hne. apply filter_filter_same. intros x ->. done.
  - apply (filter_length_split (λ r, page_id r = pageId)).
Qed.

(** X2. [deleteEmbeddingsForWorkspace]: when it returns, no row of the workspace
    is left, whatever its page, the rows of the other workspaces are the ones
    before, and the deletion is logged; when it throws, the table is as
    before and nothing is logged. *)
Theorem deleteEmbeddingsForWorkspace_effect env (workspaceId : jsstring)
  (s : State) :
  match (EmbeddingService.deleteEmbeddingsForWorkspace env workspaceId s).1
  with
  | Ok _ =>
      Forall (λ r, workspace_id r ≠ workspaceId)
        (table (EmbeddingService.deleteEmbeddingsForWorkspace env workspaceId
                  s).2)
      ∧ filter (λ r, workspace_id r ≠ workspaceId)
          (table (EmbeddingService.deleteEmbeddingsForWorkspace env
                    workspaceId s).2)
        = filter (λ r, workspace_id r ≠ workspaceId) (table s)
      ∧ calls (EmbeddingService.deleteEmbeddingsForWorkspace env workspaceId
                 s).2
        = calls s ++ [DeleteWhereWorkspace workspaceId;
                      Logger LevelLog (LogDeletedWorkspace workspaceId)]
  | Throw _ =>
      table (EmbeddingService.deleteEmbeddingsForWorkspace env workspaceId s).2
      = table s
      ∧ calls (EmbeddingService.deleteEmbeddingsForWorkspace env workspaceId
                 s).2
        = calls s ++ [DeleteWhereWorkspace workspaceId]
  end.
Proof.
  unfold EmbeddingService.deleteEmbeddingsForWorkspace. munfold.
  destruct (dbFailure env (calls s) _); simpl; [done |].
  split; [| split].
  - apply Forall_forall. by intros r [? _]%list_elem_of_filter.
  - by apply filter_filter_same.
  - by rewrite <- app_assoc.
Qed.

(** ** Regeneration: what it leaves, what it repeats *)

(** Whatever the page and the outcome: the table is untouched, or the rows of
    the page were deleted and rows of the page were appended. *)
Lemma generateEmbeddingsForPage_table env (page : PageForEmbedding.t) s :
  ∃ new,
    Forall (rowOf env page) new
    ∧ (table (EmbeddingService.generateEmbeddingsForPage env page s).2
       = table s ∧ new = []
       ∨ table (EmbeddingService.generateEmbeddingsForPage env page s).2
         = filter (λ r, page_id r ≠ PageForEmbedding.id page) (table s)
             ++ new).
Proof.
  destruct (EmbeddingService.hasNoText (PageForEmbedding.textContent page))
    eqn:Hno.
  { rewrite (generateEmbeddingsForPage_skip env page s Hno).
    exists []. split; [done | by left]. }
  destruct (PageForEmbedding.textContent page) as [content|] eqn:Htext;
    [| done].
  destruct (EmbeddingService.generateEmbeddingsForPage env page s) as [r s']
    eqn:Hrun.
  destruct (generateEmbeddingsForPage_spec _ _ _ _ _ _ Htext Hno Hrun)
    as (_ & _ & new & Hrows & Ht & _).
  exists new. by split.
Qed.

(** A regeneration, on every outcome, leaves the rows of the other pages as
    they are, in the same order. *)
Lemma generateEmbeddingsForPage_others env (page : PageForEmbedding.t) (s : State) :
  filter (λ r, page_id r ≠ PageForEmbedding.id page)
    (table (EmbeddingService.generateEmbeddingsForPage env page s).2)
  = filter (λ r, page_id r ≠ PageForEmbedding.id page) (table s).
Proof.
  destruct (generateEmbeddingsForPage_table env page s)
    as (new & Hrows & [[Ht _]|Ht]); rewrite Ht; [done |].
  rewrite filter_app, filter_filter_same by done.
  rewrite (filter_none _ new), app_nil_r; [done |].
  eapply Forall_impl; [exact Hrows |]. intros r [Hid _] Hne. done.
Qed.

(** The rows of a page after a run that returned on a text: one row per
    chunk, with the chunk's index and text, in order. *)
Lemma regenerated_rows env (page : PageForEmbedding.t) content s s' :
  PageForEmbedding.textContent page = Some content →
  EmbeddingService.hasNoText (Some content) = false →
  EmbeddingService.generateEmbeddingsForPage env page s = (Ok (), s') →
  indexText <$> rowsOfPage (PageForEmbedding.id page) (table s')
  = imap (λ k c, (k, c)) (splitText env content)
  ∧ Forall (rowOf env page)
      (rowsOfPage (PageForEmbedding.id page) (table s')).
Proof.
  intros Htext Hno Hrun.
  destruct (generateEmbeddingsForPage_spec _ _ _ _ _ _ Htext Hno Hrun)
    as (_ & _ & rows & Hrows & _ & Hok).
  destruct (Hok eq_refl) as (Ht & _ & Hix & _).
  unfold rowsOfPage. rewrite Ht, filter_app.
  rewrite filter_none.
  2:{ apply Forall_forall. by intros r [? _]%list_elem_of_filter. }
  rewrite filter_all.
  2:{ eapply Forall_impl; [exact Hrows |]. by intros r [? _]. }
  by split.
Qed.

(** X4. Replaying a regeneration is safe: when two runs in a row return, the
    second leaves for the page the same chunk indices and texts as the first,
    and the same number of rows. *)
Theorem regeneration_replay env (page : PageForEmbedding.t)
  (s s1 s2 : State) :
  EmbeddingService.generateEmbeddingsForPage env page s = (Ok (), s1) →
  EmbeddingService.generateEmbeddingsForPage env page s1 = (Ok (), s2) →
  indexText <$> rowsOfPage (PageForEmbedding.id page) (table s2)
  = indexText <$> rowsOfPage (PageForEmbedding.id page) (table s1)
  ∧ length (table s2) = length (table s1).
Proof.
  intros H1 H2.
  destruct (EmbeddingService.hasNoText (PageForEmbedding.textContent page))
    eqn:Hno.
  { rewrite (generateEmbeddingsForPage_skip env page s1 Hno) in H2.
    by injection H2 as <-. }
  destruct (PageForEmbedding.textContent page) as [content|] eqn:Htext;
    [| done].
  destruct (regenerated_rows _ _ _ _ _ Htext Hno H1) as [Hix1 _].
  destruct (regenerated_rows _ _ _ _ _ Htext Hno H2) as [Hix2 _].
  split; [congruence |].
  pose proof (f_equal length Hix1) as Hl1.
  pose proof (f_equal length Hix2) as Hl2.
  rewrite length_fmap in Hl1, Hl2.
  pose proof (f_equal length (generateEmbeddingsForPage_others env page s1)) as Hf.
  rewrite H2 in Hf. simpl in Hf.
  pose proof (filter_length_split
                (λ r, page_id r = PageForEmbedding.id page) (table s1)).
  pose proof (filter_length_split
                (λ r, page_id r = PageForEmbedding.id page) (table s2)).
  unfold rowsOfPage in *. lia.
Qed.

Lemma regeneration_replay_witness :
  indexText
    <$> rowsOfPage Examples.page1
          (table (EmbeddingService.generateEmbeddingsForPage Examples.envOk
                    (Examples.page (Some (js "hello world")))
                    (EmbeddingService.generateEmbeddingsForPage Examples.envOk
                       (Examples.page (Some (js "hello world")))
                       Examples.seeded).2).2)
  = indexText
      <$> rowsOfPage Examples.page1
            (table (EmbeddingService.generateEmbeddingsForPage Examples.envOk
                      (Examples.page (Some (js "hello world")))
                      Examples.seeded).2)
  ∧ length (table (EmbeddingService.generateEmbeddingsForPage Examples.envOk
                     (Examples.page (Some (js "hello world")))
                     (EmbeddingService.generateEmbeddingsForPage
                        Examples.envOk
                        (Examples.page (Some (js "hello world")))
                        Examples.seeded).2).2)
    = length (table (EmbeddingService.generateEmbeddingsForPage Examples.envOk
                       (Examples.page (Some (js "hello world")))
                       Examples.seeded).2).
Proof.
  apply (regeneration_replay Examples.envOk
           (Examples.page (Some (js "hello world"))) Examples.seeded);
    vm_compute; reflexivity.
Defined.

(** ** Regeneration: the rows left by a run that fails *)

Lemma imap_drop_batch (chunks : list jsstring) i :
  imap (λ k c, (i + k, c)) (drop i chunks)
  = imap (λ k c, (i + k, c)) (slice chunks i (i + 100))
      ++ imap (λ k c, (i + 100 + k, c)) (drop (i + 100) chunks).
Proof.
  unfold slice. replace (i + 100 - i) with 100 by lia.
  rewrite <- (take_drop 100 (drop i chunks)) at 1.
  rewrite imap_app, drop_drop. f_equal.
  apply imap_ext. intros k c Hk. simpl.
  apply lookup_lt_Some in Hk. rewrite length_drop in Hk.
  rewrite length_take, length_drop. f_equal. lia.
Qed.

Lemma processBatch_prefix env page model chunks i s r s' :
  EmbeddingService.processBatch env page model (getAiEmbeddingModel env)
    (EmbeddingService.getEmbeddingDimension env) chunks i s = (r, s') →
  ∃ new, table s' = table s ++ new
       ∧ indexText <$> new
         `prefix_of` imap (λ k c, (i + k, c)) (slice chunks i (i + 100)).
Proof.
  unfold EmbeddingService.processBatch, EmbeddingService.EMBEDDING_BATCH_SIZE.
  set (batch := slice chunks i (i + 100)). munfold.
  destruct (embedMany env (calls s) model batch) as [e|embs].
  - intros_run. exists []. simpl. rewrite app_nil_r.
    split; [done | apply prefix_nil].
  - intros (_ & _ & _ & n & Ht & _)%insertRows_spec. simpl in Ht.
    eexists. split; [exact Ht |]. rewrite fmap_take.
    match goal with
    | |- take n ?l `prefix_of` ?k => replace k with l; [apply prefix_take |]
    end.
    apply list_eq. intros k.
    rewrite list_lookup_fmap, !list_lookup_imap. by destruct (batch !! k).
Qed.

Lemma batchLoop_prefix env page model chunks : ∀ n i s r s',
  length chunks - i ≤ n →
  EmbeddingService.batchLoop env page model (getAiEmbeddingModel env)
    (EmbeddingService.getEmbeddingDimension env) chunks i s = (r, s') →
  ∃ new, table s' = table s ++ new
       ∧ indexText <$> new
         `prefix_of` imap (λ k c, (i + k, c)) (drop i chunks).
Proof.
  induction n as [|n IH]; intros i s r s' Hn; rewrite batchLoop_unfold;
    destruct (decide (i < length chunks)) as [Hi|Hi]; try lia;
    try (intros_run; exists []; rewrite app_nil_r;
         split; [done | apply prefix_nil]).
  destruct (EmbeddingService.processBatch _ _ _ _ _ _ _ _) as [[[]|e] s1]
    eqn:Hb.
  - apply processBatch_spec in Hb as (_ & _ & _ & new1 & Ht1 & _ & Hok1).
    destruct (Hok1 eq_refl) as [Hix1 _].
    unfold EmbeddingService.EMBEDDING_BATCH_SIZE.
    intros (new2 & Ht2 & Hp2)%IH; [| lia].
    exists (new1 ++ new2). split; [by rewrite Ht2, Ht1, app_assoc |].
    rewrite fmap_app, imap_drop_batch.
    change (indexText <$> new1) with
      ((λ r, (chunk_index r, text (metadata r))) <$> new1).
    rewrite Hix1. by apply prefix_app.
  - apply processBatch_prefix in Hb as (new1 & Ht1 & Hp1).
    intros_run. exists new1. split; [done |].
    rewrite imap_drop_batch. by apply prefix_app_r.
Qed.

(** X5. Contiguity survives a failure.  After any run on a page with text,
    whatever its outcome, either the table is untouched or the rows of the
    page are those of its first [k] chunks, for some [k]: their indices are
    [0 .. k - 1] and their texts the first [k] chunks. *)
Theorem stored_rows_prefix env (page : PageForEmbedding.t)
  (content : jsstring) (s : State) :
  PageForEmbedding.textContent page = Some content →
  ¬ blank (Some content) →
  table (EmbeddingService.generateEmbeddingsForPage env page s).2 = table s
  ∨ ∃ k, k ≤ length (splitText env content)
       ∧ chunk_index
           <$> rowsOfPage (PageForEmbedding.id page)
                 (table (EmbeddingService.generateEmbeddingsForPage env page
                           s).2)
         = seq 0 k
       ∧ (λ r, text (metadata r))
           <$> rowsOfPage (PageForEmbedding.id page)
                 (table (EmbeddingService.generateEmbeddingsForPage env page
                           s).2)
         = take k (splitText env content).
Proof.
  intros Htext Hnb.
  assert (Hno : EmbeddingService.hasNoText (Some content) = false).
  { destruct (EmbeddingService.hasNoText _) eqn:E; [| done].
    by apply hasNoText_blank in E. }
  assert (Hrows : ∀ t new,
    Forall (rowOf env page) new →
    indexText <$> new `prefix_of` imap (λ k c, (0 + k, c))
                                    (drop 0 (splitText env content)) →
    ∃ k, k ≤ length (splitText env content)
       ∧ chunk_index
           <$> rowsOfPage (PageForEmbedding.id page)
                 (filter (λ r, page_id r ≠ PageForEmbedding.id page) t ++ new)
         = seq 0 k
       ∧ (λ r, text (metadata r))
           <$> rowsOfPage (PageForEmbedding.id page)
                 (filter (λ r, page_id r ≠ PageForEmbedding.id page) t ++ new)
         = take k (splitText env content)).
  { intros t new Hof [rest Hp]. rewrite drop_0 in Hp.
    change (imap (λ k c, (0 + k, c)) (splitText env content))
      with (imap (λ k (c : jsstring), (k, c)) (splitText env content)) in Hp.
    unfold rowsOfPage. rewrite filter_app, filter_none.
    2:{ apply Forall_forall. by intros r [? _]%list_elem_of_filter. }
    rewrite filter_all.
    2:{ eapply Forall_impl; [exact Hof |]. by intros r [? _]. }
    simpl. exists (length new).
    assert (Hlen : length new ≤ length (splitText env content)).
    { apply (f_equal length) in Hp.
      rewrite length_imap, length_app, length_fmap in Hp. lia. }
    assert (Htake : indexText <$> new
                    = take (length new)
                        (imap (λ k c, (k, c)) (splitText env content))).
    { rewrite Hp, take_app_length'; [done | by rewrite length_fmap]. }
    split; [done |]. split.
    - apply (f_equal (fmap fst)) in Htake.
      rewrite <- list_fmap_compose, fmap_take, fmap_imap in Htake.
      rewrite (imap_ext _ (λ k _, id k)) in Htake by done.
      rewrite imap_seq_0, list_fmap_id, take_seq in Htake.
      rewrite Nat.min_l in Htake by done. exact Htake.
    - apply (f_equal (fmap snd)) in Htake.
      rewrite <- list_fmap_compose, fmap_take, fmap_imap in Htake.
      rewrite (imap_ext _ (λ _ (c : jsstring), c)) in Htake by done.
      rewrite (imap_const id), list_fmap_id in Htake. exact Htake. }
  unfold EmbeddingService.generateEmbeddingsForPage.
  rewrite Htext, Hno. simpl default.
  unfold EmbeddingService.deleteEmbeddingsForPage. munfold.
  destruct (dbFailure env (calls s) _) as [e|]; [by left |]. right. simpl.
  destruct (length (splitText env content) =? 0).
  { simpl. destruct (Hrows (table s) []) as (k & Hk);
      [done | apply prefix_nil |]. rewrite app_nil_r in Hk. eauto. }
  destruct (EmbeddingService.getEmbeddingModel env) as [model|e].
  2:{ simpl. destruct (Hrows (table s) []) as (k & Hk);
        [done | apply prefix_nil |]. rewrite app_nil_r in Hk. eauto. }
  destruct (EmbeddingService.batchLoop _ _ _ _ _ _ _ _) as [r s1] eqn:Hloop.
  pose proof Hloop as Hspec.
  apply (batchLoop_spec _ _ _ _ (length (splitText env content))) in Hspec
    as (_ & _ & new & Ht & Hof & _); [| lia].
  apply (batchLoop_prefix _ _ _ _ (length (splitText env content))) in Hloop
    as (new' & Ht' & Hp); [| lia].
  assert (new' = new) as -> by (rewrite Ht in Ht'; by apply app_inv_head in Ht').
  simpl in Ht.
  assert (Hfinal : table (match r with
                          | Ok _ =>
                              (Ok (), with_call
                                 (Logger LevelDebug
                                    (LogGenerated
                                       (length (splitText env content))
                                       (PageForEmbedding.id page))) s1)
                          | Throw e => (Throw e, s1)
                          end).2 = table s1) by (by destruct r as [[]|]).
  rewrite Hfinal, Ht. by apply Hrows.
Qed.

Lemma stored_rows_prefix_witness :
  table (EmbeddingService.generateEmbeddingsForPage Examples.envFlaky
           (Examples.page (Some (js "bad"))) Examples.seeded).2
  = table Examples.seeded
  ∨ ∃ k, k ≤ length (splitText Examples.envFlaky (js "bad"))
       ∧ chunk_index
           <$> rowsOfPage Examples.page1
                 (table (EmbeddingService.generateEmbeddingsForPage
                           Examples.envFlaky (Examples.page (Some (js "bad")))
                           Examples.seeded).2)
         = seq 0 k
       ∧ (λ r, text (metadata r))
           <$> rowsOfPage Examples.page1
                 (table (EmbeddingService.generateEmbeddingsForPage
                           Examples.envFlaky (Examples.page (Some (js "bad")))
                           Examples.seeded).2)
         = take k (splitText Examples.envFlaky (js "bad")).
Proof.
  apply (stored_rows_prefix Examples.envFlaky (Examples.page (Some (js "bad")))
           (js "bad") Examples.seeded).
  - reflexivity.
  - intros H. inversion H as [|? ? Hc _]. vm_compute in Hc. discriminate Hc.
Defined.

(** ** The driver and the dimension *)

Lemma unsupported_embedding env :
  ¬ supportedDriver env →
  EmbeddingService.getEmbeddingModel env
  = Throw (ErrorObj (js "Unsupported AI driver: " ++ getAiDriver env)).
Proof.
  unfold supportedDriver, EmbeddingService.getEmbeddingModel.
  rewrite !elem_of_cons, elem_of_nil. intros H.
  repeat case_decide; tauto.
Qed.

(** X6. The two factories know the same three drivers: with one of them both
    return a model, and with any other name both throw the same
    "Unsupported AI driver" error, which names the driver. *)
Theorem factories_agree env :
  (supportedDriver env →
   ∃ embeddingModel languageModel,
     EmbeddingService.getEmbeddingModel env = Ok embeddingModel
     ∧ AiSearchService.getLanguageModel env = Ok languageModel)
  ∧ (¬ supportedDriver env →
     EmbeddingService.getEmbeddingModel env
     = Throw (ErrorObj (js "Unsupported AI driver: " ++ getAiDriver env))
     ∧ AiSearchService.getLanguageModel env
       = Throw (ErrorObj (js "Unsupported AI driver: " ++ getAiDriver env))).
Proof.
  unfold supportedDriver, EmbeddingService.getEmbeddingModel,
    AiSearchService.getLanguageModel.
  rewrite !elem_of_cons, elem_of_nil. split; intros H.
  - repeat case_decide; eauto. tauto.
  - repeat case_decide; tauto.
Qed.

(** No preset is named like a member of [Object.prototype]. *)
Lemma presetDimensions_own (modelName : jsstring) :
  modelName ∈ objectPrototype →
  EmbeddingService.presetDimensions !! modelName = None.
Proof.
  unfold objectPrototype. rewrite !elem_of_cons, elem_of_nil.
  intros H. repeat (destruct H as [->|H]; [by vm_compute |]). done.
Qed.

(** X7. [getEmbeddingDimension]: a configured dimension other than zero is
    returned as it is, whatever the model.  Without one (undefined, [NaN] or
    zero) the result is read from the presets: when it is a number it is one
    of 768, 1536 and 3072, and it is 1536 for a model name that is neither a
    preset nor a member of [Object.prototype]; for a model named like such a
    member ("constructor", "toString", ...) it is that inherited member and
    no number at all. *)
Theorem embedding_dimension_resolution env :
  (∀ d, getAiEmbeddingDimension env = Some d → d ≠ 0%Z →
        EmbeddingService.getEmbeddingDimension env = Number d)
  ∧ (getAiEmbeddingDimension env = None
     ∨ getAiEmbeddingDimension env = Some 0%Z →
     (∀ n, EmbeddingService.getEmbeddingDimension env = Number n →
           n ∈ [768%Z; 1536%Z; 3072%Z])
     ∧ (EmbeddingService.presetDimensions !! getAiEmbeddingModel env = None →
        getAiEmbeddingModel env ∉ objectPrototype →
        EmbeddingService.getEmbeddingDimension env = Number 1536)
     ∧ (getAiEmbeddingModel env ∈ objectPrototype →
        EmbeddingService.getEmbeddingDimension env
        = Inherited (getAiEmbeddingModel env))).
Proof.
  unfold EmbeddingService.getEmbeddingDimension. split.
  - intros d -> Hd. by rewrite decide_True.
  - set (modelName := getAiEmbeddingModel env).
    assert (Hread :
      (∀ n, default (Number 1536) (EmbeddingService.presetDimension modelName)
            = Number n → n ∈ [768%Z; 1536%Z; 3072%Z])
      ∧ (EmbeddingService.presetDimensions !! modelName = None →
         modelName ∉ objectPrototype →
         default (Number 1536) (EmbeddingService.presetDimension modelName)
         = Number 1536)
      ∧ (modelName ∈ objectPrototype →
         default (Number 1536) (EmbeddingService.presetDimension modelName)
         = Inherited modelName)).
    { unfold EmbeddingService.presetDimension. split; [| split].
      - intros n.
        destruct (EmbeddingService.presetDimensions !! modelName) as [z|]
          eqn:Hz; simpl.
        + intros [= <-]. apply elem_of_list_to_map_2 in Hz.
          rewrite !elem_of_cons, elem_of_nil in Hz.
          destruct Hz as [Hz|[Hz|[Hz|[Hz|[]]]]]; injection Hz as _ ->;
            rewrite !elem_of_cons; tauto.
        + case_decide; simpl; [done |]. intros [= <-]. set_solver.
      - intros -> Hnot. by rewrite decide_False.
      - intros Hin. rewrite (presetDimensions_own _ Hin).
        by rewrite decide_True. }
    intros [-> | ->]; exact Hread.
Qed.

(** X8. With a driver that is not supported, the regeneration of a page that has
    text and chunks deletes the rows of the page and then throws: the old
    embeddings are gone, none is written, and no embedding call is made. *)
Theorem unsupported_driver_clears_page env (page : PageForEmbedding.t)
  (content : jsstring) (s : State) :
  ¬ supportedDriver env →
  PageForEmbedding.textContent page = Some content →
  ¬ blank (Some content) →
  splitText env content ≠ [] →
  dbFailure env (calls s) (DeleteWherePage (PageForEmbedding.id page)) = None →
  (EmbeddingService.generateEmbeddingsForPage env page s).1
  = Throw (ErrorObj (js "Unsupported AI driver: " ++ getAiDriver env))
  ∧ table (EmbeddingService.generateEmbeddingsForPage env page s).2
    = filter (λ r, page_id r ≠ PageForEmbedding.id page) (table s)
  ∧ calls (EmbeddingService.generateEmbeddingsForPage env page s).2
    = calls s ++ [DeleteWherePage (PageForEmbedding.id page)].
Proof.
  intros Hdriver Htext Hnb Hchunks Hdb.
  assert (Hno : EmbeddingService.hasNoText (Some content) = false).
  { destruct (EmbeddingService.hasNoText _) eqn:E; [| done].
    by apply hasNoText_blank in E. }
  unfold EmbeddingService.generateEmbeddingsForPage.
  rewrite Htext, Hno. simpl default.
  unfold EmbeddingService.deleteEmbeddingsForPage. munfold.
  rewrite Hdb. simpl.
  destruct (length (splitText env content) =? 0) eqn:Hlen.
  { by apply Nat.eqb_eq, length_zero_iff_nil in Hlen. }
  by rewrite (unsupported_embedding env Hdriver).
Qed.

Lemma unsupported_driver_clears_page_witness :
  (EmbeddingService.generateEmbeddingsForPage Worlds.envUnsupported
     (Examples.page (Some (js "hello world"))) Examples.seeded).1
  = Throw (ErrorObj (js "Unsupported AI driver: claude"))
  ∧ table (EmbeddingService.generateEmbeddingsForPage Worlds.envUnsupported
             (Examples.page (Some (js "hello world"))) Examples.seeded).2
    = filter (λ r, page_id r ≠ Examples.page1) (table Examples.seeded)
  ∧ calls (EmbeddingService.generateEmbeddingsForPage Worlds.envUnsupported
             (Examples.page (Some (js "hello world"))) Examples.seeded).2
    = calls Examples.seeded ++ [DeleteWherePage Examples.page1].
Proof.
  apply (unsupported_driver_clears_page Worlds.envUnsupported
           (Examples.page (Some (js "hello world"))) (js "hello world")
           Examples.seeded).
  - unfold supportedDriver. intros H. apply list_elem_of_In in H.
    vm_compute in H. repeat (destruct H as [H|H]; [discriminate H |]).
    exact H.
  - reflexivity.
  - intros H. inversion H as [|? ? Hc _]. vm_compute in Hc. discriminate Hc.
  - discriminate.
  - reflexivity.
Defined.

(** X9. After a regeneration that returns on a page with text, every row of the
    page carries the space and the workspace of the page and the model name
    and the dimension of the configuration: the rows of one run agree on
    them. *)
Theorem regenerated_rows_uniform env (page : PageForEmbedding.t)
  (content : jsstring) (s s' : State) :
  PageForEmbedding.textContent page = Some content →
  ¬ blank (Some content) →
  EmbeddingService.generateEmbeddingsForPage env page s = (Ok (), s') →
  Forall (λ r, space_id r = PageForEmbedding.spaceId page
               ∧ workspace_id r = PageForEmbedding.workspaceId page
               ∧ model_name r = getAiEmbeddingModel env
               ∧ model_dimensions r
                 = EmbeddingService.getEmbeddingDimension env)
    (rowsOfPage (PageForEmbedding.id page) (table s')).
Proof.
  intros Htext Hnb Hrun.
  assert (Hno : EmbeddingService.hasNoText (Some content) = false).
  { destruct (EmbeddingService.hasNoText _) eqn:E; [| done].
    by apply hasNoText_blank in E. }
  destruct (regenerated_rows _ _ _ _ _ Htext Hno Hrun) as [_ Hrows].
  eapply Forall_impl; [exact Hrows |].
  intros r (_ & ? & ? & ? & ? & _). done.
Qed.

Lemma regenerated_rows_uniform_witness :
  Forall (λ r, space_id r = Examples.spaceA
               ∧ workspace_id r = Examples.workspaceW
               ∧ model_name r = js "text-embedding-3-small"
               ∧ model_dimensions r = Number 1536)
    (rowsOfPage Examples.page1
       (table (EmbeddingService.generateEmbeddingsForPage Examples.env250
                 (Examples.page (Some (js "hello world")))
                 Examples.seeded).2)).
Proof.
  apply (regenerated_rows_uniform Examples.env250
           (Examples.page (Some (js "hello world"))) (js "hello world")
           Examples.seeded).
  - reflexivity.
  - intros H. inversion H as [|? ? Hc _]. vm_compute in Hc. discriminate Hc.
  - vm_compute. reflexivity.
Defined.

(** ** The workspace run and the other pages *)

Lemma pagesLoop_frame env (P : page_embeddings → Prop)
  `{∀ r, Decision (P r)} pages : ∀ processedCount skippedCount s,
  (∀ r, P r → page_id r ∉ (PageForEmbedding.id <$> withText pages)) →
  filter P (table (EmbeddingService.pagesLoop env pages processedCount
                     skippedCount s).2)
  = filter P (table s).
Proof.
  induction pages as [|page pages IH]; intros pc sc s HP; simpl; [done |].
  unfold withText in HP. rewrite filter_cons in HP. fold (withText pages) in HP.
  destruct (EmbeddingService.hasNoText (PageForEmbedding.textContent page))
    eqn:Hno.
  - rewrite decide_False in HP by done. by apply IH.
  - rewrite decide_True in HP by done.
    assert (Hstep : filter P
              (table (EmbeddingService.generateEmbeddingsForPage env page s).2)
            = filter P (table s)).
    { rewrite <- (filter_filter_same P
                   (λ r, page_id r ≠ PageForEmbedding.id page)).
      2:{ intros r Hr Heq. apply (HP r Hr). rewrite Heq. constructor. }
      rewrite generateEmbeddingsForPage_others. apply filter_filter_same.
      intros r Hr Heq. apply (HP r Hr). rewrite Heq. constructor. }
    assert (Hrest : ∀ r, P r →
              page_id r ∉ (PageForEmbedding.id <$> withText pages)).
    { intros r Hr Hin. apply (HP r Hr). by constructor. }
    munfold.
    destruct (EmbeddingService.generateEmbeddingsForPage env page s)
      as [[[]|e] s1]; simpl in Hstep; rewrite IH by done; done.
Qed.

(** X10. A workspace run, on every outcome, leaves as they are the rows of every
    page it does not attempt: the pages of other workspaces, the deleted
    pages and the pages without text. *)
Theorem workspace_run_frame env (workspaceId : jsstring) (s : State) :
  filter
    (λ r, page_id r
          ∉ (PageForEmbedding.id
               <$> withText
                     (EmbeddingService.selectPage
                        <$> filter (λ p, pages_workspaceId p = workspaceId
                                         ∧ pages_deletedAt p = None)
                              (pagesTable env))))
    (table (EmbeddingService.generateEmbeddingsForWorkspace env workspaceId
              s).2)
  = filter
      (λ r, page_id r
            ∉ (PageForEmbedding.id
                 <$> withText
                       (EmbeddingService.selectPage
                          <$> filter (λ p, pages_workspaceId p = workspaceId
                                           ∧ pages_deletedAt p = None)
                                (pagesTable env))))
      (table s).
Proof.
  unfold EmbeddingService.generateEmbeddingsForWorkspace,
    EmbeddingService.selectWorkspacePages. munfold. simpl.
  destruct (dbFailure env _ _) as [e|]; simpl; [done |].
  set (pages := EmbeddingService.selectPage <$> _).
  set (s0 := with_call _ (with_call _ (with_call _ s))).
  pose proof (pagesLoop_frame env
                (λ r, page_id r ∉ (PageForEmbedding.id <$> withText pages))
                pages 0%Z 0%Z s0 (λ r Hr, Hr)) as Hframe.
  destruct (EmbeddingService.pagesLoop env pages 0 0 s0) as [[[pc sc]|e] s1];
    simpl in *; exact Hframe.
Qed.

(** ** Retrieval: the nearest rows *)

Lemma nearestRows_nearest env v workspaceId spaceIds limit t :
  ∃ rest,
    matchingRows workspaceId spaceIds t
    ≡ₚ AiSearchService.nearestRows env v workspaceId spaceIds limit t ++ rest
    ∧ (∀ x y,
         x ∈ AiSearchService.nearestRows env v workspaceId spaceIds limit t →
         y ∈ rest → AiSearchService.byDistance env v x y)
    ∧ length (AiSearchService.nearestRows env v workspaceId spaceIds limit t)
      = limit `min` length (matchingRows workspaceId spaceIds t).
Proof.
  unfold AiSearchService.nearestRows. fold (matchingRows workspaceId
    spaceIds t).
  set (l := merge_sort (AiSearchService.byDistance env v)
              (matchingRows workspaceId spaceIds t)).
  assert (Hperm : l ≡ₚ matchingRows workspaceId spaceIds t)
    by apply merge_sort_Permutation.
  exists (drop limit l). split; [by rewrite take_drop |]. split.
  - pose proof (byDistance_total env v). pose proof (byDistance_trans env v).
    intros x y Hx Hy.
    eapply (StronglySorted_app_1_elem_of _ (take limit l) (drop limit l));
      [| done | done].
    rewrite take_drop. by apply StronglySorted_merge_sort.
  - by rewrite length_take, Hperm.
Qed.

(** The chunks returned are the nearest ones of the spaces searched. *)
Lemma findSimilarChunks_nearest env (queryVector : Vector)
  (workspaceId userId : jsstring) (spaceId : option jsstring)
  (s s' : State) (chunks : list SearchChunkResult.t) :
  AiSearchService.findSimilarChunks env queryVector workspaceId userId spaceId
    s = (Ok chunks, s') →
  ∃ spaceIds returned rest,
    searched env userId spaceId = Some spaceIds
    ∧ chunks = AiSearchService.selectColumns env queryVector <$> returned
    ∧ matchingRows workspaceId spaceIds (table s) ≡ₚ returned ++ rest
    ∧ (∀ x y, x ∈ returned → y ∈ rest →
         AiSearchService.byDistance env queryVector x y)
    ∧ length chunks
      = 10 `min` length (matchingRows workspaceId spaceIds (table s)).
Proof.
  intros [[Hscope ->]|(spaceIds & Hscope & Hcast & ->)]%findSimilarChunks_returns.
  - exists [], [], []. unfold searched, matchingRows. rewrite Hscope.
    rewrite filter_none.
    2:{ apply Forall_forall. intros r _ [_ Hin].
        by apply elem_of_nil in Hin. }
    split; [done |]. split; [done |]. split; [done |]. split; [| done].
    intros x y Hx. by apply elem_of_nil in Hx.
  - destruct (nearestRows_nearest env queryVector workspaceId spaceIds
                AiSearchService.TOP_K (table s)) as (rest & Hp & Hn & Hl).
    eexists spaceIds, _, rest. split.
    { unfold searched. destruct (scope env userId spaceId); [done |].
      by rewrite Hcast. }
    split; [done |]. split; [done |]. split; [done |].
    by rewrite length_fmap.
Qed.

(** ** The sources of an answer *)

Lemma uniq_elem (l : list jsstring) : ∀ seen x,
  x ∈ AiSearchService.uniq seen l ↔ x ∈ l ∧ x ∉ seen.
Proof.
  induction l as [|y l IH]; intros seen x; simpl.
  - rewrite elem_of_nil. tauto.
  - case_decide as Hy.
    + rewrite IH, elem_of_cons. split; [tauto |].
      intros [[-> | Hl] Hx]; [done | tauto].
    + rewrite !elem_of_cons, IH, elem_of_cons.
      destruct (decide (x = y)) as [-> | Hne]; [tauto |]. tauto.
Qed.

Lemma selectPagesIn_ids env (pageIds : list jsstring) (i : jsstring) :
  i ∈ (PageInfo.id <$> AiSearchService.selectPagesIn env pageIds)
  ↔ i ∈ pageIds
    ∧ ∃ p sp, p ∈ pagesTable env ∧ sp ∈ spacesTable env
            ∧ pages_id p = i ∧ spaces_id sp = pages_spaceId p.
Proof.
  unfold AiSearchService.selectPagesIn. rewrite list_elem_of_fmap.
  split.
  - intros (info & -> & Hin).
    apply list_elem_of_bind in Hin as (p & Hin & Hp).
    apply list_elem_of_bind in Hin as (sp & Hin & Hsp).
    case_decide as Hc; [| by apply elem_of_nil in Hin].
    apply list_elem_of_singleton in Hin as ->. simpl.
    destruct Hc as [Hs Hid]. split; [done |]. by exists p, sp.
  - intros (Hi & p & sp & Hp & Hsp & <- & Hs).
    eexists. split; [| apply list_elem_of_bind; exists p; split; [| done];
      apply list_elem_of_bind; exists sp; split; [| done];
      rewrite decide_True by done; apply list_elem_of_singleton; done].
    done.
Qed.

Lemma pageMap_lookup (pages : list PageInfo.t) (i : jsstring) :
  is_Some ((list_to_map (reverse ((λ p, (PageInfo.id p, p)) <$> pages))
            : gmap jsstring PageInfo.t) !! i)
  ↔ i ∈ (PageInfo.id <$> pages).
Proof.
  rewrite <- not_eq_None_Some, <- not_elem_of_list_to_map.
  rewrite fmap_reverse, elem_of_reverse, <- list_fmap_compose.
  change (fst ∘ (λ p, (PageInfo.id p, p))) with PageInfo.id.
  split; [apply dec_stable | tauto].
Qed.

Lemma toSource_fields pageMap chunk source :
  AiSearchService.toSource pageMap chunk = Some source →
  (SourceResult.pageId source, SourceResult.chunkIndex source,
   SourceResult.distance source, SourceResult.excerpt source)
  = (SearchChunkResult.pageId chunk, SearchChunkResult.chunkIndex chunk,
     SearchChunkResult.distance chunk,
     take 200 (default [] (SearchChunkResult.chunkText chunk)))
  ∧ SourceResult.title source ≠ []
  ∧ SourceResult.similarity source
    = (1 - default 0 (SourceResult.distance source))%Q.
Proof.
  unfold AiSearchService.toSource.
  destruct (pageMap !! SearchChunkResult.pageId chunk) as [page|]; [| done].
  simpl. intros [= <-]. simpl. split; [done |]. split; [| done].
  destruct (PageInfo.title page) as [[|c t]|]; done.
Qed.

Lemma omap_toSource (pages : list PageInfo.t)
  (chunks : list SearchChunkResult.t) :
  (λ src, (SourceResult.pageId src, SourceResult.chunkIndex src,
           SourceResult.distance src, SourceResult.excerpt src))
    <$> omap (AiSearchService.toSource
                (list_to_map (reverse ((λ p, (PageInfo.id p, p)) <$> pages))))
          chunks
  = (λ c, (SearchChunkResult.pageId c, SearchChunkResult.chunkIndex c,
           SearchChunkResult.distance c,
           take 200 (default [] (SearchChunkResult.chunkText c))))
      <$> citable pages chunks
  ∧ Forall (λ src, SourceResult.title src ≠ []
                   ∧ SourceResult.similarity src
                     = (1 - default 0 (SourceResult.distance src))%Q)
      (omap (AiSearchService.toSource
               (list_to_map (reverse ((λ p, (PageInfo.id p, p)) <$> pages))))
         chunks).
Proof.
  unfold citable.
  set (pageMap := list_to_map _ : gmap jsstring PageInfo.t).
  induction chunks as [|c chunks [IH1 IH2]]; [by split |].
  change (omap (AiSearchService.toSource pageMap) (c :: chunks))
    with (match AiSearchService.toSource pageMap c with
          | Some src => src :: omap (AiSearchService.toSource pageMap) chunks
          | None => omap (AiSearchService.toSource pageMap) chunks
          end).
  destruct (AiSearchService.toSource pageMap c) as [src|] eqn:Hsrc.
  - destruct (toSource_fields _ _ _ Hsrc) as (Hf & Ht & Hs).
    assert (Hsome : is_Some (pageMap !! SearchChunkResult.pageId c)).
    { unfold AiSearchService.toSource in Hsrc.
      by destruct (pageMap !! SearchChunkResult.pageId c). }
    rewrite filter_cons_True by (by apply pageMap_lookup).
    rewrite !fmap_cons, IH1, Hf. split; [done | by constructor].
  - rewrite filter_cons_False; [by split |].
    intros Hin%pageMap_lookup.
    assert (Hsome : is_Some (pageMap !! SearchChunkResult.pageId c))
      by exact Hin.
    unfold AiSearchService.toSource in Hsrc.
    destruct Hsome as [page Hpage]. by rewrite Hpage in Hsrc.
Qed.

(** X12. [buildSources], when it returns: the sources follow the order of the
    chunks and are those of a sub-sequence of them, the chunks whose page was
    not found being dropped without an error; each source carries the page
    id, the chunk index and the distance of its chunk, an excerpt that is the
    first 200 code units of the chunk text, a similarity of one minus the
    distance, and a title that is never empty.  The table is not touched. *)
Theorem buildSources_follow_chunks env (chunks : list SearchChunkResult.t)
  (s s' : State) (sources : list SourceResult.t) :
  AiSearchService.buildSources env chunks s = (Ok sources, s') →
  (∃ cited,
     cited `sublist_of` chunks
     ∧ (λ src, (SourceResult.pageId src, SourceResult.chunkIndex src,
                SourceResult.distance src, SourceResult.excerpt src))
         <$> sources
       = (λ c, (SearchChunkResult.pageId c, SearchChunkResult.chunkIndex c,
                SearchChunkResult.distance c,
                take 200 (default [] (SearchChunkResult.chunkText c))))
           <$> cited)
  ∧ Forall (λ src, SourceResult.title src ≠ []
                   ∧ length (SourceResult.excerpt src) ≤ 200
                   ∧ SourceResult.similarity src
                     = (1 - default 0 (SourceResult.distance src))%Q) sources
  ∧ table s' = table s.
Proof.
  unfold AiSearchService.buildSources. munfold.
  destruct (length chunks =? 0).
  { intros_run. split; [| by split]. exists []. split; [| done].
    apply sublist_nil_l. }
  destruct (dbFailure env _ _); [done |]. intros_run. simpl.
  match goal with
  | |- context [omap (AiSearchService.toSource
                        (list_to_map (reverse (_ <$> ?pages)))) _] =>
      destruct (omap_toSource pages chunks) as [Hproj Hall]
  end.
  split; [| split; [| done]].
  - eexists. split; [| exact Hproj]. apply sublist_filter.
  - apply Forall_forall. intros src Hsrc.
    rewrite Forall_forall in Hall. destruct (Hall src Hsrc) as [Ht Hs].
    split; [done |]. split; [| done].
    apply (list_elem_of_fmap_2 (λ src, (SourceResult.pageId src,
             SourceResult.chunkIndex src, SourceResult.distance src,
             SourceResult.excerpt src))) in Hsrc.
    rewrite Hproj in Hsrc.
    apply list_elem_of_fmap in Hsrc as (c & Heq & _).
    injection Heq as _ _ _ ->. rewrite length_take. lia.
Qed.

(** X13. Which chunks are cited.  When [buildSources] returns, a page is among the
    sources exactly when it is the page of a chunk and has a row in [pages]
    whose space has a row in [spaces]; whether the page is marked as deleted
    plays no part. *)
Theorem buildSources_cites_existing_pages env
  (chunks : list SearchChunkResult.t) (s s' : State)
  (sources : list SourceResult.t) :
  AiSearchService.buildSources env chunks s = (Ok sources, s') →
  ∀ pageId,
    pageId ∈ (SourceResult.pageId <$> sources)
    ↔ pageId ∈ (SearchChunkResult.pageId <$> chunks)
      ∧ ∃ p sp, p ∈ pagesTable env ∧ sp ∈ spacesTable env
              ∧ pages_id p = pageId ∧ spaces_id sp = pages_spaceId p.
Proof.
  unfold AiSearchService.buildSources. munfold.
  destruct (length chunks =? 0) eqn:Hlen.
  { intros_run. apply Nat.eqb_eq, length_zero_iff_nil in Hlen. subst chunks.
    simpl. rewrite elem_of_nil. tauto. }
  destruct (dbFailure env _ _); [done |]. intros_run. simpl.
  match goal with
  | |- context [omap (AiSearchService.toSource
                        (list_to_map (reverse (_ <$> ?pages)))) _] =>
      destruct (omap_toSource pages chunks) as [Hproj _]
  end.
  apply (f_equal (fmap (λ q : jsstring * nat * option Q * jsstring,
                          q.1.1.1))) in Hproj.
  rewrite <- !list_fmap_compose in Hproj.
  change (?f ∘ ?g) with (λ x, f (g x)) in Hproj. simpl in Hproj.
  change (λ x, SourceResult.pageId x) with SourceResult.pageId in Hproj.
  rewrite Hproj. unfold citable.
  rewrite list_elem_of_fmap. split.
  - intros (c & -> & Hc). apply list_elem_of_filter in Hc as [Hin Hc].
    apply selectPagesIn_ids in Hin as [_ Hrows].
    split; [by apply list_elem_of_fmap_2 | done].
  - intros [Hin Hrows]. apply list_elem_of_fmap in Hin as (c & -> & Hc).
    exists c. split; [done |]. apply list_elem_of_filter. split; [| done].
    apply selectPagesIn_ids. split; [| done].
    apply uniq_elem. split; [by apply list_elem_of_fmap_2 |].
    apply not_elem_of_nil.
Qed.

Lemma buildSources_follow_chunks_witness :
  (∃ cited,
     cited `sublist_of` Worlds.retrieved
     ∧ (λ src, (SourceResult.pageId src, SourceResult.chunkIndex src,
                SourceResult.distance src, SourceResult.excerpt src))
         <$> [ {| SourceResult.pageId := Examples.page1;
                  SourceResult.title := js "Notes";
                  SourceResult.slugId := js "s1";
                  SourceResult.spaceSlug := js "a";
                  SourceResult.similarity := (1 - (1 # 10))%Q;
                  SourceResult.distance := Some (1 # 10);
                  SourceResult.chunkIndex := 0;
                  SourceResult.excerpt := js "in A" |} ]
       = (λ c, (SearchChunkResult.pageId c, SearchChunkResult.chunkIndex c,
                SearchChunkResult.distance c,
                take 200 (default [] (SearchChunkResult.chunkText c))))
           <$> cited)
  ∧ Forall (λ src, SourceResult.title src ≠ []
                   ∧ length (SourceResult.excerpt src) ≤ 200
                   ∧ SourceResult.similarity src
                     = (1 - default 0 (SourceResult.distance src))%Q)
      [ {| SourceResult.pageId := Examples.page1;
           SourceResult.title := js "Notes";
           SourceResult.slugId := js "s1";
           SourceResult.spaceSlug := js "a";
           SourceResult.similarity := (1 - (1 # 10))%Q;
           SourceResult.distance := Some (1 # 10);
           SourceResult.chunkIndex := 0;
           SourceResult.excerpt := js "in A" |} ]
  ∧ table (AiSearchService.buildSources Examples.envOk Worlds.retrieved
             Examples.seeded).2
    = table Examples.seeded.
Proof.
  apply (buildSources_follow_chunks Examples.envOk Worlds.retrieved
           Examples.seeded).
  vm_compute. reflexivity.
Defined.

Lemma buildSources_cites_existing_pages_witness :
  Examples.page9
  ∈ (SourceResult.pageId
       <$> [ {| SourceResult.pageId := Examples.page1;
                SourceResult.title := js "Notes";
                SourceResult.slugId := js "s1";
                SourceResult.spaceSlug := js "a";
                SourceResult.similarity := (1 - (1 # 10))%Q;
                SourceResult.distance := Some (1 # 10);
                SourceResult.chunkIndex := 0;
                SourceResult.excerpt := js "in A" |} ])
  ↔ Examples.page9 ∈ (SearchChunkResult.pageId <$> Worlds.retrieved)
    ∧ ∃ p sp, p ∈ pagesTable Examples.envOk ∧ sp ∈ spacesTable Examples.envOk
            ∧ pages_id p = Examples.page9
            ∧ spaces_id sp = pages_spaceId p.
Proof.
  apply (buildSources_cites_existing_pages Examples.envOk Worlds.retrieved
           Examples.seeded
           (AiSearchService.buildSources Examples.envOk Worlds.retrieved
              Examples.seeded).2).
  vm_compute. reflexivity.
Defined.

(** ** The query path: what it leaves and what it always does *)

Lemma streamCalls_snoc cs c :
  streamCalls (cs ++ [c])
  = streamCalls cs ++ match c with StreamText _ _ _ => [c] | _ => [] end.
Proof. unfold streamCalls. rewrite omap_app. by destruct c. Qed.

Lemma findSimilarChunks_frame env queryVector workspaceId userId spaceId
  s r s' :
  AiSearchService.findSimilarChunks env queryVector workspaceId userId spaceId
    s = (r, s') →
  table s' = table s ∧ head s' = head s ∧ ended s' = ended s
  ∧ streamCalls (calls s') = streamCalls (calls s).
Proof.
  unfold AiSearchService.findSimilarChunks,
    AiSearchService.selectNearestRows.
  munfold.
  destruct (truthy spaceId); simpl.
  - destruct (dbFailure env _ (SelectNearest _ _ _ _)); simpl;
      [| destruct (uuidArray env _)]; intros_run; simpl;
      by rewrite streamCalls_snoc, app_nil_r.
  - destruct (dbFailure env _ (SelectUserSpaceIds _));
      [intros_run; simpl; by rewrite streamCalls_snoc, app_nil_r |].
    simpl. destruct (length (getUserSpaceIds env userId) =? 0);
      [intros_run; simpl; by rewrite streamCalls_snoc, app_nil_r |].
    destruct (dbFailure env _ (SelectNearest _ _ _ _)); simpl;
      [| destruct (uuidArray env _)]; intros_run; simpl;
      by rewrite !streamCalls_snoc, !app_nil_r.
Qed.

Lemma buildSources_frame env chunks s r s' :
  AiSearchService.buildSources env chunks s = (r, s') →
  table s' = table s ∧ head s' = head s ∧ ended s' = ended s.
Proof.
  unfold AiSearchService.buildSources. munfold.
  destruct (length chunks =? 0); [by intros_run |].
  destruct (dbFailure env _ _); by intros_run.
Qed.

Lemma askQuestion_frame env query workspaceId userId spaceId s r s' :
  AiSearchService.askQuestion env query workspaceId userId spaceId s = (r, s') →
  table s' = table s ∧ head s' = head s ∧ ended s' = ended s.
Proof.
  unfold AiSearchService.askQuestion. munfold.
  destruct (EmbeddingService.getEmbeddingModel env) as [embeddingModel|e];
    [| by intros_run].
  destruct (embed env (calls s) embeddingModel query) as [e|queryVector];
    [by intros_run |].
  set (s0 := with_call _ s).
  destruct (AiSearchService.findSimilarChunks _ _ _ _ _ s0) as [[chunks|e] s1]
    eqn:Hfind; apply findSimilarChunks_frame in Hfind as (Ht & Hh & He & _);
    simpl in Ht, Hh, He; [| by intros_run].
  destruct (length chunks =? 0); [by intros_run |].
  destruct (AiSearchService.getLanguageModel env) as [languageModel|e];
    [| by intros_run].
  unfold AiSearchService.streamText.
  destruct (textStream env (calls s1) languageModel
              (AiSearchService.buildSystemPrompt chunks) query)
    as [parts failure].
  simpl. rewrite forAwait_spec. simpl.
  destruct failure as [e|]; [by intros_run |].
  match goal with
  | |- context [AiSearchService.buildSources env chunks ?s2] =>
      destruct (AiSearchService.buildSources env chunks s2) as [[sources|e] s3]
        eqn:Hsrc; apply buildSources_frame in Hsrc as (Ht3 & Hh3 & He3);
        simpl in Ht3, Hh3, He3
  end; intros_run; simpl; repeat split; congruence.
Qed.

(** X14. The endpoint always answers.  Whatever the request and whatever fails,
    [ask] returns without throwing, has sent the status 200 and has ended the
    response; and it leaves the table of embeddings as it was. *)
Theorem ask_always_ends env (dto : AiSearchController.AiSearchDTO)
  (userId workspaceId : jsstring) (s : State) :
  (AiSearchController.ask env dto userId workspaceId s).1 = Ok ()
  ∧ head (AiSearchController.ask env dto userId workspaceId s).2 = Some 200%Z
  ∧ ended (AiSearchController.ask env dto userId workspaceId s).2 = true
  ∧ table (AiSearchController.ask env dto userId workspaceId s).2 = table s.
Proof.
  unfold AiSearchController.ask. munfold.
  destruct (AiSearchService.askQuestion env (AiSearchController.query dto)
              workspaceId userId (AiSearchController.spaceId dto)
              (with_head 200 s)) as [[[]|e] s1] eqn:Hrun;
    apply askQuestion_frame in Hrun as (Ht & Hh & _); simpl in *; by rewrite Ht.
Qed.

(** X15. A configuration error reaches the caller.  With a driver that is not
    supported, the endpoint issues no external call at all: it writes one
    error event that names the driver, logs the failure and ends the
    response. *)
Theorem unsupported_driver_error_event env
  (dto : AiSearchController.AiSearchDTO) (userId workspaceId : jsstring)
  (s : State) :
  ¬ supportedDriver env →
  written (AiSearchController.ask env dto userId workspaceId s).2
  = written s
      ++ [Data (Error (js "Unsupported AI driver: " ++ getAiDriver env))]
  ∧ calls (AiSearchController.ask env dto userId workspaceId s).2
    = calls s
        ++ [Logger LevelError
              (LogSearchFailed
                 (js "Unsupported AI driver: " ++ getAiDriver env))].
Proof.
  intros Hdriver.
  unfold AiSearchController.ask, AiSearchService.askQuestion. munfold.
  by rewrite (unsupported_embedding env Hdriver).
Qed.

Lemma unsupported_driver_error_event_witness :
  written (AiSearchController.ask Worlds.envUnsupported Examples.request
             Examples.userU Examples.workspaceW Examples.seeded).2
  = written Examples.seeded
      ++ [Data (Error (js "Unsupported AI driver: "
                         ++ getAiDriver Worlds.envUnsupported))]
  ∧ calls (AiSearchController.ask Worlds.envUnsupported Examples.request
             Examples.userU Examples.workspaceW Examples.seeded).2
    = calls Examples.seeded
        ++ [Logger LevelError
              (LogSearchFailed
                 (js "Unsupported AI driver: "
                    ++ getAiDriver Worlds.envUnsupported))].
Proof.
  apply (unsupported_driver_error_event Worlds.envUnsupported Examples.request
           Examples.userU Examples.workspaceW Examples.seeded).
  unfold supportedDriver. intros H. apply list_elem_of_In in H.
  vm_compute in H. repeat (destruct H as [H|H]; [discriminate H |]).
  exact H.
Defined.

(** X16. The no-result path.  When the workspace has no row in the table and the
    synthesis returns, it has yielded exactly the "no relevant content"
    text, an empty sources event and the sentinel, and the language model
    has not been called. *)
Theorem no_chunks_no_model_call env (query workspaceId userId : jsstring)
  (spaceId : option jsstring) (s s' : State) :
  Forall (λ r, workspace_id r ≠ workspaceId) (table s) →
  AiSearchService.askQuestion env query workspaceId userId spaceId s
  = (Ok (), s') →
  written s'
  = written s
      ++ [ Data (Content
             (js "No relevant content found in your workspace for this query."));
           Data (Sources []); DONE ]
  ∧ streamCalls (calls s') = streamCalls (calls s).
Proof.
  intros Hempty. unfold AiSearchService.askQuestion. munfold.
  destruct (EmbeddingService.getEmbeddingModel env) as [embeddingModel|e];
    [| done].
  destruct (embed env (calls s) embeddingModel query) as [e|queryVector];
    [done |].
  set (s0 := with_call _ s).
  destruct (AiSearchService.findSimilarChunks _ _ _ _ _ s0) as [[chunks|e] s1]
    eqn:Hfind; [| done].
  pose proof (findSimilarChunks_written _ _ _ _ _ _ _ _ Hfind) as Hw.
  pose proof (findSimilarChunks_frame _ _ _ _ _ _ _ _ Hfind)
    as (_ & _ & _ & Hsc).
  apply findSimilarChunks_nearest in Hfind
    as (spaceIds & _ & _ & _ & _ & _ & _ & Hlen).
  unfold matchingRows in Hlen. rewrite filter_none in Hlen.
  2:{ eapply Forall_impl; [exact Hempty |]. simpl. intros r Hr [Heq _].
      done. }
  simpl in Hlen. apply length_zero_iff_nil in Hlen. subst chunks. simpl.
  intros_run. simpl in *. rewrite Hw, Hsc, <- !app_assoc.
  split; [done |]. unfold s0. simpl. by rewrite streamCalls_snoc, app_nil_r.
Qed.

Lemma no_chunks_no_model_call_witness :
  written (AiSearchService.askQuestion Examples.envOk Examples.question
             Examples.workspaceW Examples.userU None (initial [])).2
  = written (initial [])
      ++ [ Data (Content
             (js "No relevant content found in your workspace for this query."));
           Data (Sources []); DONE ]
  ∧ streamCalls
      (calls (AiSearchService.askQuestion Examples.envOk Examples.question
                Examples.workspaceW Examples.userU None (initial [])).2)
    = streamCalls (calls (initial [])).
Proof.
  apply (no_chunks_no_model_call Examples.envOk Examples.question
           Examples.workspaceW Examples.userU None (initial [])).
  - constructor.
  - vm_compute. reflexivity.
Defined.

(** ** The setters of the atoms *)

(** X17. Writing a workspace and reading it back.  With a current user, the
    setter of [workspaceAtom] stores the new workspace as it is given and
    keeps the user; the getter then returns that workspace with
    [hasLicenseKey] set to [true], whatever the value written.  Without a
    current user the write is dropped and the getter still returns null. *)
Theorem workspaceAtom_set_get (newWorkspace : gmap string value) :
  (∀ currentUser,
     License.workspace
       <$> CurrentUserAtoms.workspaceAtom_set (Some currentUser) newWorkspace
     = Some (Some newWorkspace)
     ∧ License.workspaceAtom_get
         (CurrentUserAtoms.workspaceAtom_set (Some currentUser) newWorkspace)
       = Some (<["hasLicenseKey" := VBool true]> newWorkspace)
     ∧ License.userAtom_get
         (CurrentUserAtoms.workspaceAtom_set (Some currentUser) newWorkspace)
       = License.userAtom_get (Some currentUser))
  ∧ License.workspaceAtom_get
      (CurrentUserAtoms.workspaceAtom_set None newWorkspace) = None.
Proof. split; [intros currentUser |]; done. Qed.

(** X18. Writing a user and reading it back.  With a current user, the getter of
    [userAtom] returns the user just written and the workspace read is the
    one read before; without a current user the write is dropped. *)
Theorem userAtom_set_get (newUser : gmap string value) :
  (∀ currentUser,
     License.userAtom_get
       (CurrentUserAtoms.userAtom_set (Some currentUser) newUser)
     = Some newUser
     ∧ License.workspaceAtom_get
         (CurrentUserAtoms.userAtom_set (Some currentUser) newUser)
       = License.workspaceAtom_get (Some currentUser))
  ∧ License.userAtom_get (CurrentUserAtoms.userAtom_set None newUser) = None.
Proof. split; [intros currentUser |]; done. Qed.

(** ** The worker *)

Lemma distinctJobs_ne q :
  distinctJobs q →
  EmbeddingProcessor.GENERATE_PAGE_EMBEDDINGS q
  ≠ EmbeddingProcessor.WORKSPACE_CREATE_EMBEDDINGS q
  ∧ EmbeddingProcessor.GENERATE_PAGE_EMBEDDINGS q
    ≠ EmbeddingProcessor.WORKSPACE_DELETE_EMBEDDINGS q
  ∧ EmbeddingProcessor.DELETE_PAGE_EMBEDDINGS q
    ≠ EmbeddingProcessor.WORKSPACE_CREATE_EMBEDDINGS q
  ∧ EmbeddingProcessor.DELETE_PAGE_EMBEDDINGS q
    ≠ EmbeddingProcessor.WORKSPACE_DELETE_EMBEDDINGS q
  ∧ EmbeddingProcessor.DELETE_PAGE_EMBEDDINGS q
    ≠ EmbeddingProcessor.GENERATE_PAGE_EMBEDDINGS q.
Proof.
  unfold distinctJobs. rewrite !NoDup_cons, !elem_of_cons, !elem_of_nil.
  intros (H1 & H2 & H3 & _). repeat split; intros Heq; rewrite Heq in *; tauto.
Qed.

(** X19. A job of an unknown kind is logged and dropped: [process] returns, and
    neither the table nor the log of the service has changed. *)
Theorem unknown_job_dropped (wk : EmbeddingProcessor.Worker) env
  (job : EmbeddingProcessor.Job) (w : EmbeddingProcessor.WorkerState) :
  EmbeddingProcessor.name job
  ∉ [ EmbeddingProcessor.WORKSPACE_CREATE_EMBEDDINGS
        (EmbeddingProcessor.jobs wk);
      EmbeddingProcessor.WORKSPACE_DELETE_EMBEDDINGS
        (EmbeddingProcessor.jobs wk);
      EmbeddingProcessor.GENERATE_PAGE_EMBEDDINGS (EmbeddingProcessor.jobs wk);
      EmbeddingProcessor.DELETE_PAGE_EMBEDDINGS (EmbeddingProcessor.jobs wk) ] →
  EmbeddingProcessor.process wk env job w
  = (Ok (),
     {| EmbeddingProcessor.service := EmbeddingProcessor.service w;
        EmbeddingProcessor.lines :=
          EmbeddingProcessor.lines w
            ++ [EmbeddingProcessor.WarnUnknownJob
                  (EmbeddingProcessor.name job)] |}).
Proof.
  rewrite !elem_of_cons, elem_of_nil. intros Hname.
  unfold EmbeddingProcessor.process.
  repeat case_decide; try tauto; done.
Qed.

Lemma unknown_job_dropped_witness :
  EmbeddingProcessor.process Worlds.worker Examples.envOk
    (Worlds.pageJob (js "export-page") Examples.page1) Worlds.idle
  = (Ok (),
     {| EmbeddingProcessor.service := Examples.seeded;
        EmbeddingProcessor.lines :=
          [EmbeddingProcessor.WarnUnknownJob (js "export-page")] |}).
Proof.
  apply (unknown_job_dropped Worlds.worker Examples.envOk
           (Worlds.pageJob (js "export-page") Examples.page1) Worlds.idle).
  intros H. apply list_elem_of_In in H. vm_compute in H.
  repeat (destruct H as [H|H]; [discriminate H |]). exact H.
Defined.

(** X20. A page job for a page that is missing or marked as deleted: the worker
    reads [pages], logs a warning and returns; no statement reaches
    [page_embeddings], so the embeddings the page may still have stay. *)
Theorem missing_page_job_warns (wk : EmbeddingProcessor.Worker) env
  (job : EmbeddingProcessor.Job) (pageId : jsstring)
  (w : EmbeddingProcessor.WorkerState) :
  distinctJobs (EmbeddingProcessor.jobs wk) →
  EmbeddingProcessor.name job
  = EmbeddingProcessor.GENERATE_PAGE_EMBEDDINGS (EmbeddingProcessor.jobs wk) →
  EmbeddingProcessor.pageId (EmbeddingProcessor.data job) = Some pageId →
  EmbeddingProcessor.selectPageFailure wk
    (calls (EmbeddingProcessor.service w)) (EmbeddingProcessor.lines w) pageId
  = None →
  Forall (λ p, pages_id p = pageId → pages_deletedAt p ≠ None)
    (pagesTable env) →
  EmbeddingProcessor.process wk env job w
  = (Ok (),
     {| EmbeddingProcessor.service := EmbeddingProcessor.service w;
        EmbeddingProcessor.lines :=
          EmbeddingProcessor.lines w
            ++ [EmbeddingProcessor.SelectPage pageId;
                EmbeddingProcessor.WarnPageNotFound pageId] |}).
Proof.
  intros (Hn1 & Hn2 & _)%distinctJobs_ne Hname Hpage Hsel Hnone.
  unfold EmbeddingProcessor.process. rewrite Hname.
  rewrite decide_False, decide_False, decide_True by done.
  rewrite Hpage. unfold EmbeddingProcessor.handleGeneratePageEmbeddings.
  rewrite Hsel. unfold EmbeddingProcessor.takeFirstPage.
  rewrite filter_none.
  2:{ eapply Forall_impl; [exact Hnone |]. simpl. intros p Hp [Hid Hdel].
      by apply Hp. }
  simpl. unfold EmbeddingProcessor.line. simpl. by rewrite <- app_assoc.
Qed.

Lemma missing_page_job_warns_witness :
  EmbeddingProcessor.process Worlds.worker Examples.envOk
    (Worlds.pageJob (js "generate-page-embeddings") Examples.page9)
    Worlds.idle
  = (Ok (),
     {| EmbeddingProcessor.service := Examples.seeded;
        EmbeddingProcessor.lines :=
          [EmbeddingProcessor.SelectPage Examples.page9;
           EmbeddingProcessor.WarnPageNotFound Examples.page9] |}).
Proof.
  apply (missing_page_job_warns Worlds.worker Examples.envOk
           (Worlds.pageJob (js "generate-page-embeddings") Examples.page9)
           Examples.page9 Worlds.idle).
  - unfold distinctJobs. apply (bool_decide_unpack _). vm_compute. exact I.
  - reflexivity.
  - reflexivity.
  - reflexivity.
  - repeat constructor. vm_compute. discriminate.
Defined.

(** X21. A page job regenerates the live page of that id and fails when the
    regeneration fails.  When the worker finds a page that is not marked as
    deleted, the outcome of [process] and the state of the service are those
    of [generateEmbeddingsForPage] on the row read from [pages]: an error of
    the regeneration is not caught here, it is thrown to the queue. *)
Theorem page_job_runs_regeneration (wk : EmbeddingProcessor.Worker) env
  (job : EmbeddingProcessor.Job) (pageId : jsstring)
  (page : PageForEmbedding.t) (w : EmbeddingProcessor.WorkerState) :
  distinctJobs (EmbeddingProcessor.jobs wk) →
  EmbeddingProcessor.name job
  = EmbeddingProcessor.GENERATE_PAGE_EMBEDDINGS (EmbeddingProcessor.jobs wk) →
  EmbeddingProcessor.pageId (EmbeddingProcessor.data job) = Some pageId →
  EmbeddingProcessor.selectPageFailure wk
    (calls (EmbeddingProcessor.service w)) (EmbeddingProcessor.lines w) pageId
  = None →
  EmbeddingProcessor.takeFirstPage env pageId = Some page →
  (EmbeddingProcessor.process wk env job w).1
  = (EmbeddingService.generateEmbeddingsForPage env page
       (EmbeddingProcessor.service w)).1
  ∧ EmbeddingProcessor.service (EmbeddingProcessor.process wk env job w).2
    = (EmbeddingService.generateEmbeddingsForPage env page
         (EmbeddingProcessor.service w)).2
  ∧ ∃ p, p ∈ pagesTable env ∧ pages_id p = pageId
       ∧ pages_deletedAt p = None ∧ page = EmbeddingService.selectPage p.
Proof.
  intros (Hn1 & Hn2 & _)%distinctJobs_ne Hname Hpage Hsel Hfirst.
  unfold EmbeddingProcessor.process. rewrite Hname.
  rewrite decide_False, decide_False, decide_True by done.
  rewrite Hpage. unfold EmbeddingProcessor.handleGeneratePageEmbeddings.
  rewrite Hsel, Hfirst. unfold EmbeddingProcessor.call. simpl.
  destruct (EmbeddingService.generateEmbeddingsForPage env page
              (EmbeddingProcessor.service w)) as [r s1].
  split; [done |]. split; [done |].
  unfold EmbeddingProcessor.takeFirstPage in Hfirst.
  apply fmap_Some in Hfirst as (p & Hp & ->).
  apply list_elem_of_lookup_2, list_elem_of_filter in Hp as [[Hid Hdel] Hin].
  by exists p.
Qed.

Lemma page_job_runs_regeneration_witness :
  (EmbeddingProcessor.process Worlds.worker Examples.envFlaky
     (Worlds.pageJob (js "generate-page-embeddings") Examples.page2)
     Worlds.idle).1
  = (EmbeddingService.generateEmbeddingsForPage Examples.envFlaky
       (EmbeddingService.selectPage
          (Examples.textPage Examples.page2 (Some (js "bad"))))
       Examples.seeded).1
  ∧ EmbeddingProcessor.service
      (EmbeddingProcessor.process Worlds.worker Examples.envFlaky
         (Worlds.pageJob (js "generate-page-embeddings") Examples.page2)
         Worlds.idle).2
    = (EmbeddingService.generateEmbeddingsForPage Examples.envFlaky
         (EmbeddingService.selectPage
            (Examples.textPage Examples.page2 (Some (js "bad"))))
         Examples.seeded).2
  ∧ ∃ p, p ∈ pagesTable Examples.envFlaky ∧ pages_id p = Examples.page2
       ∧ pages_deletedAt p = None
       ∧ EmbeddingService.selectPage
           (Examples.textPage Examples.page2 (Some (js "bad")))
         = EmbeddingService.selectPage p.
Proof.
  apply (page_job_runs_regeneration Worlds.worker Examples.envFlaky
           (Worlds.pageJob (js "generate-page-embeddings") Examples.page2)
           Examples.page2).
  - unfold distinctJobs. apply (bool_decide_unpack _). vm_compute. exact I.
  - reflexivity.
  - reflexivity.
  - reflexivity.
  - vm_compute. reflexivity.
Defined.

(** The page job of the example fails with the error of the backend. *)
Example page_job_fails :
  (EmbeddingProcessor.process Worlds.worker Examples.envFlaky
     (Worlds.pageJob (js "generate-page-embeddings") Examples.page2)
     Worlds.idle).1
  = Throw (ErrorObj (js "rejected")).
Proof. vm_compute. reflexivity. Qed.

(** X22. A page job whose data names no page does nothing: neither job kind
    issues a statement or logs a line, and [process] returns. *)
Theorem page_job_without_page (wk : EmbeddingProcessor.Worker) env
  (job : EmbeddingProcessor.Job) (w : EmbeddingProcessor.WorkerState) :
  distinctJobs (EmbeddingProcessor.jobs wk) →
  EmbeddingProcessor.name job
  ∈ [ EmbeddingProcessor.GENERATE_PAGE_EMBEDDINGS (EmbeddingProcessor.jobs wk);
      EmbeddingProcessor.DELETE_PAGE_EMBEDDINGS (EmbeddingProcessor.jobs wk) ] →
  EmbeddingProcessor.pageId (EmbeddingProcessor.data job) = None →
  EmbeddingProcessor.process wk env job w = (Ok (), w).
Proof.
  intros (Hn1 & Hn2 & Hn3 & Hn4 & Hn5)%distinctJobs_ne Hname Hpage.
  rewrite !elem_of_cons, elem_of_nil in Hname.
  unfold EmbeddingProcessor.process. rewrite Hpage.
  destruct Hname as [-> | [-> | []]].
  - by rewrite decide_False, decide_False, decide_True.
  - by rewrite decide_False, decide_False, decide_False, decide_True.
Qed.

Lemma page_job_without_page_witness :
  EmbeddingProcessor.process Worlds.worker Examples.envOk
    {| EmbeddingProcessor.name := js "delete-page-embeddings";
       EmbeddingProcessor.data :=
         {| EmbeddingProcessor.workspaceId := Examples.workspaceW;
            EmbeddingProcessor.pageId := None |} |}
    Worlds.idle
  = (Ok (), Worlds.idle).
Proof.
  apply (page_job_without_page Worlds.worker Examples.envOk).
  - unfold distinctJobs. apply (bool_decide_unpack _). vm_compute. exact I.
  - apply list_elem_of_In. right. left. reflexivity.
  - reflexivity.
Defined.

(** ** The deletion jobs *)

(** X23. A page-deletion job that returns has removed every row of the page named
    in its data and no row of another page. *)
Theorem delete_page_job_effect (wk : EmbeddingProcessor.Worker) env
  (job : EmbeddingProcessor.Job) (pageId : jsstring)
  (w : EmbeddingProcessor.WorkerState) :
  distinctJobs (EmbeddingProcessor.jobs wk) →
  EmbeddingProcessor.name job
  = EmbeddingProcessor.DELETE_PAGE_EMBEDDINGS (EmbeddingProcessor.jobs wk) →
  EmbeddingProcessor.pageId (EmbeddingProcessor.data job) = Some pageId →
  (EmbeddingProcessor.process wk env job w).1 = Ok () →
  rowsOfPage pageId
    (table (EmbeddingProcessor.service
              (EmbeddingProcessor.process wk env job w).2)) = []
  ∧ ∀ other, other ≠ pageId →
      rowsOfPage other
        (table (EmbeddingProcessor.service
                  (EmbeddingProcessor.process wk env job w).2))
      = rowsOfPage other (table (EmbeddingProcessor.service w)).
Proof.
  intros (_ & _ & Hn3 & Hn4 & Hn5)%distinctJobs_ne Hname Hpage.
  unfold EmbeddingProcessor.process. rewrite Hname, Hpage.
  rewrite decide_False, decide_False, decide_False, decide_True by done.
  unfold EmbeddingProcessor.handleDeletePageEmbeddings, EmbeddingProcessor.call.
  pose proof (deleteEmbeddingsForPage_rows env pageId
                (EmbeddingProcessor.service w)) as Heff.
  destruct (EmbeddingService.deleteEmbeddingsForPage env pageId
              (EmbeddingProcessor.service w)) as [[[]|e] s1]; simpl in *;
    [| done].
  intros _. destruct Heff as (H1 & H2 & _). by split.
Qed.

Lemma delete_page_job_effect_witness :
  rowsOfPage Examples.page1
    (table (EmbeddingProcessor.service
              (EmbeddingProcessor.process Worlds.worker Examples.envOk
                 (Worlds.pageJob (js "delete-page-embeddings") Examples.page1)
                 Worlds.idle).2)) = []
  ∧ ∀ other, other ≠ Examples.page1 →
      rowsOfPage other
        (table (EmbeddingProcessor.service
                  (EmbeddingProcessor.process Worlds.worker Examples.envOk
                     (Worlds.pageJob (js "delete-page-embeddings")
                        Examples.page1)
                     Worlds.idle).2))
      = rowsOfPage other (table (EmbeddingProcessor.service Worlds.idle)).
Proof.
  apply (delete_page_job_effect Worlds.worker Examples.envOk
           (Worlds.pageJob (js "delete-page-embeddings") Examples.page1)
           Examples.page1 Worlds.idle).
  - unfold distinctJobs. apply (bool_decide_unpack _). vm_compute. exact I.
  - reflexivity.
  - reflexivity.
  - vm_compute. reflexivity.
Defined.

(** ** The grounding prompt *)

Lemma join_infix (sep : jsstring) (l : list jsstring) : ∀ i x,
  l !! i = Some x → ∃ before after, join sep l = before ++ x ++ after.
Proof.
  induction l as [|y l IH]; intros i x Hx; [done |].
  destruct i as [|i]; simpl in Hx.
  - injection Hx as ->. destruct l as [|z l].
    + exists [], []. simpl. by rewrite app_nil_r.
    + exists [], (sep ++ join sep (z :: l)). done.
  - destruct (IH i x Hx) as (before & after & Hj).
    destruct l as [|z l]; [done |].
    exists (y ++ sep ++ before), after.
    change (join sep (y :: z :: l)) with (y ++ sep ++ join sep (z :: l)).
    by rewrite Hj, <- !app_assoc.
Qed.

(** X24. The grounding prompt holds every retrieved chunk: the chunk at position
    [i] appears in it as its number [i + 1] in brackets followed by its text
    (or by "null" when the text is missing). *)
Theorem system_prompt_holds_chunks (chunks : list SearchChunkResult.t)
  (i : nat) (c : SearchChunkResult.t) :
  chunks !! i = Some c →
  ∃ before after,
    AiSearchService.buildSystemPrompt chunks
    = before
        ++ (js "[" ++ js (pretty (i + 1)) ++ js "] "
              ++ default (js "null") (SearchChunkResult.chunkText c))
        ++ after.
Proof.
  intros Hc. unfold AiSearchService.buildSystemPrompt.
  match goal with
  | |- context [join ?sep (imap ?f chunks)] =>
      destruct (join_infix sep (imap f chunks) i (f i c))
        as (b1 & a1 & Hblock);
        [by rewrite list_lookup_imap, Hc |];
      set (contextBlock := join sep (imap f chunks)) in *
  end.
  match goal with
  | |- context [join ?sep ?ls] =>
      destruct (join_infix sep ls 5 contextBlock eq_refl)
        as (b2 & a2 & Hprompt)
  end.
  exists (b2 ++ b1), (a1 ++ a2).
  rewrite Hprompt, Hblock. by rewrite <- !app_assoc.
Qed.

Lemma system_prompt_holds_chunks_witness :
  ∃ before after,
    AiSearchService.buildSystemPrompt Worlds.retrieved
    = before
        ++ (js "[" ++ js (pretty (1 + 1)) ++ js "] "
              ++ default (js "null") (Some (js "in A")))
        ++ after.
Proof.
  apply (system_prompt_holds_chunks Worlds.retrieved 1
           {| SearchChunkResult.pageId := Examples.page1;
              SearchChunkResult.spaceId := Examples.spaceA;
              SearchChunkResult.chunkIndex := 0;
              SearchChunkResult.chunkText := Some (js "in A");
              SearchChunkResult.distance := Some (1 # 10) |}).
  reflexivity.
Defined.

(** ** The entry points of the three shared lemmas *)

(** X1. [deleteEmbeddingsForPage]: when it returns, no row of the page is
    left, the rows of every other page are the ones before, in the same
    order, and the table has shrunk by the rows of the page; when it throws,
    the table is as before. *)
Theorem deleteEmbeddingsForPage_effect env (pageId : jsstring) (s : State) :
  match (EmbeddingService.deleteEmbeddingsForPage env pageId s).1 with
  | Ok _ =>
      rowsOfPage pageId
        (table (EmbeddingService.deleteEmbeddingsForPage env pageId s).2) = []
      ∧ (∀ other, other ≠ pageId →
           rowsOfPage other
             (table (EmbeddingService.deleteEmbeddingsForPage env pageId s).2)
           = rowsOfPage other (table s))
      ∧ length (table (EmbeddingService.deleteEmbeddingsForPage env pageId
                         s).2)
        + length (rowsOfPage pageId (table s)) = length (table s)
  | Throw _ =>
      table (EmbeddingService.deleteEmbeddingsForPage env pageId s).2
      = table s
  end.
Proof. exact (deleteEmbeddingsForPage_rows env pageId s). Qed.

(** X3. A regeneration, on every outcome, leaves the rows of the other pages
    as they are, in the same order. *)
Theorem regeneration_frame env (page : PageForEmbedding.t) (s : State) :
  filter (λ r, page_id r ≠ PageForEmbedding.id page)
    (table (EmbeddingService.generateEmbeddingsForPage env page s).2)
  = filter (λ r, page_id r ≠ PageForEmbedding.id page) (table s).
Proof. exact (generateEmbeddingsForPage_others env page s). Qed.

(** X11. The chunks returned are the nearest ones of the spaces searched.  The
    spaces searched are the UUIDs the database reads from the array literal
    built from the scope (the target space as the caller wrote it, or the
    spaces of the user), and none when the scope is empty.  When
    [findSimilarChunks] returns, the rows of the workspace in those spaces
    split into the rows returned and the rest; no row of the rest is nearer
    to the query than a row returned, and the rows returned are ten, or all
    of them when there are fewer. *)
Theorem nearest_chunks_returned env (queryVector : Vector)
  (workspaceId userId : jsstring) (spaceId : option jsstring)
  (s s' : State) (chunks : list SearchChunkResult.t) :
  AiSearchService.findSimilarChunks env queryVector workspaceId userId spaceId
    s = (Ok chunks, s') →
  ∃ spaceIds returned rest,
    searched env userId spaceId = Some spaceIds
    ∧ chunks = AiSearchService.selectColumns env queryVector <$> returned
    ∧ matchingRows workspaceId spaceIds (table s) ≡ₚ returned ++ rest
    ∧ (∀ x y, x ∈ returned → y ∈ rest →
         AiSearchService.byDistance env queryVector x y)
    ∧ length chunks
      = 10 `min` length (matchingRows workspaceId spaceIds (table s)).
Proof. exact (findSimilarChunks_nearest env _ _ _ _ _ _ _). Qed.

(** A target that lists the spaces [A] and [C], the second in upper case: the
    database reads two UUIDs from the literal and the chunks of both spaces
    are the ones returned. *)
Lemma nearest_chunks_returned_witness :
  ∃ spaceIds returned rest,
    searched Examples.envOk Examples.userU (Some Worlds.targetAC)
    = Some spaceIds
    ∧ [ {| SearchChunkResult.pageId := Examples.page9;
           SearchChunkResult.spaceId := Examples.spaceC;
           SearchChunkResult.chunkIndex := 0;
           SearchChunkResult.chunkText := Some (js "in C");
           SearchChunkResult.distance := Some (1 # 100) |};
        {| SearchChunkResult.pageId := Examples.page1;
           SearchChunkResult.spaceId := Examples.spaceA;
           SearchChunkResult.chunkIndex := 0;
           SearchChunkResult.chunkText := Some (js "in A");
           SearchChunkResult.distance := Some (1 # 10) |} ]
      = AiSearchService.selectColumns Examples.envOk [0%Q] <$> returned
    ∧ matchingRows Examples.workspaceW spaceIds (table Examples.seeded)
      ≡ₚ returned ++ rest
    ∧ (∀ x y, x ∈ returned → y ∈ rest →
         AiSearchService.byDistance Examples.envOk [0%Q] x y)
    ∧ 2 = 10 `min` length (matchingRows Examples.workspaceW spaceIds
                             (table Examples.seeded)).
Proof.
  apply (nearest_chunks_returned Examples.envOk [0%Q] Examples.workspaceW
           Examples.userU (Some Worlds.targetAC) Examples.seeded
           (AiSearchService.findSimilarChunks Examples.envOk [0%Q]
              Examples.workspaceW Examples.userU (Some Worlds.targetAC)
              Examples.seeded).2).
  vm_compute. reflexivity.
Defined.
